(** * The RETURNING layer of the gf ORM: drivers pgsql and sqlite, package gdb

    A shallow embedding of the mutation path that negotiates a RETURNING
    clause (contrib/drivers/pgsql, contrib/drivers/sqlite, database/gdb),
    followed by the properties of that code.

    Conventions of the embedding.
    - A Go [string] is a [string]; the library functions of package
      [strings] that the drivers call are written out in [Module Go] on
      ASCII (white space and letter case outside ASCII are left alone).
    - A Go slice that the code compares with [nil] is an [option (list A)]:
      [None] is the nil slice, [Some l] a slice of the elements [l].
    - A [context.Context] is the chain of its [WithValue] frames, innermost
      first.
    - A method receiver [d *Driver] is a record of the collaborators the
      method calls; calls that reach the database are written to a log. *)

From Stdlib Require Import String Ascii List ZArith Bool Arith Lia.
Import ListNotations.

Local Open Scope string_scope.
Local Open Scope list_scope.

(* ===================================================================== *)
(** ** Go: strings and slices                                             *)
(* ===================================================================== *)

Module Go.

(** The double quote, as a one-character string. *)
Definition dquote : string := String (ascii_of_nat 34) EmptyString.

(** [len] of a possibly nil slice. *)
Definition len {A : Type} (s : option (list A)) : nat :=
  match s with
  | None => 0
  | Some l => length l
  end.

(** The elements of a possibly nil slice: ranging over nil runs no
    iteration. *)
Definition elems {A : Type} (s : option (list A)) : list A :=
  match s with
  | None => []
  | Some l => l
  end.

(** unicode.IsSpace on ASCII: tab, line feed, vertical tab, form feed,
    carriage return, space. *)
Definition isSpace (c : ascii) : bool :=
  let n := nat_of_ascii c in
  (Nat.leb 9 n && Nat.leb n 13) || Nat.eqb n 32.

Fixpoint TrimLeft (s : string) : string :=
  match s with
  | EmptyString => EmptyString
  | String c r => if isSpace c then TrimLeft r else s
  end.

Fixpoint TrimRight (s : string) : string :=
  match s with
  | EmptyString => EmptyString
  | String c r =>
      match TrimRight r with
      | EmptyString => if isSpace c then EmptyString else String c EmptyString
      | r' => String c r'
      end
  end.

(** strings.TrimSpace *)
Definition TrimSpace (s : string) : string := TrimRight (TrimLeft s).

Definition upperChar (c : ascii) : ascii :=
  let n := nat_of_ascii c in
  if Nat.leb 97 n && Nat.leb n 122 then ascii_of_nat (n - 32) else c.

(** strings.ToUpper *)
Fixpoint ToUpper (s : string) : string :=
  match s with
  | EmptyString => EmptyString
  | String c r => String (upperChar c) (ToUpper r)
  end.

(** strings.HasPrefix *)
Fixpoint HasPrefix (s p : string) {struct p} : bool :=
  match p with
  | EmptyString => true
  | String b p' =>
      match s with
      | EmptyString => false
      | String a s' => Ascii.eqb a b && HasPrefix s' p'
      end
  end.

(** strings.Index: the position of the first occurrence, [None] for -1. *)
Fixpoint Index (s sub : string) : option nat :=
  if HasPrefix s sub then Some 0
  else match s with
       | EmptyString => None
       | String _ r => option_map S (Index r sub)
       end.

(** strings.Contains *)
Definition Contains (s sub : string) : bool :=
  match Index s sub with
  | Some _ => true
  | None => false
  end.

Fixpoint take (n : nat) (s : string) : string :=
  match n, s with
  | S n', String c r => String c (take n' r)
  | _, _ => EmptyString
  end.

Fixpoint drop (n : nat) (s : string) : string :=
  match n, s with
  | S n', String _ r => drop n' r
  | _, _ => s
  end.

(** strings.SplitN for a non-empty separator and a count [n >= 0]: at most
    [n] pieces, the last one the unsplit rest. *)
Fixpoint SplitN (s sep : string) (n : nat) : list string :=
  match n with
  | 0 => []
  | S n' =>
      match n' with
      | 0 => [s]
      | S _ =>
          match Index s sep with
          | None => [s]
          | Some i => take i s :: SplitN (drop (i + String.length sep) s) sep n'
          end
      end
  end.

(** gstr.Join / strings.Join *)
Fixpoint Join (l : list string) (sep : string) : string :=
  match l with
  | [] => EmptyString
  | [x] => x
  | x :: r => x ++ sep ++ Join r sep
  end.

End Go.

(* ===================================================================== *)
(** ** Package gdb: records, errors, the call context                     *)
(* ===================================================================== *)

Module gdb.

(** gcode: the error codes this layer produces, and the errors a
    collaborator hands back. *)
Inductive Code : Type :=
| CodeNotSupported
| CodeNotFound
| CodeInternalError
| CodeDriver.

Record Error : Type := NewCode { err_code : Code; err_text : string }.

(** A column value ([*gvar.Var]). *)
Inductive Var : Type :=
| VarInt (z : Z)
| VarStr (s : string).

(** gdb.Record: column name to value; a column bound to a nil value reads
    the same as a missing column. *)
Definition Record : Type := list (string * Var).

Fixpoint record_get (r : Record) (k : string) : option Var :=
  match r with
  | [] => None
  | (k', v) :: r' => if String.eqb k' k then Some v else record_get r' k
  end.

(** gdb.Result: the rows of a query, possibly nil. *)
Definition Result : Type := option (list Record).

(** gdb.TableField, the fields the drivers read. *)
Record TableField : Type :=
  { Name : string; Type_ : string; Key : string }.

(** A value stored in a context: a nil interface, a [[]string] (possibly a
    nil slice), a [TableField], or a value of any other type. *)
Inductive CtxValue : Type :=
| CtxNil
| CtxStrings (fields : option (list string))
| CtxTableField (f : TableField)
| CtxOther.

(** context.Context as its chain of [WithValue] frames. *)
Definition Context : Type := list (string * CtxValue).

(** context.WithValue *)
Definition WithValue (ctx : Context) (key : string) (v : CtxValue) : Context :=
  (key, v) :: ctx.

(** ctx.Value(key): the innermost frame with that key decides; [CtxNil]
    when there is none. *)
Fixpoint Value (ctx : Context) (key : string) : CtxValue :=
  match ctx with
  | [] => CtxNil
  | (k, v) :: parent => if String.eqb k key then v else Value parent key
  end.

(** ReturningKeyInCtx gctx.StrKey = "ReturningFields" *)
Definition ReturningKeyInCtx : string := "ReturningFields".

(** InjectReturning injects RETURNING fields into context. *)
Definition InjectReturning (ctx : Context) (fields : option (list string))
  : Context :=
  if Nat.eqb (Go.len fields) 0 then ctx
  else WithValue ctx ReturningKeyInCtx (CtxStrings fields).

(** GetReturningFromCtx retrieves RETURNING fields from context. *)
Definition GetReturningFromCtx (ctx : Context) : option (list string) :=
  match Value ctx ReturningKeyInCtx with
  | CtxNil => None
  | CtxStrings fields => fields
  | _ => None
  end.

End gdb.

(* ===================================================================== *)
(** ** database/sql.Result and the types of the drivers that implement it *)
(* ===================================================================== *)

Module sql.

(** A result of the underlying database driver, as the answers of its two
    methods. *)
Record NativeResult : Type :=
  { native_RowsAffected : Z * option gdb.Error;
    native_LastInsertId : Z * option gdb.Error }.

(** pgsql.Result, with the fields that pgsql's DoExec fills in. *)
Record PgsqlResult : Type :=
  { affected : Z;
    lastInsertId : Z;
    lastInsertIdError : option gdb.Error;
    pg_records : gdb.Result }.

(** The zero value [Result{}] of pgsql.Result. *)
Definition PgsqlZero : PgsqlResult :=
  {| affected := 0; lastInsertId := 0; lastInsertIdError := None;
     pg_records := None |}.

(** sqlite.Result: an embedded sql.Result, possibly nil, and the records
    from the RETURNING clause. *)
Record SqliteResult : Type :=
  { embedded : option NativeResult;
    records : gdb.Result }.

(** A value of interface type sql.Result, by its dynamic type. *)
Inductive Result : Type :=
| Native (r : NativeResult)
| Pgsql (r : PgsqlResult)
| Sqlite (r : SqliteResult).

End sql.

(* ===================================================================== *)
(** ** The collaborators of a driver and the log of its calls             *)
(* ===================================================================== *)

Module core.

(** gdb.Link: a connection or a transaction. *)
Record Link : Type := { link_id : nat; IsTransaction : bool }.

Definition Args : Type := list gdb.Var.

Inductive SqlType : Type :=
| SqlTypeQueryContext
| SqlTypeExecContext.

(** gdb.DoCommitInput ([Stmt] is nil at every call of this layer). *)
Record DoCommitInput : Type :=
  { in_Link : Link;
    in_Sql : string;
    in_Args : Args;
    in_Type : SqlType;
    in_IsTransaction : bool }.

(** gdb.DoCommitOutput, the fields this layer reads. *)
Record DoCommitOutput : Type :=
  { out_Result : option sql.NativeResult;
    out_Records : gdb.Result }.

(** gdb.InsertOption *)
Inductive InsertOption : Type :=
| InsertOptionDefault
| InsertOptionReplace
| InsertOptionSave
| InsertOptionIgnore
| InsertOptionUnknown.

(** gdb.DoInsertOption, the fields the drivers read. *)
Record DoInsertOption : Type :=
  { opt_InsertOption : InsertOption;
    opt_Returning : option (list string) }.

(** gdb.List: the rows to insert. *)
Definition DataList : Type := list gdb.Record.

(** What the embedded [*gdb.Core] (and package gdb) answers to a driver.
    [TXFromCtx ctx] stands for [gdb.TXFromCtx(ctx, d.GetGroup())], the
    transaction as a link; [VarInt64] for the method Int64 of gvar.Var. *)
Record Driver : Type :=
  { TXFromCtx : gdb.Context -> option Link;
    MasterLink : gdb.Error + Link;
    FormatSqlBeforeExecuting : string -> Args -> string * Args;
    DoFilter : gdb.Context -> Link -> string -> Args ->
               gdb.Error + (string * Args);
    DoCommit : gdb.Context -> DoCommitInput -> gdb.Error + DoCommitOutput;
    CoreDoExec : gdb.Context -> option Link -> string -> Args ->
                 gdb.Error + sql.Result;
    CoreDoInsert : gdb.Context -> option Link -> string -> DataList ->
                   DoInsertOption -> gdb.Error + sql.Result;
    TableFields : gdb.Context -> string -> gdb.Error + list gdb.TableField;
    VarInt64 : gdb.Var -> Z }.

(** The calls of one mutation that leave the driver, in order. *)
Inductive Call : Type :=
| CallMasterLink
| CallDoFilter (link : Link) (sql : string) (args : Args)
| CallDoCommit (input : DoCommitInput)
| CallCoreDoExec (link : option Link) (sql : string) (args : Args)
| CallCoreDoInsert (ctx : gdb.Context) (link : option Link)
| CallTableFields (table : string).

(** A computation that logs its calls and returns a value or an error. *)
Definition M (A : Type) : Type := list Call * (gdb.Error + A).

Definition ret {A : Type} (a : A) : M A := ([], inr a).

Definition fail {A : Type} (e : gdb.Error) : M A := ([], inl e).

Definition bind {A B : Type} (m : M A) (f : A -> M B) : M B :=
  match m with
  | (l, inl e) => (l, inl e)
  | (l, inr a) => let (l', r) := f a in (l ++ l', r)
  end.

Definition call {A : Type} (c : Call) (answer : gdb.Error + A) : M A :=
  ([c], answer).

Definition calls {A : Type} (m : M A) : list Call := fst m.

Definition outcome {A : Type} (m : M A) : gdb.Error + A := snd m.

Declare Scope go_scope.
Delimit Scope go_scope with go.
Notation "x <- m ;; k" := (bind m (fun x => k))
  (at level 61, m at next level, right associativity) : go_scope.
Notation "' p <- m ;; k" := (bind m (fun x => let p := x in k))
  (at level 61, p pattern, m at next level, right associativity) : go_scope.

(** The block "Transaction checks." of DoExec: the link a statement is
    sent through. *)
Definition TransactionChecks (d : Driver) (ctx : gdb.Context)
           (link : option Link) : M Link :=
  match link with
  | None =>
      match TXFromCtx d ctx with
      | Some tx => ret tx
      | None => call CallMasterLink (MasterLink d)
      end
  | Some l =>
      if negb (IsTransaction l) then
        match TXFromCtx d ctx with
        | Some tx => ret tx
        | None => ret l
        end
      else ret l
  end.

End core.

(* ===================================================================== *)
(** ** contrib/drivers/pgsql                                              *)
(* ===================================================================== *)

Module pgsql.
Import core.
Local Open Scope go_scope.

(** The text a field of the requested list contributes to the clause:
    the body of the loop of buildReturningClause. *)
Definition quoteField (field0 : string) : string :=
  let field := Go.TrimSpace field0 in
  if String.eqb field "*" then "*"
  else if Go.HasPrefix (Go.ToUpper field) "OLD." then
    match Go.SplitN field "." 2 with
    | [_; p1] =>
        if String.eqb p1 "*" then "OLD.*"
        else "OLD." ++ Go.dquote ++ p1 ++ Go.dquote
    | _ => Go.dquote ++ field ++ Go.dquote
    end
  else if Go.HasPrefix (Go.ToUpper field) "NEW." then
    match Go.SplitN field "." 2 with
    | [_; p1] =>
        if String.eqb p1 "*" then "NEW.*"
        else "NEW." ++ Go.dquote ++ p1 ++ Go.dquote
    | _ => Go.dquote ++ field ++ Go.dquote
    end
  else Go.dquote ++ field ++ Go.dquote.

(** buildReturningClause builds the RETURNING clause for PostgreSQL:
    [quotedFields] grows by one element per field of the loop. *)
Definition buildReturningClause (fields : list string) : string :=
  match fields with
  | [] => EmptyString
  | _ =>
      let quotedFields :=
        fold_left (fun quoted field => quoted ++ [quoteField field])
                  fields [] in
      "RETURNING " ++ Go.Join quotedFields ", "
  end.

(** The local variables of DoExec once the returning mode is decided. *)
Record Locals : Type :=
  { l_sql : string;
    isUseCoreDoExec : bool;
    isUserReturning : bool;
    primaryKey : string;
    pkField : gdb.TableField }.

Definition zeroField : gdb.TableField :=
  {| gdb.Name := EmptyString; gdb.Type_ := EmptyString;
     gdb.Key := EmptyString |}.

Definition notSupportedCustom : gdb.Error :=
  gdb.NewCode gdb.CodeNotSupported
    "LastInsertId is not supported when using custom RETURNING clause".

Definition notSupportedType (ty : string) : gdb.Error :=
  gdb.NewCode gdb.CodeNotSupported
    ("LastInsertId is not supported by primary key type: " ++ ty).

Definition notSupportedReplace : gdb.Error :=
  gdb.NewCode gdb.CodeNotSupported
    "Replace operation is not supported by pgsql driver".

Section Driver.

(** The context key of the primary-key field, a constant of the package. *)
Variable internalPrimaryKeyInCtx : string.

Variable d : Driver.

(** The block of DoExec that reads the context: user RETURNING fields
    first, the primary key of an INSERT next, the default DoExec last. *)
Definition returningMode (ctx : gdb.Context) (sql : string) : Locals :=
  let returningFields := gdb.GetReturningFromCtx ctx in
  if Nat.ltb 0 (Go.len returningFields) then
    {| l_sql := sql ++ " " ++ buildReturningClause (Go.elems returningFields);
       isUseCoreDoExec := false;
       isUserReturning := true;
       primaryKey := EmptyString;
       pkField := zeroField |}
  else
    match gdb.Value ctx internalPrimaryKeyInCtx with
    | gdb.CtxNil =>
        {| l_sql := sql; isUseCoreDoExec := true; isUserReturning := false;
           primaryKey := EmptyString; pkField := zeroField |}
    | gdb.CtxTableField f =>
        if negb (String.eqb (gdb.Name f) EmptyString)
           && Go.Contains sql "INSERT INTO" then
          {| l_sql := sql ++ " RETURNING " ++ Go.dquote ++ gdb.Name f
                          ++ Go.dquote;
             isUseCoreDoExec := false;
             isUserReturning := false;
             primaryKey := gdb.Name f;
             pkField := f |}
        else
          {| l_sql := sql; isUseCoreDoExec := true; isUserReturning := false;
             primaryKey := EmptyString; pkField := f |}
    | _ =>
        {| l_sql := sql; isUseCoreDoExec := true; isUserReturning := false;
           primaryKey := EmptyString; pkField := zeroField |}
    end.

(** The end of DoExec: the Result built from the output of the query. *)
Definition resultOf (v : Locals) (out : DoCommitOutput) : sql.PgsqlResult :=
  let affected := Go.len (out_Records out) in
  if isUserReturning v then
    {| sql.affected := Z.of_nat affected;
       sql.lastInsertId := 0;
       sql.lastInsertIdError := Some notSupportedCustom;
       sql.pg_records := out_Records out |}
  else if Nat.ltb 0 affected then
    if negb (Go.Contains (gdb.Type_ (pkField v)) "int") then
      {| sql.affected := Z.of_nat affected;
         sql.lastInsertId := 0;
         sql.lastInsertIdError := Some (notSupportedType (gdb.Type_ (pkField v)));
         sql.pg_records := None |}
    else
      match gdb.record_get
              (nth (affected - 1) (Go.elems (out_Records out)) [])
              (primaryKey v) with
      | Some value =>
          {| sql.affected := Z.of_nat affected;
             sql.lastInsertId := VarInt64 d value;
             sql.lastInsertIdError := None;
             sql.pg_records := None |}
      | None => sql.PgsqlZero
      end
  else sql.PgsqlZero.

(** DoExec commits the sql string and its arguments to underlying driver
    through given link object and returns the execution result. *)
Definition DoExec (ctx : gdb.Context) (link : option Link) (sql : string)
           (args : Args) : M sql.Result :=
  link <- TransactionChecks d ctx link ;;
  let v := returningMode ctx sql in
  if isUseCoreDoExec v then
    call (CallCoreDoExec (Some link) (l_sql v) args)
         (CoreDoExec d ctx (Some link) (l_sql v) args)
  else
    let (sql1, args1) := FormatSqlBeforeExecuting d (l_sql v) args in
    '(sql2, args2) <- call (CallDoFilter link sql1 args1)
                           (DoFilter d ctx link sql1 args1) ;;
    let input :=
      {| in_Link := link; in_Sql := sql2; in_Args := args2;
         in_Type := SqlTypeQueryContext;
         in_IsTransaction := IsTransaction link |} in
    out <- call (CallDoCommit input) (DoCommit d ctx input) ;;
    ret (sql.Pgsql (resultOf v out)).

(** The first field of the table with key "pri", in the order the fields
    are ranged over. *)
Fixpoint firstPri (tableFields : list gdb.TableField)
  : option gdb.TableField :=
  match tableFields with
  | [] => None
  | field :: rest =>
      if String.eqb (gdb.Key field) "pri" then Some field else firstPri rest
  end.

(** DoInsert inserts or updates data for given table. *)
Definition DoInsert (ctx : gdb.Context) (link : option Link) (table : string)
           (list : DataList) (option : DoInsertOption) : M sql.Result :=
  match opt_InsertOption option with
  | InsertOptionReplace => fail notSupportedReplace
  | o =>
      ctx1 <-
        match o with
        | InsertOptionDefault =>
            if Nat.eqb (Go.len (opt_Returning option)) 0 then
              match call (CallTableFields table) (TableFields d ctx table) with
              | (l, inr tableFields) =>
                  match firstPri tableFields with
                  | Some field =>
                      (l, inr (gdb.WithValue ctx internalPrimaryKeyInCtx
                                 (gdb.CtxTableField field)))
                  | None => (l, inr ctx)
                  end
              | (l, inl _) => (l, inr ctx)
              end
            else ret ctx
        | _ => ret ctx
        end ;;
      let ctx2 :=
        if Nat.ltb 0 (Go.len (opt_Returning option))
        then gdb.InjectReturning ctx1 (opt_Returning option)
        else ctx1 in
      call (CallCoreDoInsert ctx2 link)
           (CoreDoInsert d ctx2 link table list option)
  end.

End Driver.

End pgsql.

(* ===================================================================== *)
(** ** contrib/drivers/sqlite                                             *)
(* ===================================================================== *)

Module sqlite.
Import core.
Local Open Scope go_scope.

(** The body of the loop of buildReturningClause. *)
Definition quoteField (field0 : string) : string :=
  let field := Go.TrimSpace field0 in
  if String.eqb field "*" then "*" else "`" ++ field ++ "`".

(** buildReturningClause builds the RETURNING clause for SQLite. *)
Definition buildReturningClause (fields : list string) : string :=
  match fields with
  | [] => EmptyString
  | _ =>
      let quotedFields :=
        fold_left (fun quoted field => quoted ++ [quoteField field])
                  fields [] in
      "RETURNING " ++ Go.Join quotedFields ", "
  end.

(** RowsAffected returns the number of rows affected by the operation.
    When RETURNING clause is used, it returns the count of returned
    records. *)
Definition RowsAffected (r : sql.SqliteResult) : Z * option gdb.Error :=
  match sql.records r with
  | Some records => (Z.of_nat (length records), None)
  | None =>
      match sql.embedded r with
      | Some native => sql.native_RowsAffected native
      | None => (0%Z, None)
      end
  end.

(** LastInsertId returns the last inserted ID. *)
Definition LastInsertId (r : sql.SqliteResult) : Z * option gdb.Error :=
  match sql.embedded r with
  | Some native => sql.native_LastInsertId native
  | None => (0%Z, None)
  end.

(** GetRecords returns the records from RETURNING clause. *)
Definition GetRecords (r : sql.SqliteResult) : gdb.Result := sql.records r.

(** internalReturningInCtx gctx.StrKey = "returning_fields" *)
Definition internalReturningInCtx : string := "returning_fields".

Section Driver.

Variable d : Driver.

(** DoExec of sqlite_do_exec.go: the clause is appended and the statement
    goes to the default DoExec. *)
Definition DoExec (ctx : gdb.Context) (link : option Link) (sql : string)
           (args : Args) : M sql.Result :=
  let sql1 :=
    match gdb.Value ctx internalReturningInCtx with
    | gdb.CtxStrings fields =>
        if Nat.ltb 0 (Go.len fields)
        then (sql ++ " " ++ buildReturningClause (Go.elems fields))%string
        else sql
    | _ => sql
    end in
  call (CallCoreDoExec link sql1 args) (CoreDoExec d ctx link sql1 args).

(** DoInsert of the revision that goes with it (its own context key). *)
Definition DoInsert_ctxkey (ctx : gdb.Context) (link : option Link)
           (table : string) (list : DataList) (option : DoInsertOption)
  : M sql.Result :=
  let ctx1 :=
    if Nat.ltb 0 (Go.len (opt_Returning option))
    then gdb.WithValue ctx internalReturningInCtx
                       (gdb.CtxStrings (opt_Returning option))
    else ctx in
  call (CallCoreDoInsert ctx1 link)
       (CoreDoInsert d ctx1 link table list option).

(** DoInsert of sqlite_do_insert.go. *)
Definition DoInsert (ctx : gdb.Context) (link : option Link)
           (table : string) (list : DataList) (option : DoInsertOption)
  : M sql.Result :=
  let ctx1 :=
    if Nat.ltb 0 (Go.len (opt_Returning option))
    then gdb.InjectReturning ctx (opt_Returning option)
    else ctx in
  call (CallCoreDoInsert ctx1 link)
       (CoreDoInsert d ctx1 link table list option).

(** DoExec, the revision that reads the fields with GetReturningFromCtx
    and still goes to the default DoExec. *)
Definition DoExec_default (ctx : gdb.Context) (link : option Link)
           (sql : string) (args : Args) : M sql.Result :=
  let returningFields := gdb.GetReturningFromCtx ctx in
  let sql1 :=
    if Nat.ltb 0 (Go.len returningFields)
    then (sql ++ " " ++ buildReturningClause (Go.elems returningFields))%string
    else sql in
  call (CallCoreDoExec link sql1 args) (CoreDoExec d ctx link sql1 args).

(** DoExec, the revision that executes the statement as a query and
    returns a Result with the RETURNING records. *)
Definition DoExec_query (ctx : gdb.Context) (link : option Link)
           (sql : string) (args : Args) : M sql.Result :=
  let returningFields := gdb.GetReturningFromCtx ctx in
  if Nat.eqb (Go.len returningFields) 0 then
    call (CallCoreDoExec link sql args) (CoreDoExec d ctx link sql args)
  else
    let sql0 :=
      (sql ++ " " ++ buildReturningClause (Go.elems returningFields))%string in
    link <- TransactionChecks d ctx link ;;
    let (sql1, args1) := FormatSqlBeforeExecuting d sql0 args in
    '(sql2, args2) <- call (CallDoFilter link sql1 args1)
                           (DoFilter d ctx link sql1 args1) ;;
    let input :=
      {| in_Link := link; in_Sql := sql2; in_Args := args2;
         in_Type := SqlTypeQueryContext;
         in_IsTransaction := IsTransaction link |} in
    out <- call (CallDoCommit input) (DoCommit d ctx input) ;;
    ret (sql.Sqlite {| sql.embedded := out_Result out;
                       sql.records := out_Records out |}).

End Driver.

End sqlite.

(* ===================================================================== *)
(** ** Package gdb: Model.Returning and the scan-and-return helpers       *)
(* ===================================================================== *)

Module model.
Import core.

(** An argument of type [any]. *)
Definition Any : Type := gdb.Var.

(** gdb.Model, the fields this layer sets. *)
Record Model : Type :=
  { returning : option (list string);
    data : list Any;
    where_ : list Any }.

(** Returning sets the fields to be returned after INSERT/UPDATE/DELETE
    operations. *)
Definition Returning (m : Model) (fields : option (list string)) : Model :=
  {| returning := fields; data := data m; where_ := where_ m |}.

(** ReturningAll sets all fields to be returned after INSERT/UPDATE/DELETE
    operations. *)
Definition ReturningAll (m : Model) : Model :=
  {| returning := Some ["*"]; data := data m; where_ := where_ m |}.

(** The dynamic types of sql.Result with a method GetRecords, and what it
    answers.  sqlite.Result declares it; for pgsql.Result the comment in
    DoExec says that the records are read with GetRecords(). *)
Definition GetRecords (r : sql.Result) : option gdb.Result :=
  match r with
  | sql.Native _ => None
  | sql.Pgsql p => Some (sql.pg_records p)
  | sql.Sqlite s => Some (sqlite.GetRecords s)
  end.

(** SqlResultToReturning attempts to convert a sql.Result to
    ReturningResult.  Returns nil if the result doesn't implement
    ReturningResult interface. *)
Definition SqlResultToReturning (result : sql.Result) : option sql.Result :=
  match GetRecords result with
  | Some _ => Some result
  | None => None
  end.

(** The methods of Model that the helpers call. [Structs records] stands
    for [records.Structs(pointer)]. *)
Record Methods : Type :=
  { Data : Model -> list Any -> Model;
    Where : Model -> Any -> list Any -> Model;
    Insert : Model -> gdb.Error + sql.Result;
    InsertIgnore : Model -> gdb.Error + sql.Result;
    Save : Model -> gdb.Error + sql.Result;
    Replace : Model -> gdb.Error + sql.Result;
    Update : Model -> gdb.Error + sql.Result;
    Delete : Model -> gdb.Error + sql.Result;
    Structs : list gdb.Record -> option gdb.Error }.

Definition notSupportedScan (helper drivers : string) : gdb.Error :=
  gdb.NewCode gdb.CodeNotSupported
    (helper ++ " is not supported by current database driver, "
            ++ "it requires database support for RETURNING clause ("
            ++ drivers ++ ")").

Definition notFoundScan : gdb.Error :=
  gdb.NewCode gdb.CodeNotFound "no records returned from RETURNING clause".

Section Helpers.

Variable ops : Methods.

(** The common end of the three helpers: from the outcome of the mutation
    to the error the helper returns (nil is [None]). *)
Definition scanReturning (helper drivers : string)
           (res : gdb.Error + sql.Result) : option gdb.Error :=
  match res with
  | inl err => Some err
  | inr result =>
      match SqlResultToReturning result with
      | None => Some (notSupportedScan helper drivers)
      | Some rr =>
          match GetRecords rr with
          | Some (Some (r :: records)) => Structs ops (r :: records)
          | _ => Some notFoundScan
          end
      end
  end.

(** doInsertAndScan performs the insert operation with RETURNING clause and
    scans the result. *)
Definition doInsertAndScan (m : Model) (insertOption : InsertOption)
           (data : list Any) : option gdb.Error :=
  let model := ReturningAll m in
  let model := if Nat.ltb 0 (length data) then Data ops model data else model in
  let res :=
    match insertOption with
    | InsertOptionDefault => Insert ops model
    | InsertOptionIgnore => InsertIgnore ops model
    | InsertOptionSave => Save ops model
    | InsertOptionReplace => Replace ops model
    | InsertOptionUnknown => Insert ops model
    end in
  scanReturning "InsertAndScan"
    "PostgreSQL, SQLite 3.35+, SQL Server, MariaDB 10.5+, DaMeng" res.

(** InsertAndScan inserts data and scans the RETURNING clause result into
    the given pointer. *)
Definition InsertAndScan (m : Model) (data : list Any) : option gdb.Error :=
  doInsertAndScan m InsertOptionDefault data.

(** UpdateAndScan updates data and scans the RETURNING clause result into
    the given pointer. *)
Definition UpdateAndScan (m : Model) (dataAndWhere : list Any)
  : option gdb.Error :=
  let model := ReturningAll m in
  let result :=
    match dataAndWhere with
    | [] => model
    | [d0] => Data ops model [d0]
    | [d0; w] => Where ops (Data ops model [d0]) w []
    | d0 :: w :: rest => Where ops (Data ops model [d0]) w rest
    end in
  scanReturning "UpdateAndScan"
    "PostgreSQL, SQLite 3.35+, SQL Server, DaMeng" (Update ops result).

(** DeleteAndScan deletes data and scans the RETURNING clause result into
    the given pointer. *)
Definition DeleteAndScan (m : Model) (whereArgs : list Any)
  : option gdb.Error :=
  let model := ReturningAll m in
  let model :=
    match whereArgs with
    | [] => model
    | w :: rest => Where ops model w rest
    end in
  scanReturning "DeleteAndScan"
    "PostgreSQL, SQLite 3.35+, SQL Server, MariaDB 10.5+, DaMeng"
    (Delete ops model).

End Helpers.

End model.

(* ===================================================================== *)
(** ** The Materializer: gdb.Result.ScanList                              *)
(* ===================================================================== *)

Module scanlist.

Definition Var_eqb (a b : gdb.Var) : bool :=
  match a, b with
  | gdb.VarInt x, gdb.VarInt y => Z.eqb x y
  | gdb.VarStr x, gdb.VarStr y => String.eqb x y
  | _, _ => false
  end.

(** Modelled from the spec: the value of an attribute of a destination
    element (section 4.4): its zero value, one bound struct, or a sequence
    of bound structs; a struct is given by the values of its fields.  The
    declaration of the destination structs is the caller's; ScanList
    itself is not among the sources, only its tests are. *)
Inductive Attr : Type :=
| AttrZero
| AttrOne (row : gdb.Record)
| AttrMany (rows : list gdb.Record).

(** Modelled from the spec: a destination element, its attributes by
    name (section 3, "destination object graphs"). *)
Definition Element : Type := list (string * Attr).

Fixpoint attr (e : Element) (name : string) : Attr :=
  match e with
  | [] => AttrZero
  | (n, a) :: e' => if String.eqb n name then a else attr e' name
  end.

Fixpoint set_attr (e : Element) (name : string) (a : Attr) : Element :=
  match e with
  | [] => [(name, a)]
  | (n, a0) :: e' =>
      if String.eqb n name then (n, a) :: e' else (n, a0) :: set_attr e' name a
  end.

Inductive Cardinality : Type := One | Many.

(** Modelled from the spec: the correlation of a binding (section 3,
    "Relation binding descriptor"): the attribute of the element that
    holds its scanned row, the parent column read there, and the child
    column of the related rows. *)
Record Correlation : Type :=
  { parent_attr : string; parent_col : string; child_col : string }.

(** Modelled from the spec: the relation binding descriptor (section 3);
    the correlation may be omitted. *)
Record Binding : Type :=
  { bind_attr : string;
    cardinality : Cardinality;
    correlation : option Correlation }.

(** Modelled from the spec: the destination container (section 4.4): a
    single struct-like target, a sequence of them, or a value of another
    shape. *)
Inductive Dest : Type :=
| DestStruct (e : Element)
| DestSeq (es : list Element)
| DestOther.

(** Modelled from the spec: step 1 of section 4.4, the index of the
    related rows by the child correlation column; a group keeps the row
    order of the RecordSet. *)
Definition Index : Type := list (gdb.Var * list gdb.Record).

Fixpoint index_add (idx : Index) (k : gdb.Var) (row : gdb.Record) : Index :=
  match idx with
  | [] => [(k, [row])]
  | (k', rows) :: idx' =>
      if Var_eqb k' k then (k', rows ++ [row]) :: idx'
      else (k', rows) :: index_add idx' k row
  end.

Definition build_index (rows : list gdb.Record) (col : string) : Index :=
  fold_left
    (fun idx row =>
       match gdb.record_get row col with
       | Some k => index_add idx k row
       | None => idx
       end)
    rows [].

Fixpoint index_get (idx : Index) (k : gdb.Var) : list gdb.Record :=
  match idx with
  | [] => []
  | (k', rows) :: idx' => if Var_eqb k' k then rows else index_get idx' k
  end.

(** Modelled from the spec: step 2 of section 4.4, the correlation-key
    value of an element and its matching related rows. *)
Definition key_of (c : Correlation) (e : Element) : option gdb.Var :=
  match attr e (parent_attr c) with
  | AttrOne row => gdb.record_get row (parent_col c)
  | _ => None
  end.

Definition matches (idx : Index) (c : Correlation) (e : Element)
  : list gdb.Record :=
  match key_of c e with
  | Some k => index_get idx k
  | None => []
  end.

Definition has_column (row : gdb.Record) (col : string) : bool :=
  match gdb.record_get row col with
  | Some _ => true
  | None => false
  end.

(** Modelled from the spec: the reuse of an existing struct (step 5 of
    section 4.4, and the four tests named Test_ScanList_NoRecreate): the
    columns of the new row are written into it, every other field keeps
    the value an earlier call gave it. *)
Definition merge_row (old new : gdb.Record) : gdb.Record :=
  new ++ filter (fun field => negb (has_column new (fst field))) old.

Definition wrongShape : gdb.Error :=
  gdb.NewCode gdb.CodeInternalError
    "the destination is neither a struct nor a sequence of structs".

Section Convention.

(** Modelled from the spec: the primary-key convention (section 3: the
    correlation defaults "to a primary-key convention when omitted"), as
    the name of the primary-key column. *)
Variable primaryKey : string.

(** Two structs with the same primary-key value. *)
Definition same_key (a b : gdb.Record) : bool :=
  match gdb.record_get a primaryKey, gdb.record_get b primaryKey with
  | Some x, Some y => Var_eqb x y
  | _, _ => false
  end.

(** Modelled from the spec: a related row goes into the struct already
    bound with its primary key, if there is one, and is a new struct
    otherwise (step 5: existing elements are located "by their
    already-scanned primary-key identity"). *)
Definition reuse (olds : list gdb.Record) (row : gdb.Record) : gdb.Record :=
  match find (fun old => same_key old row) olds with
  | Some old => merge_row old row
  | None => row
  end.

Definition structs_of (a : Attr) : list gdb.Record :=
  match a with
  | AttrMany rows => rows
  | _ => []
  end.

(** Modelled from the spec: steps 3 to 5 of section 4.4, the new value of
    the bound attribute.  One: the first match, written into the struct
    that is there; without a match the attribute is left as it is.  Many:
    all matches in row order, each written into the struct with its key
    when there is one; an empty sequence when there is no match. *)
Definition bind_value (card : Cardinality) (found : list gdb.Record)
           (old : Attr) : Attr :=
  match card, found with
  | One, [] => old
  | One, row :: _ =>
      AttrOne (match old with
               | AttrOne struct => merge_row struct row
               | _ => row
               end)
  | Many, rows => AttrMany (map (reuse (structs_of old)) rows)
  end.

Definition attach (b : Binding) (found : list gdb.Record) (e : Element)
  : Element :=
  match cardinality b, found with
  | One, [] => e
  | card, _ =>
      set_attr e (bind_attr b) (bind_value card found (attr e (bind_attr b)))
  end.

(** Modelled from the spec: the correlation in force; when it is omitted
    the elements are identified by the primary key of the struct already
    bound to the attribute, and the rows by their primary key. *)
Definition correlation_of (b : Binding) : Correlation :=
  match correlation b with
  | Some c => c
  | None => {| parent_attr := bind_attr b;
               parent_col := primaryKey;
               child_col := primaryKey |}
  end.

(** Modelled from the spec: the Materializer of section 4.4.  The
    elements of a destination sequence are kept and located by their
    correlation key (step 5, the reuse invariant); only an empty sequence
    bound without correlation is filled with new elements, one per row.
    A single struct bound without correlation takes the rows as they
    are.  A destination of the wrong shape fails. *)
Definition ScanList (rs : gdb.Result) (dest : Dest) (b : Binding)
  : gdb.Error + Dest :=
  let rows := Go.elems rs in
  match dest with
  | DestOther => inl wrongShape
  | DestStruct e =>
      match correlation b with
      | None => inr (DestStruct (attach b rows e))
      | Some c =>
          inr (DestStruct
                 (attach b (matches (build_index rows (child_col c)) c e) e))
      end
  | DestSeq es =>
      match correlation b, es with
      | None, [] => inr (DestSeq (map (fun row => attach b [row] []) rows))
      | _, _ =>
          let c := correlation_of b in
          let idx := build_index rows (child_col c) in
          inr (DestSeq (map (fun e => attach b (matches idx c e) e) es))
      end
  end.

End Convention.

End scanlist.

(* ===================================================================== *)
(** * Properties                                                          *)
(* ===================================================================== *)

Import core.

(** ** The call context *)

Lemma Value_WithValue_same (ctx : gdb.Context) (key : string)
      (v : gdb.CtxValue) :
  gdb.Value (gdb.WithValue ctx key v) key = v.
Proof.
  unfold gdb.WithValue; simpl. now rewrite String.eqb_refl.
Qed.

Lemma Value_WithValue_other (ctx : gdb.Context) (key key' : string)
      (v : gdb.CtxValue) :
  key <> key' ->
  gdb.Value (gdb.WithValue ctx key v) key' = gdb.Value ctx key'.
Proof.
  intros Hne. unfold gdb.WithValue; simpl.
  destruct (String.eqb_spec key key') as [E | _]; [contradiction | reflexivity].
Qed.

Lemma Value_absent (ctx : gdb.Context) (key : string) :
  Forall (fun frame => fst frame <> key) ctx ->
  gdb.Value ctx key = gdb.CtxNil.
Proof.
  induction 1 as [| [k v] parent Hk _ IH]; simpl; [reflexivity |].
  destruct (String.eqb_spec k key) as [E | _]; [| exact IH].
  now elim Hk.
Qed.

(** C10. GetReturningFromCtx undoes InjectReturning on every context and
    every non-empty field list; InjectReturning of an empty (or nil) list
    returns the context it was given; on a context without a frame for
    ReturningKeyInCtx, GetReturningFromCtx returns nil (the function has no
    error result). *)
Theorem GetReturningFromCtx_InjectReturning :
  (forall (ctx : gdb.Context) (fields : option (list string)),
      Go.len fields <> 0 ->
      gdb.GetReturningFromCtx (gdb.InjectReturning ctx fields) = fields)
  /\ (forall (ctx : gdb.Context) (fields : option (list string)),
         Go.len fields = 0 -> gdb.InjectReturning ctx fields = ctx)
  /\ (forall ctx : gdb.Context,
         Forall (fun frame => fst frame <> gdb.ReturningKeyInCtx) ctx ->
         gdb.GetReturningFromCtx ctx = None).
Proof.
  split; [| split].
  - intros ctx fields Hlen. unfold gdb.InjectReturning.
    destruct (Nat.eqb_spec (Go.len fields) 0) as [E | _]; [contradiction |].
    unfold gdb.GetReturningFromCtx. now rewrite Value_WithValue_same.
  - intros ctx fields Hlen. unfold gdb.InjectReturning.
    now rewrite Hlen.
  - intros ctx Habs. unfold gdb.GetReturningFromCtx.
    now rewrite (Value_absent _ _ Habs).
Qed.

Lemma GetReturningFromCtx_InjectReturning_witness :
  let ctx := [("InternalCtxData", gdb.CtxOther)] in
  gdb.GetReturningFromCtx (gdb.InjectReturning ctx (Some ["id"; "name"]))
  = Some ["id"; "name"]
  /\ gdb.InjectReturning ctx (Some []) = ctx
  /\ gdb.InjectReturning ctx None = ctx
  /\ gdb.GetReturningFromCtx ctx = None.
Proof.
  destruct GetReturningFromCtx_InjectReturning as (Hget & Hempty & Habsent).
  split; [apply Hget; simpl; discriminate |].
  split; [apply Hempty; reflexivity |].
  split; [apply Hempty; reflexivity |].
  apply Habsent. repeat constructor. simpl. discriminate.
Defined.

(** ** Results *)

(** The Result of pgsql's DoExec carries records only together with
    their count. *)
Lemma resultOf_affected (d : Driver) (v : pgsql.Locals)
      (out : DoCommitOutput) (rows : list gdb.Record) :
  sql.pg_records (pgsql.resultOf d v out) = Some rows ->
  sql.affected (pgsql.resultOf d v out) = Z.of_nat (length rows).
Proof.
  unfold pgsql.resultOf.
  destruct (pgsql.isUserReturning v).
  - simpl. intros ->. reflexivity.
  - destruct (Nat.ltb 0 (Go.len (out_Records out))); [| discriminate].
    destruct (negb _); [discriminate |].
    destruct (gdb.record_get _ _); discriminate.
Qed.

(** RowsAffected of sqlite's Result is the number of attached records
    whenever records are attached, and the answer of the native result
    when there are none (0 without error when there is no native result
    either).  A Result built by pgsql's DoExec that has records attached
    has their number as its affected count; one without records has the
    number of rows of the query as its affected count, or is the zero
    Result. *)
Lemma RowsAffected_records_or_native :
  (forall (e : option sql.NativeResult) (rows : list gdb.Record),
      sqlite.RowsAffected {| sql.embedded := e; sql.records := Some rows |}
      = (Z.of_nat (length rows), None))
  /\ (forall native : sql.NativeResult,
         sqlite.RowsAffected
           {| sql.embedded := Some native; sql.records := None |}
         = sql.native_RowsAffected native)
  /\ sqlite.RowsAffected {| sql.embedded := None; sql.records := None |}
     = (0%Z, None)
  /\ (forall (d : Driver) (v : pgsql.Locals) (out : DoCommitOutput),
         match sql.pg_records (pgsql.resultOf d v out) with
         | Some rows =>
             sql.affected (pgsql.resultOf d v out) = Z.of_nat (length rows)
         | None =>
             sql.affected (pgsql.resultOf d v out)
             = Z.of_nat (Go.len (out_Records out))
             \/ pgsql.resultOf d v out = sql.PgsqlZero
         end).
Proof.
  repeat split; try reflexivity.
  intros d v out.
  destruct (sql.pg_records (pgsql.resultOf d v out)) as [rows |] eqn:E.
  - now apply resultOf_affected.
  - clear E. unfold pgsql.resultOf.
    destruct (pgsql.isUserReturning v); [left; reflexivity |].
    destruct (Nat.ltb 0 (Go.len (out_Records out))); [| right; reflexivity].
    destruct (negb _); [left; reflexivity |].
    destruct (gdb.record_get _ _); [left | right]; reflexivity.
Qed.

(** ** The RETURNING clause *)

(** The clause as the specification words it: the wildcard unquoted,
    every other requested field between two quote characters. *)
Definition spec_quote (q field : string) : string :=
  if String.eqb field "*" then "*" else q ++ field ++ q.

Definition spec_returning_clause (q : string) (fields : list string)
  : string :=
  match fields with
  | [] => EmptyString
  | _ => "RETURNING " ++ Go.Join (map (spec_quote q) fields) ", "
  end.

(** A field of PostgreSQL's clause with its OLD/NEW qualifier, which stays
    outside the quotes and is written in upper case. *)
Definition pg_quote (field : string) : string :=
  if String.eqb field "*" then "*"
  else if Go.HasPrefix (Go.ToUpper field) "OLD."
       then "OLD." ++ spec_quote Go.dquote (Go.drop 4 field)
  else if Go.HasPrefix (Go.ToUpper field) "NEW."
       then "NEW." ++ spec_quote Go.dquote (Go.drop 4 field)
  else Go.dquote ++ field ++ Go.dquote.

(** A field is qualified when it starts with OLD. or NEW. in any case. *)
Definition qualified (field : string) : bool :=
  Go.HasPrefix (Go.ToUpper field) "OLD."
  || Go.HasPrefix (Go.ToUpper field) "NEW.".

Lemma fold_left_snoc {A B : Type} (g : A -> B) (l : list A) (acc : list B) :
  fold_left (fun quoted x => quoted ++ [g x]) l acc = acc ++ map g l.
Proof.
  revert acc. induction l as [| x l IH]; intros acc; simpl.
  - now rewrite app_nil_r.
  - rewrite IH, <- app_assoc. reflexivity.
Qed.

Lemma upperChar_dot (a : ascii) :
  Ascii.eqb (Go.upperChar a) "." = Ascii.eqb a ".".
Proof.
  destruct a as [[] [] [] [] [] [] [] []]; reflexivity.
Qed.

Lemma upper_letter_not_dot (a x : ascii) :
  Ascii.eqb (Go.upperChar a) x = true ->
  Ascii.eqb x "." = false ->
  Ascii.eqb a "." = false.
Proof.
  intros Hx Hdot. apply Ascii.eqb_eq in Hx. subst x.
  now rewrite upperChar_dot in Hdot.
Qed.

(** Behind a three-letter qualifier and its dot, SplitN cuts at that dot. *)
Lemma SplitN_qualifier (field : string) (x y z : ascii) :
  Ascii.eqb x "." = false ->
  Ascii.eqb y "." = false ->
  Ascii.eqb z "." = false ->
  Go.HasPrefix (Go.ToUpper field)
               (String x (String y (String z (String "." EmptyString))))
  = true ->
  Go.SplitN field "." 2 = [Go.take 3 field; Go.drop 4 field].
Proof.
  intros Hx Hy Hz Hp.
  destruct field as [| a [| b [| c [| e r]]]]; simpl in Hp;
    repeat (rewrite ?andb_false_r in Hp; try discriminate).
  apply andb_prop in Hp as [Ha Hp].
  apply andb_prop in Hp as [Hb Hp].
  apply andb_prop in Hp as [Hc Hp].
  apply andb_prop in Hp as [He _].
  pose proof (upper_letter_not_dot _ _ Ha Hx) as Ha'.
  pose proof (upper_letter_not_dot _ _ Hb Hy) as Hb'.
  pose proof (upper_letter_not_dot _ _ Hc Hz) as Hc'.
  rewrite upperChar_dot in He.
  cbn [Go.SplitN Go.Index Go.HasPrefix].
  rewrite Ha', Hb', Hc', He. simpl. reflexivity.
Qed.

Lemma pgsql_quoteField_spec (field : string) :
  pgsql.quoteField field = pg_quote (Go.TrimSpace field).
Proof.
  unfold pgsql.quoteField, pg_quote, spec_quote.
  set (t := Go.TrimSpace field).
  destruct (String.eqb t "*"); [reflexivity |].
  destruct (Go.HasPrefix (Go.ToUpper t) "OLD.") eqn:Hold.
  - rewrite (SplitN_qualifier t "O" "L" "D") by (reflexivity || exact Hold).
    destruct (String.eqb (Go.drop 4 t) "*"); reflexivity.
  - destruct (Go.HasPrefix (Go.ToUpper t) "NEW.") eqn:Hnew; [| reflexivity].
    rewrite (SplitN_qualifier t "N" "E" "W") by (reflexivity || exact Hnew).
    destruct (String.eqb (Go.drop 4 t) "*"); reflexivity.
Qed.

Lemma pg_quote_unqualified (field : string) :
  qualified field = false -> pg_quote field = spec_quote Go.dquote field.
Proof.
  unfold qualified, pg_quote, spec_quote. intros H.
  apply orb_false_elim in H as [-> ->]. reflexivity.
Qed.

(** C8, as the code has it. Both builders return the empty string for an
    empty list. For a non-empty list each field is first trimmed of
    surrounding white space; SQLite's clause is then RETURNING followed
    by the fields joined with a comma and a space, the wildcard unquoted
    and every other field between backticks; PostgreSQL's clause is the
    same with double quotes, except that a field qualified with OLD. or
    NEW. (in any letter case) keeps the qualifier, in upper case, outside
    the quotes, the part behind the dot being the wildcard or the quoted
    name. *)
Theorem buildReturningClause_trimmed_and_qualified :
  pgsql.buildReturningClause [] = EmptyString
  /\ sqlite.buildReturningClause [] = EmptyString
  /\ (forall (f : string) (fields : list string),
         sqlite.buildReturningClause (f :: fields)
         = spec_returning_clause "`" (map Go.TrimSpace (f :: fields)))
  /\ (forall (f : string) (fields : list string),
         pgsql.buildReturningClause (f :: fields)
         = ("RETURNING "
              ++ Go.Join (map pg_quote (map Go.TrimSpace (f :: fields))) ", ")
             %string)
  /\ (forall (f : string) (fields : list string),
         forallb (fun x => negb (qualified (Go.TrimSpace x))) (f :: fields)
         = true ->
         pgsql.buildReturningClause (f :: fields)
         = spec_returning_clause Go.dquote (map Go.TrimSpace (f :: fields))).
Proof.
  assert (Hpg : forall f fields,
             pgsql.buildReturningClause (f :: fields)
             = ("RETURNING "
                  ++ Go.Join (map pg_quote (map Go.TrimSpace (f :: fields)))
                             ", ")%string).
  { intros f fields. unfold pgsql.buildReturningClause.
    rewrite fold_left_snoc, app_nil_l, map_map.
    do 2 f_equal. apply map_ext. intros x. apply pgsql_quoteField_spec. }
  split; [reflexivity |]. split; [reflexivity |].
  split; [| split; [exact Hpg |]].
  - intros f fields.
    unfold sqlite.buildReturningClause, spec_returning_clause.
    rewrite fold_left_snoc, app_nil_l, map_map. reflexivity.
  - intros f fields Hq. rewrite Hpg.
    unfold spec_returning_clause. cbn [map].
    do 2 f_equal.
    rewrite <- (map_cons pg_quote), <- (map_cons (spec_quote Go.dquote)).
    rewrite <- (map_cons Go.TrimSpace).
    rewrite !map_map. apply map_ext_in. intros x Hin.
    apply pg_quote_unqualified.
    rewrite forallb_forall in Hq. specialize (Hq x Hin).
    now apply negb_true_iff in Hq.
Qed.

Lemma buildReturningClause_trimmed_and_qualified_witness :
  pgsql.buildReturningClause ["id"; " name "; "*"]
  = spec_returning_clause Go.dquote ["id"; "name"; "*"].
Proof.
  destruct buildReturningClause_trimmed_and_qualified
    as (_ & _ & _ & _ & Hplain).
  apply (Hplain "id" [" name "; "*"]). reflexivity.
Defined.

(** The clause of the code is not the plain quoting of every requested
    field: PostgreSQL's builder takes the qualifier OLD. out of the
    quotes. *)
Lemma buildReturningClause_not_plain_quoting :
  ~ (forall fields : list string,
        fields <> [] ->
        pgsql.buildReturningClause fields
        = spec_returning_clause Go.dquote fields
        /\ sqlite.buildReturningClause fields
           = spec_returning_clause "`" fields).
Proof.
  intros H.
  destruct (H ["OLD.id"]) as [Hpg _]; [discriminate |].
  vm_compute in Hpg. discriminate.
Qed.

(** ** Link resolution and the calls of DoExec *)

(** The link a call is sent through, if it carries one. *)
Definition sent_through (resolved : Link) (c : Call) : Prop :=
  match c with
  | CallDoFilter l _ _ => l = resolved
  | CallDoCommit input => in_Link input = resolved
  | CallCoreDoExec l _ _ => l = Some resolved
  | _ => False
  end.

(** A sample driver: no transaction in the context, a master link, a
    filter that changes nothing, a database that answers a query with
    [rows] and whose default paths report one affected row. *)
Definition sample_link : Link := {| link_id := 1; IsTransaction := false |}.

Definition sample_tx : Link := {| link_id := 2; IsTransaction := true |}.

Definition sample_native : sql.NativeResult :=
  {| sql.native_RowsAffected := (1%Z, None);
     sql.native_LastInsertId := (0%Z, None) |}.

Definition sample_driver (tx : option Link) (rows : gdb.Result)
           (tableFields : list gdb.TableField) : Driver :=
  {| TXFromCtx := fun _ => tx;
     MasterLink := inr sample_link;
     FormatSqlBeforeExecuting := fun s a => (s, a);
     DoFilter := fun _ _ s a => inr (s, a);
     DoCommit := fun _ _ => inr {| out_Result := None; out_Records := rows |};
     CoreDoExec := fun _ _ _ _ => inr (sql.Native sample_native);
     CoreDoInsert := fun _ _ _ _ _ => inr (sql.Native sample_native);
     TableFields := fun _ _ => inr tableFields;
     VarInt64 := fun v => match v with gdb.VarInt z => z | _ => 0%Z end |}.

Lemma TransactionChecks_calls (d : Driver) (ctx : gdb.Context)
      (link : option Link) :
  calls (TransactionChecks d ctx link) = []
  \/ (calls (TransactionChecks d ctx link) = [CallMasterLink]
      /\ link = None /\ TXFromCtx d ctx = None
      /\ outcome (TransactionChecks d ctx link) = MasterLink d).
Proof.
  unfold TransactionChecks.
  destruct link as [l |].
  - left. destruct (negb (IsTransaction l)); [| reflexivity].
    destruct (TXFromCtx d ctx); reflexivity.
  - destruct (TXFromCtx d ctx) eqn:E; [left; reflexivity |].
    right. repeat split.
Qed.

(** The statement that pgsql's DoExec executes when it does not take the
    default path: filtered once, then committed once as a query through
    the resolved link; the Result is built from the output of that
    query. *)
Lemma pgsql_DoExec_query_path (pk : string) (d : Driver) (ctx : gdb.Context)
      (link : option Link) (sql : string) (args : Args) (res : sql.Result) :
  let v := pgsql.returningMode pk ctx sql in
  pgsql.isUseCoreDoExec v = false ->
  outcome (pgsql.DoExec pk d ctx link sql args) = inr res ->
  exists (l : Link) (sql2 : string) (args2 : Args) (out : DoCommitOutput),
    let fmt := FormatSqlBeforeExecuting d (pgsql.l_sql v) args in
    let input :=
      {| in_Link := l; in_Sql := sql2; in_Args := args2;
         in_Type := SqlTypeQueryContext;
         in_IsTransaction := IsTransaction l |} in
    outcome (TransactionChecks d ctx link) = inr l
    /\ DoFilter d ctx l (fst fmt) (snd fmt) = inr (sql2, args2)
    /\ DoCommit d ctx input = inr out
    /\ res = sql.Pgsql (pgsql.resultOf d v out)
    /\ calls (pgsql.DoExec pk d ctx link sql args)
       = calls (TransactionChecks d ctx link)
           ++ [CallDoFilter l (fst fmt) (snd fmt); CallDoCommit input].
Proof.
  intros v Hcore. unfold pgsql.DoExec. fold v. rewrite Hcore.
  destruct (TransactionChecks d ctx link) as [log [e | l]]; simpl;
    [discriminate |].
  destruct (FormatSqlBeforeExecuting d (pgsql.l_sql v) args) as [sql1 args1].
  simpl. unfold call, bind.
  destruct (DoFilter d ctx l sql1 args1) as [e | [sql2 args2]] eqn:Hf; simpl;
    [discriminate |].
  destruct (DoCommit d ctx _) as [e | out] eqn:Hc; simpl; [discriminate |].
  intros [= <-].
  exists l, sql2, args2, out. simpl. rewrite Hc. repeat split. exact Hf.
Qed.



Lemma TransactionChecks_error (d : Driver) (ctx : gdb.Context)
      (link : option Link) (e : gdb.Error) :
  outcome (TransactionChecks d ctx link) = inl e -> MasterLink d = inl e.
Proof.
  unfold TransactionChecks.
  destruct link as [l |].
  - destruct (negb (IsTransaction l)); [| discriminate].
    destruct (TXFromCtx d ctx); discriminate.
  - destruct (TXFromCtx d ctx); [discriminate |]. simpl. auto.
Qed.

(** On that path an error of DoExec is an error of a collaborator. *)
Lemma pgsql_DoExec_query_error (pk : string) (d : Driver) (ctx : gdb.Context)
      (link : option Link) (sql : string) (args : Args) (e : gdb.Error) :
  pgsql.isUseCoreDoExec (pgsql.returningMode pk ctx sql) = false ->
  outcome (pgsql.DoExec pk d ctx link sql args) = inl e ->
  MasterLink d = inl e
  \/ (exists l s a, DoFilter d ctx l s a = inl e)
  \/ (exists input, DoCommit d ctx input = inl e).
Proof.
  intros Hcore. unfold pgsql.DoExec. rewrite Hcore.
  pose proof (TransactionChecks_error d ctx link) as Htc.
  destruct (TransactionChecks d ctx link) as [log [e0 | l]]; simpl in *.
  - intros [= <-]. left. now apply Htc.
  - clear Htc.
    destruct (FormatSqlBeforeExecuting d _ args) as [sql1 args1].
    simpl. unfold call, bind.
    destruct (DoFilter d ctx l sql1 args1) as [e1 | [sql2 args2]] eqn:Hf;
      simpl; [intros [= <-]; right; left; eauto |].
    destruct (DoCommit d ctx _) as [e2 | out] eqn:Hc; simpl;
      [intros [= <-]; right; right; eauto | discriminate].
Qed.

Lemma calls_bind {A B : Type} (m : M A) (f : A -> M B) :
  calls (bind m f)
  = calls m ++ match outcome m with
               | inl _ => []
               | inr a => calls (f a)
               end.
Proof.
  destruct m as [log [e | a]]; simpl.
  - now rewrite app_nil_r.
  - destruct (f a); reflexivity.
Qed.

Lemma outcome_bind {A B : Type} (m : M A) (f : A -> M B) :
  outcome (bind m f)
  = match outcome m with
    | inl e => inl e
    | inr a => outcome (f a)
    end.
Proof.
  destruct m as [log [e | a]]; simpl; [reflexivity |].
  destruct (f a); reflexivity.
Qed.

(** The run of pgsql's DoExec, case by case: what it calls and what it
    returns once the link is resolved. *)
Lemma pgsql_DoExec_unresolved (pk : string) (d : Driver) (ctx : gdb.Context)
      (link : option Link) (sql : string) (args : Args) (e : gdb.Error) :
  outcome (TransactionChecks d ctx link) = inl e ->
  calls (pgsql.DoExec pk d ctx link sql args)
  = calls (TransactionChecks d ctx link)
  /\ outcome (pgsql.DoExec pk d ctx link sql args) = inl e.
Proof.
  intros Hl. unfold pgsql.DoExec.
  rewrite calls_bind, outcome_bind, Hl. now rewrite app_nil_r.
Qed.

Lemma pgsql_DoExec_default_run (pk : string) (d : Driver) (ctx : gdb.Context)
      (link : option Link) (sql : string) (args : Args) (l : Link) :
  let v := pgsql.returningMode pk ctx sql in
  pgsql.isUseCoreDoExec v = true ->
  outcome (TransactionChecks d ctx link) = inr l ->
  calls (pgsql.DoExec pk d ctx link sql args)
  = calls (TransactionChecks d ctx link)
      ++ [CallCoreDoExec (Some l) (pgsql.l_sql v) args]
  /\ outcome (pgsql.DoExec pk d ctx link sql args)
     = CoreDoExec d ctx (Some l) (pgsql.l_sql v) args.
Proof.
  intros v Hcore Hl. unfold pgsql.DoExec. fold v.
  rewrite calls_bind, outcome_bind, Hl, Hcore. split; reflexivity.
Qed.

Lemma pgsql_DoExec_returning_run (pk : string) (d : Driver)
      (ctx : gdb.Context) (link : option Link) (sql : string) (args : Args)
      (l : Link) :
  let v := pgsql.returningMode pk ctx sql in
  let fmt := FormatSqlBeforeExecuting d (pgsql.l_sql v) args in
  pgsql.isUseCoreDoExec v = false ->
  outcome (TransactionChecks d ctx link) = inr l ->
  match DoFilter d ctx l (fst fmt) (snd fmt) with
  | inl e =>
      calls (pgsql.DoExec pk d ctx link sql args)
      = calls (TransactionChecks d ctx link)
          ++ [CallDoFilter l (fst fmt) (snd fmt)]
      /\ outcome (pgsql.DoExec pk d ctx link sql args) = inl e
  | inr (sql2, args2) =>
      let input :=
        {| in_Link := l; in_Sql := sql2; in_Args := args2;
           in_Type := SqlTypeQueryContext;
           in_IsTransaction := IsTransaction l |} in
      calls (pgsql.DoExec pk d ctx link sql args)
      = calls (TransactionChecks d ctx link)
          ++ [CallDoFilter l (fst fmt) (snd fmt); CallDoCommit input]
      /\ outcome (pgsql.DoExec pk d ctx link sql args)
         = match DoCommit d ctx input with
           | inl e => inl e
           | inr out => inr (sql.Pgsql (pgsql.resultOf d v out))
           end
  end.
Proof.
  intros v fmt Hcore Hl. unfold pgsql.DoExec. fold v.
  rewrite calls_bind, outcome_bind, Hl, Hcore.
  subst fmt.
  destruct (FormatSqlBeforeExecuting d (pgsql.l_sql v) args) as [sql1 args1].
  cbv beta iota zeta. simpl fst. simpl snd.
  destruct (DoFilter d ctx l sql1 args1) as [e | [sql2 args2]]; simpl.
  - split; reflexivity.
  - destruct (DoCommit d ctx _); simpl; split; reflexivity.
Qed.

Lemma TransactionChecks_only_master (d : Driver) (ctx : gdb.Context)
      (link : option Link) (c : Call) :
  In c (calls (TransactionChecks d ctx link)) -> c = CallMasterLink.
Proof.
  destruct (TransactionChecks_calls d ctx link) as [-> | [-> _]].
  - intros [].
  - intros [<- | []]. reflexivity.
Qed.

(** What follows the resolution of the link in a DoExec: no second
    opening of a master link, every statement through the resolved link,
    and nothing at all when the resolution failed. *)
Definition after_resolution {A : Type} (resolution : M Link) (run : M A)
  : Prop :=
  exists rest : list Call,
    calls run = calls resolution ++ rest
    /\ ~ In CallMasterLink rest
    /\ match outcome resolution with
       | inr resolved => Forall (sent_through resolved) rest
       | inl e => rest = [] /\ outcome run = inl e
       end.

Lemma pgsql_DoExec_after_resolution (pk : string) (d : Driver)
      (ctx : gdb.Context) (link : option Link) (sql : string) (args : Args) :
  after_resolution (TransactionChecks d ctx link)
                   (pgsql.DoExec pk d ctx link sql args).
Proof.
  unfold after_resolution, pgsql.DoExec.
  rewrite calls_bind, outcome_bind.
  destruct (outcome (TransactionChecks d ctx link)) as [e | l].
  - exists []. repeat split. intros [].
  - eexists. split; [reflexivity |].
    destruct (pgsql.isUseCoreDoExec _).
    + simpl. split; [intros [H | []]; discriminate |].
      repeat constructor.
    + destruct (FormatSqlBeforeExecuting d _ args) as [sql1 args1].
      cbv beta iota. rewrite calls_bind. simpl.
      destruct (DoFilter d ctx l sql1 args1) as [e | [sql2 args2]]; simpl.
      * split; [intros [H | []]; discriminate |]. repeat constructor.
      * destruct (DoCommit d ctx _); simpl;
          (split; [intros [H | [H | []]]; discriminate | repeat constructor]).
Qed.

Lemma sqlite_DoExec_query_after_resolution (d : Driver) (ctx : gdb.Context)
      (link : option Link) (sql : string) (args : Args) :
  Go.len (gdb.GetReturningFromCtx ctx) <> 0 ->
  after_resolution (TransactionChecks d ctx link)
                   (sqlite.DoExec_query d ctx link sql args).
Proof.
  intros Hlen. unfold after_resolution, sqlite.DoExec_query.
  destruct (Nat.eqb_spec (Go.len (gdb.GetReturningFromCtx ctx)) 0)
    as [E | _]; [contradiction |].
  rewrite calls_bind, outcome_bind.
  destruct (outcome (TransactionChecks d ctx link)) as [e | l].
  - exists []. repeat split. intros [].
  - eexists. split; [reflexivity |].
    destruct (FormatSqlBeforeExecuting d _ args) as [sql1 args1].
    cbv beta iota. rewrite calls_bind. simpl.
    destruct (DoFilter d ctx l sql1 args1) as [e | [sql2 args2]]; simpl.
    + split; [intros [H | []]; discriminate |]. repeat constructor.
    + destruct (DoCommit d ctx _); simpl;
        (split; [intros [H | [H | []]]; discriminate | repeat constructor]).
Qed.

(** C7. The link of a mutation is resolved by the block "Transaction
    checks." before anything is sent: without a supplied link the
    transaction of the context is used when there is one, otherwise a
    master link is opened (once); a supplied link that is a transaction is
    kept.  In pgsql's DoExec, and in sqlite's DoExec when it executes a
    RETURNING query, every later call goes through the resolved link and
    no call is made when the resolution fails. *)
Theorem link_resolved_once_before_sql :
  (forall (d : Driver) (ctx : gdb.Context) (tx : Link),
      TXFromCtx d ctx = Some tx ->
      TransactionChecks d ctx None = ret tx)
  /\ (forall (d : Driver) (ctx : gdb.Context),
         TXFromCtx d ctx = None ->
         TransactionChecks d ctx None = call CallMasterLink (MasterLink d))
  /\ (forall (d : Driver) (ctx : gdb.Context) (l : Link),
         IsTransaction l = true ->
         TransactionChecks d ctx (Some l) = ret l)
  /\ (forall (pk : string) (d : Driver) (ctx : gdb.Context)
             (link : option Link) (sql : string) (args : Args),
         after_resolution (TransactionChecks d ctx link)
                          (pgsql.DoExec pk d ctx link sql args))
  /\ (forall (d : Driver) (ctx : gdb.Context) (link : option Link)
             (sql : string) (args : Args),
         Go.len (gdb.GetReturningFromCtx ctx) <> 0 ->
         after_resolution (TransactionChecks d ctx link)
                          (sqlite.DoExec_query d ctx link sql args)).
Proof.
  split; [| split; [| split; [| split]]].
  - intros d ctx tx H. unfold TransactionChecks. now rewrite H.
  - intros d ctx H. unfold TransactionChecks. now rewrite H.
  - intros d ctx l H. unfold TransactionChecks. now rewrite H.
  - apply pgsql_DoExec_after_resolution.
  - apply sqlite_DoExec_query_after_resolution.
Qed.

Lemma link_resolved_once_before_sql_witness :
  let with_tx := sample_driver (Some sample_tx) None [] in
  let without := sample_driver None None [] in
  let ctx := gdb.InjectReturning [] (Some ["id"]) in
  TransactionChecks with_tx ctx None = ret sample_tx
  /\ TransactionChecks without ctx None
     = call CallMasterLink (inr sample_link)
  /\ TransactionChecks with_tx ctx (Some sample_tx) = ret sample_tx
  /\ after_resolution
       (TransactionChecks with_tx ctx None)
       (sqlite.DoExec_query with_tx ctx None "DELETE FROM user" []).
Proof.
  destruct link_resolved_once_before_sql as (H1 & H2 & H3 & _ & H5).
  split; [apply H1; reflexivity |].
  split; [apply (H2 (sample_driver None None [])); reflexivity |].
  split; [apply H3; reflexivity |].
  apply H5. simpl. discriminate.
Defined.

(** ** The automatic primary-key RETURNING of pgsql *)

(** DoExec applies the automatic fallback: neither the default DoExec nor
    the user's RETURNING fields. *)
Definition auto_returning (pk : string) (ctx : gdb.Context) (sql : string)
  : bool :=
  let v := pgsql.returningMode pk ctx sql in
  negb (pgsql.isUseCoreDoExec v) && negb (pgsql.isUserReturning v).

(** The table condition as the specification words it: exactly one
    primary-key column, of an integer type. *)
Definition spec_single_int_pk (tableFields : list gdb.TableField) : bool :=
  match filter (fun f => String.eqb (gdb.Key f) "pri") tableFields with
  | [f] => Go.Contains (gdb.Type_ f) "int"
  | _ => false
  end.

Lemma Value_InjectReturning_other (ctx : gdb.Context)
      (fields : option (list string)) (key : string) :
  key <> gdb.ReturningKeyInCtx ->
  gdb.Value (gdb.InjectReturning ctx fields) key = gdb.Value ctx key.
Proof.
  intros Hne. unfold gdb.InjectReturning.
  destruct (Nat.eqb (Go.len fields) 0); [reflexivity |].
  apply Value_WithValue_other. congruence.
Qed.

Lemma auto_returning_spec (pk : string) (ctx : gdb.Context) (sql : string) :
  auto_returning pk ctx sql = true <->
  Go.len (gdb.GetReturningFromCtx ctx) = 0
  /\ exists f : gdb.TableField,
      gdb.Value ctx pk = gdb.CtxTableField f
      /\ gdb.Name f <> EmptyString
      /\ Go.Contains sql "INSERT INTO" = true
      /\ pgsql.l_sql (pgsql.returningMode pk ctx sql)
         = (sql ++ " RETURNING " ++ Go.dquote ++ gdb.Name f ++ Go.dquote)
             %string.
Proof.
  unfold auto_returning, pgsql.returningMode.
  destruct (Nat.ltb_spec 0 (Go.len (gdb.GetReturningFromCtx ctx)))
    as [Hpos | Hzero].
  - simpl. split; [discriminate | intros [H _]; lia].
  - assert (Hlen : Go.len (gdb.GetReturningFromCtx ctx) = 0) by lia.
    destruct (gdb.Value ctx pk) as [| fs | f |] eqn:Hv; simpl;
      try (split; [discriminate | intros [_ (f0 & Hf & _)]; discriminate]).
    destruct (String.eqb_spec (gdb.Name f) EmptyString) as [Hn | Hn]; simpl.
    + split; [discriminate |].
      intros [_ (f0 & [= <-] & Hne & _)]. contradiction.
    + destruct (Go.Contains sql "INSERT INTO") eqn:Hc; simpl.
      * split; [| reflexivity]. intros _. split; [exact Hlen |].
        exists f. repeat split. exact Hn.
      * split; [discriminate |].
        intros [_ (f0 & _ & _ & Hc' & _)]. discriminate.
Qed.

Lemma DoExec_default_path (pk : string) (d : Driver) (ctx : gdb.Context)
      (link : option Link) (sql : string) (args : Args) :
  Go.len (gdb.GetReturningFromCtx ctx) = 0 ->
  auto_returning pk ctx sql = false ->
  pgsql.DoExec pk d ctx link sql args
  = bind (TransactionChecks d ctx link)
         (fun l => call (CallCoreDoExec (Some l) sql args)
                        (CoreDoExec d ctx (Some l) sql args)).
Proof.
  intros Hlen Hauto. unfold pgsql.DoExec.
  assert (Hv : pgsql.isUseCoreDoExec (pgsql.returningMode pk ctx sql) = true
               /\ pgsql.l_sql (pgsql.returningMode pk ctx sql) = sql).
  { revert Hauto. unfold auto_returning, pgsql.returningMode.
    rewrite Hlen. simpl.
    destruct (gdb.Value ctx pk) as [| fs | f |]; simpl; auto.
    destruct (negb (String.eqb (gdb.Name f) EmptyString)
              && Go.Contains sql "INSERT INTO");
      simpl; [discriminate | auto]. }
  destruct Hv as [-> ->]. reflexivity.
Qed.

Lemma DoInsert_primary_key_in_ctx (pk : string) (d : Driver)
      (ctx : gdb.Context) (link : option Link) (table : string)
      (rows : DataList) (opt : DoInsertOption)
      (ctx2 : gdb.Context) (l : option Link) (f : gdb.TableField) :
  pk <> gdb.ReturningKeyInCtx ->
  gdb.Value ctx pk = gdb.CtxNil ->
  In (CallCoreDoInsert ctx2 l)
     (calls (pgsql.DoInsert pk d ctx link table rows opt)) ->
  gdb.Value ctx2 pk = gdb.CtxTableField f <->
  opt_InsertOption opt = InsertOptionDefault
  /\ Go.len (opt_Returning opt) = 0
  /\ exists tableFields : list gdb.TableField,
      TableFields d ctx table = inr tableFields
      /\ pgsql.firstPri tableFields = Some f.
Proof.
  intros Hkey Hnil. unfold pgsql.DoInsert.
  assert (Hother :
            forall c lk,
              gdb.Value c pk = gdb.CtxNil ->
              In (CallCoreDoInsert ctx2 l)
                 (calls
                    (call (CallCoreDoInsert
                             (if Nat.ltb 0 (Go.len (opt_Returning opt))
                              then gdb.InjectReturning c (opt_Returning opt)
                              else c) lk)
                          (CoreDoInsert d
                             (if Nat.ltb 0 (Go.len (opt_Returning opt))
                              then gdb.InjectReturning c (opt_Returning opt)
                              else c) lk table rows opt))) ->
              gdb.Value ctx2 pk = gdb.CtxNil).
  { intros c lk Hc [[= <- _] | []].
    destruct (Nat.ltb 0 _); [| exact Hc].
    now rewrite Value_InjectReturning_other. }
  destruct (opt_InsertOption opt) eqn:Hopt;
    try (simpl; intros Hin;
         rewrite (Hother _ _ Hnil Hin);
         split; [discriminate | intros [H _]; discriminate]).
  2: { simpl. intros []. }
  destruct (Nat.eqb_spec (Go.len (opt_Returning opt)) 0) as [Hlen | Hlen].
  2: { simpl. intros Hin. rewrite (Hother _ _ Hnil Hin).
       split; [discriminate | intros (_ & H & _); contradiction]. }
  rewrite Hlen. cbn [Nat.ltb Nat.leb].
  unfold call at 1.
  destruct (TableFields d ctx table) as [e | tableFields] eqn:Htf.
  - simpl. intros [[=] | [[= <- _] | []]]. rewrite Hnil.
    split; [discriminate | intros (_ & _ & tfs & [=] & _)].
  - destruct (pgsql.firstPri tableFields) as [f0 |] eqn:Hpri;
      simpl; intros [[=] | [[= <- _] | []]].
    + rewrite Value_WithValue_same.
      split.
      * intros [= <-]. repeat split. exists tableFields. auto.
      * intros (_ & _ & tfs & [= <-] & Hf). congruence.
    + rewrite Hnil.
      split; [discriminate |].
      intros (_ & _ & tfs & [= <-] & Hf). congruence.
Qed.

Lemma firstPri_first (tableFields : list gdb.TableField)
      (f : gdb.TableField) :
  pgsql.firstPri tableFields = Some f <->
  exists before after : list gdb.TableField,
    tableFields = before ++ f :: after
    /\ gdb.Key f = "pri"
    /\ Forall (fun x => gdb.Key x <> "pri") before.
Proof.
  induction tableFields as [| x rest IH]; simpl.
  - split; [discriminate |].
    intros (before & after & H & _). now destruct before.
  - destruct (String.eqb_spec (gdb.Key x) "pri") as [Hx | Hx].
    + split.
      * intros [= <-]. exists [], rest. repeat split; auto.
      * intros (before & after & H & Hf & Hb).
        destruct before as [| y before]; simpl in H.
        -- now injection H as ->.
        -- injection H as <- _. inversion Hb; contradiction.
    + rewrite IH. split.
      * intros (before & after & -> & Hf & Hb).
        exists (x :: before), after. repeat split; auto.
      * intros (before & after & H & Hf & Hb).
        destruct before as [| y before]; simpl in H.
        -- injection H as <- _. contradiction.
        -- injection H as <- ->. exists before, after.
           repeat split; auto. now inversion Hb.
Qed.

(** The conditions under which returningMode chooses the automatic
    fallback, and the locals it then sets. *)
Lemma returningMode_fallback (pk : string) (ctx : gdb.Context) (sql : string)
      (f : gdb.TableField) :
  Go.len (gdb.GetReturningFromCtx ctx) = 0 ->
  gdb.Value ctx pk = gdb.CtxTableField f ->
  gdb.Name f <> EmptyString ->
  Go.Contains sql "INSERT INTO" = true ->
  pgsql.returningMode pk ctx sql
  = {| pgsql.l_sql :=
         (sql ++ " RETURNING " ++ Go.dquote ++ gdb.Name f ++ Go.dquote)
           %string;
       pgsql.isUseCoreDoExec := false;
       pgsql.isUserReturning := false;
       pgsql.primaryKey := gdb.Name f;
       pgsql.pkField := f |}.
Proof.
  intros Hlen Hv Hname Hins. unfold pgsql.returningMode.
  rewrite Hlen, Hv, Hins. simpl.
  destruct (String.eqb_spec (gdb.Name f) EmptyString); [contradiction |].
  reflexivity.
Qed.

Lemma auto_returning_conditions (pk : string) (ctx : gdb.Context)
      (sql : string) :
  auto_returning pk ctx sql = true <->
  Go.len (gdb.GetReturningFromCtx ctx) = 0
  /\ exists f : gdb.TableField,
      gdb.Value ctx pk = gdb.CtxTableField f
      /\ gdb.Name f <> EmptyString
      /\ Go.Contains sql "INSERT INTO" = true.
Proof.
  split.
  - intros H. apply auto_returning_spec in H as (Hlen & f & Hv & Hn & Hc & _).
    split; [exact Hlen |]. exists f. auto.
  - intros (Hlen & f & Hv & Hn & Hc). unfold auto_returning.
    now rewrite (returningMode_fallback pk ctx sql f Hlen Hv Hn Hc).
Qed.

(** C3, as the code has it. DoExec applies the automatic primary-key
    RETURNING exactly when the context carries no non-empty list of
    RETURNING fields, carries a primary-key field with a non-empty name,
    and the statement contains INSERT INTO. Under these conditions the
    statement with RETURNING and the quoted name of that field appended
    is what DoExec formats, filters and commits as a query through the
    resolved link, the Result is built from the rows of that query, and
    the default DoExec is not called. With no list of RETURNING fields
    and one of the conditions missing, DoExec is the default DoExec on the
    unchanged statement through the resolved link. DoInsert puts a field
    in the context exactly when the insert option is the default one,
    no RETURNING fields are requested and TableFields answers with a
    field of key "pri": the first such field in the order they are ranged
    over, whatever its type and however many there are. *)
Theorem auto_returning_when :
  (forall (pk : string) (ctx : gdb.Context) (sql : string),
      auto_returning pk ctx sql = true <->
      Go.len (gdb.GetReturningFromCtx ctx) = 0
      /\ exists f : gdb.TableField,
          gdb.Value ctx pk = gdb.CtxTableField f
          /\ gdb.Name f <> EmptyString
          /\ Go.Contains sql "INSERT INTO" = true)
  /\ (forall (pk : string) (d : Driver) (ctx : gdb.Context)
             (link : option Link) (sql : string) (args : Args)
             (f : gdb.TableField) (l : Link),
         Go.len (gdb.GetReturningFromCtx ctx) = 0 ->
         gdb.Value ctx pk = gdb.CtxTableField f ->
         gdb.Name f <> EmptyString ->
         Go.Contains sql "INSERT INTO" = true ->
         outcome (TransactionChecks d ctx link) = inr l ->
         let run := pgsql.DoExec pk d ctx link sql args in
         let sql1 :=
           (sql ++ " RETURNING " ++ Go.dquote ++ gdb.Name f ++ Go.dquote)
             %string in
         let fmt := FormatSqlBeforeExecuting d sql1 args in
         (forall (l' : option Link) (s : string) (a : Args),
             ~ In (CallCoreDoExec l' s a) (calls run))
         /\ match DoFilter d ctx l (fst fmt) (snd fmt) with
            | inl e =>
                calls run
                = calls (TransactionChecks d ctx link)
                    ++ [CallDoFilter l (fst fmt) (snd fmt)]
                /\ outcome run = inl e
            | inr (sql2, args2) =>
                let input :=
                  {| in_Link := l; in_Sql := sql2; in_Args := args2;
                     in_Type := SqlTypeQueryContext;
                     in_IsTransaction := IsTransaction l |} in
                calls run
                = calls (TransactionChecks d ctx link)
                    ++ [CallDoFilter l (fst fmt) (snd fmt);
                        CallDoCommit input]
                /\ outcome run
                   = match DoCommit d ctx input with
                     | inl e => inl e
                     | inr out =>
                         inr (sql.Pgsql
                                (pgsql.resultOf d
                                   {| pgsql.l_sql := sql1;
                                      pgsql.isUseCoreDoExec := false;
                                      pgsql.isUserReturning := false;
                                      pgsql.primaryKey := gdb.Name f;
                                      pgsql.pkField := f |} out))
                     end
            end)
  /\ (forall (pk : string) (d : Driver) (ctx : gdb.Context)
             (link : option Link) (sql : string) (args : Args),
         Go.len (gdb.GetReturningFromCtx ctx) = 0 ->
         ~ (exists f : gdb.TableField,
               gdb.Value ctx pk = gdb.CtxTableField f
               /\ gdb.Name f <> EmptyString
               /\ Go.Contains sql "INSERT INTO" = true) ->
         pgsql.DoExec pk d ctx link sql args
         = bind (TransactionChecks d ctx link)
                (fun l => call (CallCoreDoExec (Some l) sql args)
                               (CoreDoExec d ctx (Some l) sql args)))
  /\ (forall (pk : string) (d : Driver) (ctx : gdb.Context)
             (link : option Link) (table : string) (rows : DataList)
             (opt : DoInsertOption) (ctx2 : gdb.Context) (l : option Link)
             (f : gdb.TableField),
         pk <> gdb.ReturningKeyInCtx ->
         gdb.Value ctx pk = gdb.CtxNil ->
         In (CallCoreDoInsert ctx2 l)
            (calls (pgsql.DoInsert pk d ctx link table rows opt)) ->
         gdb.Value ctx2 pk = gdb.CtxTableField f <->
         opt_InsertOption opt = InsertOptionDefault
         /\ Go.len (opt_Returning opt) = 0
         /\ exists before after : list gdb.TableField,
             TableFields d ctx table = inr (before ++ f :: after)
             /\ gdb.Key f = "pri"
             /\ Forall (fun x => gdb.Key x <> "pri") before).
Proof.
  split; [exact auto_returning_conditions |].
  split; [| split].
  - intros pk d ctx link sql args f l Hlen Hv Hname Hins Hl run sql1 fmt.
    pose proof (pgsql_DoExec_returning_run pk d ctx link sql args l) as Hrun.
    rewrite (returningMode_fallback pk ctx sql f Hlen Hv Hname Hins) in Hrun.
    cbv zeta in Hrun.
    cbn [pgsql.l_sql pgsql.isUseCoreDoExec] in Hrun.
    specialize (Hrun eq_refl Hl).
    fold sql1 in Hrun. fold fmt in Hrun. fold run in Hrun.
    split; [| exact Hrun].
    intros l' s a Hin.
    assert (Hcalls :
              exists rest,
                calls run = calls (TransactionChecks d ctx link) ++ rest
                /\ forall c, In c rest ->
                             match c with
                             | CallDoFilter _ _ _ | CallDoCommit _ => True
                             | _ => False
                             end).
    { clear Hin. revert Hrun.
      destruct (DoFilter d ctx l (fst fmt) (snd fmt)) as [e | [sql2 args2]];
        cbv beta iota zeta; intros [Hrun _]; rewrite Hrun;
        (eexists; split; [reflexivity |]).
      - intros c [<- | []]. exact I.
      - intros c [<- | [<- | []]]; exact I. }
    destruct Hcalls as (rest & Heq & Hrest).
    rewrite Heq in Hin. apply in_app_or in Hin as [Hin | Hin].
    + apply TransactionChecks_only_master in Hin. discriminate.
    + apply Hrest in Hin. exact Hin.
  - intros pk d ctx link sql args Hlen Hnot.
    apply DoExec_default_path; [exact Hlen |].
    destruct (auto_returning pk ctx sql) eqn:Hauto; [| reflexivity].
    apply auto_returning_conditions in Hauto as [_ Hex]. contradiction.
  - intros pk d ctx link table rows opt ctx2 l f Hkey Hnil Hin.
    rewrite (DoInsert_primary_key_in_ctx pk d ctx link table rows opt ctx2 l f
               Hkey Hnil Hin).
    split.
    + intros (Ho & Hl & tfs & Ht & Hp).
      apply firstPri_first in Hp as (before & after & -> & Hk & Hb).
      repeat split; auto. exists before, after. auto.
    + intros (Ho & Hl & before & after & Ht & Hk & Hb).
      repeat split; auto. exists (before ++ f :: after). split; [exact Ht |].
      apply firstPri_first. exists before, after. auto.
Qed.

Definition sample_id_field (ty : string) : gdb.TableField :=
  {| gdb.Name := "id"; gdb.Type_ := ty; gdb.Key := "pri" |}.

Definition sample_name_field : gdb.TableField :=
  {| gdb.Name := "name"; gdb.Type_ := "varchar(45)"; gdb.Key := EmptyString |}.

Definition sample_default_insert : DoInsertOption :=
  {| opt_InsertOption := InsertOptionDefault; opt_Returning := None |}.

(** An insert into a table with the integer primary key id: DoInsert
    puts the field in the context, and DoExec, called with that context,
    commits the statement with RETURNING "id" appended as a query and
    builds the Result from its row; an update with the same context goes
    to the default DoExec unchanged. *)
Lemma auto_returning_when_witness :
  let d := sample_driver None (Some [[("id", gdb.VarInt 7)]])
                         [sample_name_field; sample_id_field "int8"] in
  let ctx2 := [("primary_key", gdb.CtxTableField (sample_id_field "int8"))] in
  let sql1 :=
    ("INSERT INTO user(name) VALUES(?) RETURNING " ++ Go.dquote ++ "id"
       ++ Go.dquote)%string in
  let run := pgsql.DoExec "primary_key" d ctx2 None
                          "INSERT INTO user(name) VALUES(?)"
                          [gdb.VarStr "john"] in
  (gdb.Value ctx2 "primary_key" = gdb.CtxTableField (sample_id_field "int8")
   <-> opt_InsertOption sample_default_insert = InsertOptionDefault
       /\ Go.len (opt_Returning sample_default_insert) = 0
       /\ exists before after : list gdb.TableField,
           TableFields d [] "user" = inr (before ++ sample_id_field "int8"
                                                 :: after)
           /\ gdb.Key (sample_id_field "int8") = "pri"
           /\ Forall (fun x => gdb.Key x <> "pri") before)
  /\ ((forall (l' : option Link) (s : string) (a : Args),
          ~ In (CallCoreDoExec l' s a) (calls run))
      /\ calls run
         = [CallMasterLink;
            CallDoFilter sample_link sql1 [gdb.VarStr "john"];
            CallDoCommit {| in_Link := sample_link; in_Sql := sql1;
                            in_Args := [gdb.VarStr "john"];
                            in_Type := SqlTypeQueryContext;
                            in_IsTransaction := false |}]
      /\ outcome run
         = inr (sql.Pgsql {| sql.affected := 1; sql.lastInsertId := 7;
                             sql.lastInsertIdError := None;
                             sql.pg_records := None |}))
  /\ pgsql.DoExec "primary_key" d ctx2 None "UPDATE user SET name=?" []
     = bind (TransactionChecks d ctx2 None)
            (fun l => call (CallCoreDoExec (Some l) "UPDATE user SET name=?" [])
                           (CoreDoExec d ctx2 (Some l)
                                       "UPDATE user SET name=?" [])).
Proof.
  destruct auto_returning_when as (_ & Hfires & Hdefault & Hinsert).
  split; [| split].
  - apply (Hinsert "primary_key" _ [] None "user" [] sample_default_insert
                   _ None).
    + discriminate.
    + reflexivity.
    + simpl. right. left. reflexivity.
  - exact (Hfires "primary_key"
                  (sample_driver None (Some [[("id", gdb.VarInt 7)]])
                                 [sample_name_field; sample_id_field "int8"])
                  [("primary_key",
                    gdb.CtxTableField (sample_id_field "int8"))]
                  None "INSERT INTO user(name) VALUES(?)"
                  [gdb.VarStr "john"] (sample_id_field "int8") sample_link
                  eq_refl eq_refl
                  (fun H : gdb.Name (sample_id_field "int8") = EmptyString =>
                     eq_ind "id"%string
                            (fun s => match s with
                                      | EmptyString => False
                                      | String _ _ => True
                                      end) I EmptyString H)
                  eq_refl eq_refl).
  - apply Hdefault; [reflexivity |].
    intros (f & _ & _ & Hins). vm_compute in Hins. discriminate.
Defined.

(** The fallback is applied to a table whose only primary-key column is
    not of an integer type: the condition "exactly one integer-typed
    primary-key column" is not the one the code tests. *)
Lemma auto_returning_not_only_single_int_pk :
  ~ (forall (pk : string) (d : Driver) (ctx : gdb.Context)
            (link : option Link) (table : string) (rows : DataList)
            (opt : DoInsertOption) (ctx2 : gdb.Context) (l : option Link)
            (sql : string),
        pk <> gdb.ReturningKeyInCtx ->
        gdb.Value ctx pk = gdb.CtxNil ->
        In (CallCoreDoInsert ctx2 l)
           (calls (pgsql.DoInsert pk d ctx link table rows opt)) ->
        auto_returning pk ctx2 sql = true <->
        Go.len (opt_Returning opt) = 0
        /\ Go.Contains sql "INSERT INTO" = true
        /\ exists tableFields : list gdb.TableField,
            TableFields d ctx table = inr tableFields
            /\ spec_single_int_pk tableFields = true).
Proof.
  intros H.
  pose (d := sample_driver None None
                           [sample_name_field; sample_id_field "uuid"]).
  specialize (H "primary_key" d [] None "user" [] sample_default_insert
                [("primary_key", gdb.CtxTableField (sample_id_field "uuid"))]
                None "INSERT INTO user(name) VALUES(?)").
  destruct H as [Hfired _].
  - discriminate.
  - reflexivity.
  - simpl. right. left. reflexivity.
  - destruct Hfired as (_ & _ & tfs & Htf & Hspec); [reflexivity |].
    injection Htf as <-. vm_compute in Hspec. discriminate.
Qed.

(** ** Explicit RETURNING fields *)

Lemma returningMode_user (pk : string) (ctx : gdb.Context) (sql : string) :
  Go.len (gdb.GetReturningFromCtx ctx) <> 0 ->
  let v := pgsql.returningMode pk ctx sql in
  pgsql.isUseCoreDoExec v = false
  /\ pgsql.isUserReturning v = true
  /\ pgsql.l_sql v
     = (sql ++ " "
            ++ pgsql.buildReturningClause
                 (Go.elems (gdb.GetReturningFromCtx ctx)))%string.
Proof.
  intros Hlen. unfold pgsql.returningMode.
  destruct (Nat.ltb_spec 0 (Go.len (gdb.GetReturningFromCtx ctx)));
    [simpl; auto | lia].
Qed.

Lemma returningMode_auto (pk : string) (ctx : gdb.Context) (sql : string)
      (f : gdb.TableField) :
  auto_returning pk ctx sql = true ->
  gdb.Value ctx pk = gdb.CtxTableField f ->
  let v := pgsql.returningMode pk ctx sql in
  pgsql.isUseCoreDoExec v = false
  /\ pgsql.isUserReturning v = false
  /\ pgsql.pkField v = f
  /\ pgsql.primaryKey v = gdb.Name f.
Proof.
  unfold auto_returning, pgsql.returningMode. intros Hauto Hv. revert Hauto.
  destruct (Nat.ltb 0 (Go.len (gdb.GetReturningFromCtx ctx)));
    [simpl; discriminate |].
  rewrite Hv.
  destruct (negb (String.eqb (gdb.Name f) EmptyString)
            && Go.Contains sql "INSERT INTO");
    simpl; [auto | discriminate].
Qed.

(** The statement that sqlite's DoExec executes as a query when RETURNING
    fields are requested, and the Result it builds. *)
Lemma sqlite_DoExec_query_path (d : Driver) (ctx : gdb.Context)
      (link : option Link) (sql : string) (args : Args) (res : sql.Result) :
  Go.len (gdb.GetReturningFromCtx ctx) <> 0 ->
  outcome (sqlite.DoExec_query d ctx link sql args) = inr res ->
  exists (l : Link) (sql2 : string) (args2 : Args) (out : DoCommitOutput),
    let fmt :=
      FormatSqlBeforeExecuting d
        (sql ++ " "
             ++ sqlite.buildReturningClause
                  (Go.elems (gdb.GetReturningFromCtx ctx)))%string
        args in
    let input :=
      {| in_Link := l; in_Sql := sql2; in_Args := args2;
         in_Type := SqlTypeQueryContext;
         in_IsTransaction := IsTransaction l |} in
    outcome (TransactionChecks d ctx link) = inr l
    /\ DoFilter d ctx l (fst fmt) (snd fmt) = inr (sql2, args2)
    /\ DoCommit d ctx input = inr out
    /\ res = sql.Sqlite {| sql.embedded := out_Result out;
                           sql.records := out_Records out |}
    /\ calls (sqlite.DoExec_query d ctx link sql args)
       = calls (TransactionChecks d ctx link)
           ++ [CallDoFilter l (fst fmt) (snd fmt); CallDoCommit input].
Proof.
  intros Hlen. unfold sqlite.DoExec_query.
  destruct (Nat.eqb_spec (Go.len (gdb.GetReturningFromCtx ctx)) 0)
    as [E | _]; [contradiction |].
  destruct (TransactionChecks d ctx link) as [log [e | l]]; simpl;
    [discriminate |].
  destruct (FormatSqlBeforeExecuting d _ args) as [sql1 args1].
  simpl. unfold call, bind.
  destruct (DoFilter d ctx l sql1 args1) as [e | [sql2 args2]] eqn:Hf; simpl;
    [discriminate |].
  destruct (DoCommit d ctx _) as [e | out] eqn:Hc; simpl; [discriminate |].
  intros [= <-].
  exists l, sql2, args2, out. simpl. rewrite Hc. repeat split. exact Hf.
Qed.

(** C4 at sqlite_do_exec.go. With RETURNING fields in the context this
    DoExec appends the clause and hands the statement to the default
    DoExec: its only call is that one, no query is committed, and its
    result is the result of the default DoExec. *)
Theorem sqlite_DoExec_returning_not_queried :
  forall (d : Driver) (link : option Link) (sql : string) (args : Args),
    let ctx := [(sqlite.internalReturningInCtx, gdb.CtxStrings (Some ["id"]))] in
    let sql1 := (sql ++ " RETURNING `id`")%string in
    calls (sqlite.DoExec d ctx link sql args) = [CallCoreDoExec link sql1 args]
    /\ outcome (sqlite.DoExec d ctx link sql args)
       = CoreDoExec d ctx link sql1 args
    /\ (forall input : DoCommitInput,
           ~ In (CallDoCommit input) (calls (sqlite.DoExec d ctx link sql args))).
Proof.
  intros d link sql args ctx sql1.
  repeat split.
  intros input [H | []]. discriminate.
Qed.

(** C5 at sqlite's Result. An insert with the RETURNING field id, executed
    by sqlite's DoExec as a query that returns one row: the Result carries
    that row, and LastInsertId answers 0 without any error. *)
Theorem sqlite_LastInsertId_after_returning_insert :
  let rows := Some [[("id", gdb.VarInt 7)]] : gdb.Result in
  let d := sample_driver None rows [] in
  let ctx := gdb.InjectReturning [] (Some ["id"]) in
  exists r : sql.SqliteResult,
    outcome (sqlite.DoExec_query d ctx None
               "INSERT INTO user(name) VALUES(?)" [gdb.VarStr "john"])
    = inr (sql.Sqlite r)
    /\ sqlite.GetRecords r = rows
    /\ sqlite.RowsAffected r = (1%Z, None)
    /\ sqlite.LastInsertId r = (0%Z, None).
Proof.
  intros rows d ctx.
  exists {| sql.embedded := None; sql.records := rows |}.
  repeat split.
Qed.

(** After a statement with explicit RETURNING fields, the Result of
    pgsql's DoExec has lastInsertId 0 and the NotSupported error as
    lastInsertIdError; the Result of sqlite's DoExec answers LastInsertId
    as the native result of the query does, and with 0 and no error when
    the query has no native result. *)
Lemma LastInsertId_after_returning :
  (forall (pk : string) (d : Driver) (ctx : gdb.Context)
          (link : option Link) (sql : string) (args : Args)
          (res : sql.Result),
      Go.len (gdb.GetReturningFromCtx ctx) <> 0 ->
      outcome (pgsql.DoExec pk d ctx link sql args) = inr res ->
      exists r : sql.PgsqlResult,
        res = sql.Pgsql r
        /\ sql.lastInsertId r = 0%Z
        /\ sql.lastInsertIdError r = Some pgsql.notSupportedCustom
        /\ gdb.err_code pgsql.notSupportedCustom = gdb.CodeNotSupported)
  /\ (forall (d : Driver) (ctx : gdb.Context) (link : option Link)
             (sql : string) (args : Args) (res : sql.Result),
         Go.len (gdb.GetReturningFromCtx ctx) <> 0 ->
         outcome (sqlite.DoExec_query d ctx link sql args) = inr res ->
         exists (r : sql.SqliteResult) (input : DoCommitInput)
                (out : DoCommitOutput),
           res = sql.Sqlite r
           /\ DoCommit d ctx input = inr out
           /\ sqlite.LastInsertId r
              = match out_Result out with
                | Some native => sql.native_LastInsertId native
                | None => (0%Z, None)
                end).
Proof.
  split.
  - intros pk d ctx link sql args res Hlen Hres.
    destruct (returningMode_user pk ctx sql Hlen) as (Hcore & Huser & _).
    destruct (pgsql_DoExec_query_path pk d ctx link sql args res Hcore Hres)
      as (l & sql2 & args2 & out & _ & _ & _ & -> & _).
    eexists. split; [reflexivity |].
    unfold pgsql.resultOf. rewrite Huser. simpl. auto.
  - intros d ctx link sql args res Hlen Hres.
    destruct (sqlite_DoExec_query_path d ctx link sql args res Hlen Hres)
      as (l & sql2 & args2 & out & _ & _ & Hc & -> & _).
    eexists. eexists. exists out. split; [reflexivity |].
    split; [exact Hc | reflexivity].
Qed.

(** ** The automatic fallback on a primary key that is not an integer *)

(** With no returned row the Result of the fallback is the zero Result:
    no lastInsertIdError at all. *)
Lemma auto_returning_no_rows_no_error :
  ~ (forall (pk : string) (d : Driver) (ctx : gdb.Context)
            (link : option Link) (sql : string) (args : Args)
            (f : gdb.TableField) (res : sql.Result),
        auto_returning pk ctx sql = true ->
        gdb.Value ctx pk = gdb.CtxTableField f ->
        Go.Contains (gdb.Type_ f) "int" = false ->
        outcome (pgsql.DoExec pk d ctx link sql args) = inr res ->
        exists (r : sql.PgsqlResult) (e : gdb.Error),
          res = sql.Pgsql r
          /\ sql.lastInsertIdError r = Some e
          /\ gdb.err_code e = gdb.CodeNotSupported).
Proof.
  intros H.
  destruct (H "primary_key" (sample_driver None (Some []) [])
              [("primary_key", gdb.CtxTableField (sample_id_field "uuid"))]
              None "INSERT INTO user(name) VALUES(?)" [gdb.VarStr "john"]
              (sample_id_field "uuid") (sql.Pgsql sql.PgsqlZero))
    as (r & e & Hr & He & _); try reflexivity.
  injection Hr as <-. discriminate.
Qed.

(** A database whose user may insert into the table but not read it:
    INSERT is executed, INSERT ... RETURNING is refused, since RETURNING
    needs the right to read the returned column. *)
Definition returning_denied : gdb.Error :=
  gdb.NewCode gdb.CodeDriver "pq: permission denied for table user".

Definition sample_insert_only_driver : Driver :=
  {| TXFromCtx := fun _ => None;
     MasterLink := inr sample_link;
     FormatSqlBeforeExecuting := fun s a => (s, a);
     DoFilter := fun _ _ s a => inr (s, a);
     DoCommit := fun _ input =>
                   if Go.Contains (in_Sql input) " RETURNING "
                   then inl returning_denied
                   else inr {| out_Result := Some sample_native;
                               out_Records := None |};
     CoreDoExec := fun _ _ s _ =>
                     if Go.Contains s " RETURNING "
                     then inl returning_denied
                     else inr (sql.Native sample_native);
     CoreDoInsert := fun _ _ _ _ _ => inr (sql.Native sample_native);
     TableFields := fun _ _ => inr [sample_id_field "uuid"];
     VarInt64 := fun v => match v with gdb.VarInt z => z | _ => 0%Z end |}.

(** On that database the insert succeeds when DoExec is called without
    the primary-key field in the context, and fails with the error of the
    RETURNING query when the field is there: one call of the filter, one
    commit, no call of the default DoExec. *)
Lemma fallback_fails_where_plain_insert_succeeds :
  let d := sample_insert_only_driver in
  let ctx := [("primary_key", gdb.CtxTableField (sample_id_field "uuid"))] in
  let sql := "INSERT INTO user(name) VALUES(?)"%string in
  let sql1 := (sql ++ " RETURNING " ++ Go.dquote ++ "id" ++ Go.dquote)%string in
  let args := [gdb.VarStr "john"] in
  pgsql.DoExec "primary_key" d [] None sql args
  = ([CallMasterLink; CallCoreDoExec (Some sample_link) sql args],
     inr (sql.Native sample_native))
  /\ pgsql.DoExec "primary_key" d ctx None sql args
     = ([CallMasterLink;
         CallDoFilter sample_link sql1 args;
         CallDoCommit {| in_Link := sample_link; in_Sql := sql1;
                         in_Args := args; in_Type := SqlTypeQueryContext;
                         in_IsTransaction := false |}],
        inl returning_denied).
Proof.
  split; reflexivity.
Qed.

(** Both halves of the sentence fail on the code. With no returned row
    the Result has no lastInsertIdError. And the fallback makes an insert
    fail that the default DoExec executes: the statement as the caller
    wrote it is accepted by the default DoExec through the resolved
    link, and DoExec, with the primary-key field in the context, returns
    an error. *)
Lemma auto_returning_unmarked_or_failing :
  ~ (forall (pk : string) (d : Driver) (ctx : gdb.Context)
            (link : option Link) (sql : string) (args : Args)
            (f : gdb.TableField) (res : sql.Result),
        auto_returning pk ctx sql = true ->
        gdb.Value ctx pk = gdb.CtxTableField f ->
        Go.Contains (gdb.Type_ f) "int" = false ->
        outcome (pgsql.DoExec pk d ctx link sql args) = inr res ->
        exists (r : sql.PgsqlResult) (e : gdb.Error),
          res = sql.Pgsql r
          /\ sql.lastInsertIdError r = Some e
          /\ gdb.err_code e = gdb.CodeNotSupported)
  /\ ~ (forall (pk : string) (d : Driver) (ctx : gdb.Context)
               (link : option Link) (sql : string) (args : Args)
               (f : gdb.TableField) (l : Link) (res : sql.Result),
           auto_returning pk ctx sql = true ->
           gdb.Value ctx pk = gdb.CtxTableField f ->
           Go.Contains (gdb.Type_ f) "int" = false ->
           outcome (TransactionChecks d ctx link) = inr l ->
           CoreDoExec d ctx (Some l) sql args = inr res ->
           exists res' : sql.Result,
             outcome (pgsql.DoExec pk d ctx link sql args) = inr res').
Proof.
  split; [exact auto_returning_no_rows_no_error |].
  intros H.
  destruct (H "primary_key" sample_insert_only_driver
              [("primary_key", gdb.CtxTableField (sample_id_field "uuid"))]
              None "INSERT INTO user(name) VALUES(?)" [gdb.VarStr "john"]
              (sample_id_field "uuid") sample_link
              (sql.Native sample_native))
    as (res' & Hres); try reflexivity.
  destruct fallback_fails_where_plain_insert_succeeds as [_ Hfail].
  cbv zeta in Hfail. rewrite Hfail in Hres. discriminate.
Qed.

(** C6, as the code has it. When the automatic fallback is applied and the
    type of the primary-key field does not contain "int", a DoExec that
    returns a Result returns one without records and with lastInsertId 0,
    whose affected count is the number of rows the query returned; its
    lastInsertIdError is the NotSupported error naming the type when at
    least one row was returned, and absent when none was. An error of
    that DoExec is an error of opening the master link, of the filter or
    of the commit; and an error of the commit of the statement with
    RETURNING appended is the error of DoExec, which does not call the
    default DoExec: there is no second attempt without RETURNING. *)
Theorem auto_returning_non_integer_key :
  forall (pk : string) (d : Driver) (ctx : gdb.Context) (link : option Link)
         (sql : string) (args : Args) (f : gdb.TableField),
    auto_returning pk ctx sql = true ->
    gdb.Value ctx pk = gdb.CtxTableField f ->
    Go.Contains (gdb.Type_ f) "int" = false ->
    (forall res : sql.Result,
        outcome (pgsql.DoExec pk d ctx link sql args) = inr res ->
        exists (input : DoCommitInput) (out : DoCommitOutput)
               (r : sql.PgsqlResult),
          DoCommit d ctx input = inr out
          /\ in_Type input = SqlTypeQueryContext
          /\ res = sql.Pgsql r
          /\ sql.affected r = Z.of_nat (Go.len (out_Records out))
          /\ sql.lastInsertId r = 0%Z
          /\ sql.pg_records r = None
          /\ sql.lastInsertIdError r
             = (if Nat.ltb 0 (Go.len (out_Records out))
                then Some (pgsql.notSupportedType (gdb.Type_ f))
                else None)
          /\ gdb.err_code (pgsql.notSupportedType (gdb.Type_ f))
             = gdb.CodeNotSupported)
    /\ (forall e : gdb.Error,
           outcome (pgsql.DoExec pk d ctx link sql args) = inl e ->
           MasterLink d = inl e
           \/ (exists l s a, DoFilter d ctx l s a = inl e)
           \/ (exists input, DoCommit d ctx input = inl e))
    /\ (forall (l : Link) (sql2 : string) (args2 : Args) (e : gdb.Error),
           let fmt :=
             FormatSqlBeforeExecuting d
               (sql ++ " RETURNING " ++ Go.dquote ++ gdb.Name f ++ Go.dquote)
               args in
           outcome (TransactionChecks d ctx link) = inr l ->
           DoFilter d ctx l (fst fmt) (snd fmt) = inr (sql2, args2) ->
           DoCommit d ctx
                    {| in_Link := l; in_Sql := sql2; in_Args := args2;
                       in_Type := SqlTypeQueryContext;
                       in_IsTransaction := IsTransaction l |}
           = inl e ->
           outcome (pgsql.DoExec pk d ctx link sql args) = inl e
           /\ forall (l' : option Link) (s : string) (a : Args),
               ~ In (CallCoreDoExec l' s a)
                    (calls (pgsql.DoExec pk d ctx link sql args))).
Proof.
  intros pk d ctx link sql args f Hauto Hv Hty.
  destruct (returningMode_auto pk ctx sql f Hauto Hv)
    as (Hcore & Huser & Hpk & _).
  split; [| split].
  - intros res Hres.
    destruct (pgsql_DoExec_query_path pk d ctx link sql args res Hcore Hres)
      as (l & sql2 & args2 & out & _ & _ & Hc & -> & _).
    eexists. exists out. eexists.
    split; [exact Hc |]. split; [reflexivity |]. split; [reflexivity |].
    unfold pgsql.resultOf. rewrite Huser, Hpk, Hty. simpl.
    destruct (Nat.ltb_spec 0 (Go.len (out_Records out))) as [Hpos | Hzero];
      simpl; repeat split.
    replace (Go.len (out_Records out)) with 0 by lia. reflexivity.
  - intros e. now apply pgsql_DoExec_query_error.
  - intros l sql2 args2 e fmt Hl Hf Hc.
    apply auto_returning_spec in Hauto as (_ & f0 & Hv0 & _ & _ & Hsql).
    assert (f0 = f) as -> by congruence.
    pose proof (pgsql_DoExec_returning_run pk d ctx link sql args l) as Hrun.
    cbv zeta in Hrun. rewrite Hsql in Hrun.
    specialize (Hrun Hcore Hl).
    fold fmt in Hrun. rewrite Hf in Hrun. cbv beta iota zeta in Hrun.
    rewrite Hc in Hrun. destruct Hrun as [Hcalls Hout].
    split; [exact Hout |].
    intros l' s a Hin. rewrite Hcalls in Hin.
    apply in_app_or in Hin as [Hin | Hin].
    + apply TransactionChecks_only_master in Hin. discriminate.
    + destruct Hin as [Hin | [Hin | []]]; discriminate.
Qed.

(** An insert into a table with the primary key id of type uuid: with a
    database that returns the row, the Result carries the NotSupported
    error and the count 1; with a database that refuses the RETURNING
    query, DoExec fails with that error and the default DoExec is not
    called. *)
Lemma auto_returning_non_integer_key_witness :
  let rows := Some [[("id", gdb.VarStr "6f1c")]] : gdb.Result in
  let d := sample_driver None rows [] in
  let ctx := [("primary_key", gdb.CtxTableField (sample_id_field "uuid"))] in
  let run := pgsql.DoExec "primary_key" d ctx None
                          "INSERT INTO user(name) VALUES(?)"
                          [gdb.VarStr "john"] in
  let refused := pgsql.DoExec "primary_key" sample_insert_only_driver ctx
                              None "INSERT INTO user(name) VALUES(?)"
                              [gdb.VarStr "john"] in
  (exists (input : DoCommitInput) (out : DoCommitOutput)
          (r : sql.PgsqlResult),
      DoCommit d ctx input = inr out
      /\ in_Type input = SqlTypeQueryContext
      /\ sql.Pgsql {| sql.affected := 1; sql.lastInsertId := 0;
                      sql.lastInsertIdError :=
                        Some (pgsql.notSupportedType "uuid");
                      sql.pg_records := None |}
         = sql.Pgsql r
      /\ sql.affected r = Z.of_nat (Go.len (out_Records out))
      /\ sql.lastInsertId r = 0%Z
      /\ sql.pg_records r = None
      /\ sql.lastInsertIdError r
         = (if Nat.ltb 0 (Go.len (out_Records out))
            then Some (pgsql.notSupportedType
                         (gdb.Type_ (sample_id_field "uuid")))
            else None)
      /\ gdb.err_code (pgsql.notSupportedType
                         (gdb.Type_ (sample_id_field "uuid")))
         = gdb.CodeNotSupported)
  /\ (outcome refused = inl returning_denied
      /\ forall (l' : option Link) (s : string) (a : Args),
          ~ In (CallCoreDoExec l' s a) (calls refused)).
Proof.
  intros rows d ctx run refused. split.
  - apply (proj1 (auto_returning_non_integer_key
                    "primary_key" d ctx None
                    "INSERT INTO user(name) VALUES(?)" [gdb.VarStr "john"]
                    (sample_id_field "uuid")
                    eq_refl eq_refl eq_refl)).
    reflexivity.
  - exact (proj2 (proj2 (auto_returning_non_integer_key
                           "primary_key" sample_insert_only_driver ctx None
                           "INSERT INTO user(name) VALUES(?)"
                           [gdb.VarStr "john"] (sample_id_field "uuid")
                           eq_refl eq_refl eq_refl))
                 sample_link _ _ returning_denied eq_refl eq_refl eq_refl).
Defined.

(** ** The affected count of the automatic fallback *)


(** ** The scan-and-return helpers *)

Import model.

(** The code of the error a helper returns, if it returns one. *)
Definition code_of (e : option gdb.Error) : option gdb.Code :=
  option_map gdb.err_code e.

(** The result of a driver carries no RETURNING records: it has no method
    GetRecords, or GetRecords answers nil ("Returns nil if the database
    driver doesn't support RETURNING", says the interface). *)
Definition no_records (res : sql.Result) : Prop :=
  GetRecords res = None \/ GetRecords res = Some None.

Lemma scanReturning_cases (ops : Methods) (helper drivers : string)
      (res : gdb.Error + sql.Result) :
  (forall err, res = inl err ->
               scanReturning ops helper drivers res = Some err)
  /\ (forall r, res = inr r -> GetRecords r = None ->
                scanReturning ops helper drivers res
                = Some (notSupportedScan helper drivers))
  /\ (forall r, res = inr r ->
                GetRecords r = Some None \/ GetRecords r = Some (Some []) ->
                scanReturning ops helper drivers res = Some notFoundScan)
  /\ (forall r row rows, res = inr r ->
                         GetRecords r = Some (Some (row :: rows)) ->
                         scanReturning ops helper drivers res
                         = Structs ops (row :: rows)).
Proof.
  unfold scanReturning, SqlResultToReturning.
  repeat split.
  - now intros err ->.
  - intros r -> Hr. now rewrite Hr.
  - intros r -> [Hr | Hr]; now rewrite Hr, Hr.
  - intros r row rows -> Hr. now rewrite Hr, Hr.
Qed.

(** The models the three helpers run their mutation on. *)
Definition insert_model (ops : Methods) (m : Model) (data : list Any)
  : Model :=
  if Nat.ltb 0 (length data) then Data ops (ReturningAll m) data
  else ReturningAll m.

Definition update_model (ops : Methods) (m : Model)
           (dataAndWhere : list Any) : Model :=
  match dataAndWhere with
  | [] => ReturningAll m
  | [d0] => Data ops (ReturningAll m) [d0]
  | d0 :: w :: rest => Where ops (Data ops (ReturningAll m) [d0]) w rest
  end.

Definition delete_model (ops : Methods) (m : Model) (whereArgs : list Any)
  : Model :=
  match whereArgs with
  | [] => ReturningAll m
  | w :: rest => Where ops (ReturningAll m) w rest
  end.

Lemma helpers_scan (ops : Methods) (m : Model) (args : list Any) :
  InsertAndScan ops m args
  = scanReturning ops "InsertAndScan"
      "PostgreSQL, SQLite 3.35+, SQL Server, MariaDB 10.5+, DaMeng"
      (Insert ops (insert_model ops m args))
  /\ UpdateAndScan ops m args
     = scanReturning ops "UpdateAndScan"
         "PostgreSQL, SQLite 3.35+, SQL Server, DaMeng"
         (Update ops (update_model ops m args))
  /\ DeleteAndScan ops m args
     = scanReturning ops "DeleteAndScan"
         "PostgreSQL, SQLite 3.35+, SQL Server, MariaDB 10.5+, DaMeng"
         (Delete ops (delete_model ops m args)).
Proof.
  repeat split.
  unfold UpdateAndScan, update_model.
  destruct args as [| d0 [| w [| x rest]]]; reflexivity.
Qed.

(** A helper on a driver whose result has the method GetRecords but no
    records fails with NotFound, not with NotSupported. *)
Lemma scan_helper_without_records_not_found :
  ~ (forall (ops : Methods) (m : Model) (data : list Any)
            (res : sql.Result),
        Insert ops (insert_model ops m data) = inr res ->
        no_records res ->
        code_of (InsertAndScan ops m data) = Some gdb.CodeNotSupported).
Proof.
  intros H.
  pose (res := sql.Sqlite {| sql.embedded := Some sample_native;
                             sql.records := None |}).
  pose (ops := {| Data := fun m _ => m;
                  Where := fun m _ _ => m;
                  Insert := fun _ => inr res;
                  InsertIgnore := fun _ => inr res;
                  Save := fun _ => inr res;
                  Replace := fun _ => inr res;
                  Update := fun _ => inr res;
                  Delete := fun _ => inr res;
                  Structs := fun _ => None |}).
  specialize (H ops {| returning := None; data := []; where_ := [] |}
                [gdb.VarStr "john"] res eq_refl).
  discriminate H. right. reflexivity.
Qed.

(** C2, as the code has it. Returning and ReturningAll store the
    requested list in the model and do nothing else. Each of
    InsertAndScan, UpdateAndScan and DeleteAndScan runs its mutation on a
    model built from ReturningAll; an error of the mutation is returned as
    it is; a result without the method GetRecords makes the helper fail
    with NotSupported; a result with that method and no records makes it
    fail with NotFound. *)
Theorem scan_helpers_not_supported :
  forall (ops : Methods) (m : Model) (args : list Any),
    (forall fields, returning (Returning m fields) = fields)
    /\ returning (ReturningAll m) = Some ["*"]
    /\ (forall helper mutation,
           (helper = InsertAndScan ops m args
            /\ mutation = Insert ops (insert_model ops m args))
           \/ (helper = UpdateAndScan ops m args
               /\ mutation = Update ops (update_model ops m args))
           \/ (helper = DeleteAndScan ops m args
               /\ mutation = Delete ops (delete_model ops m args)) ->
           (forall err, mutation = inl err -> helper = Some err)
           /\ (forall res, mutation = inr res -> GetRecords res = None ->
                           code_of helper = Some gdb.CodeNotSupported)
           /\ (forall res, mutation = inr res ->
                           GetRecords res = Some None
                           \/ GetRecords res = Some (Some []) ->
                           code_of helper = Some gdb.CodeNotFound)).
Proof.
  intros ops m args.
  split; [reflexivity |]. split; [reflexivity |].
  intros helper mutation Hcase.
  destruct (helpers_scan ops m args) as (Hi & Hu & Hd).
  assert (Hscan : exists h drivers,
             helper = scanReturning ops h drivers mutation).
  { destruct Hcase as [[-> ->] | [[-> ->] | [-> ->]]]; eauto. }
  destruct Hscan as (h & drivers & ->).
  destruct (scanReturning_cases ops h drivers mutation)
    as (Herr & Hns & Hnf & _).
  repeat split.
  - exact Herr.
  - intros res Hm Hr. now rewrite (Hns res Hm Hr).
  - intros res Hm Hr. now rewrite (Hnf res Hm Hr).
Qed.

Lemma scan_helpers_not_supported_witness :
  let ops := {| Data := fun m _ => m;
                Where := fun m _ _ => m;
                Insert := fun _ => inr (sql.Native sample_native);
                InsertIgnore := fun _ => inr (sql.Native sample_native);
                Save := fun _ => inr (sql.Native sample_native);
                Replace := fun _ => inr (sql.Native sample_native);
                Update := fun _ => inl (gdb.NewCode gdb.CodeDriver "syntax");
                Delete := fun _ => inr (sql.Native sample_native);
                Structs := fun _ => None |} in
  let m := {| returning := None; data := []; where_ := [] |} in
  code_of (InsertAndScan ops m [gdb.VarStr "john"])
  = Some gdb.CodeNotSupported
  /\ UpdateAndScan ops m [gdb.VarStr "john"]
     = Some (gdb.NewCode gdb.CodeDriver "syntax").
Proof.
  intros ops m.
  destruct (scan_helpers_not_supported ops m [gdb.VarStr "john"])
    as (_ & _ & H).
  split.
  - destruct (H (InsertAndScan ops m [gdb.VarStr "john"])
                (Insert ops (insert_model ops m [gdb.VarStr "john"])))
      as (_ & Hns & _); [left; split; reflexivity |].
    apply (Hns (sql.Native sample_native)); reflexivity.
  - destruct (H (UpdateAndScan ops m [gdb.VarStr "john"])
                (Update ops (update_model ops m [gdb.VarStr "john"])))
      as (Herr & _); [right; left; split; reflexivity |].
    apply Herr. reflexivity.
Defined.

(** ** The Materializer *)

Import scanlist.

Lemma attr_set_attr_other (e : Element) (name other : string) (a : Attr) :
  other <> name -> attr (set_attr e name a) other = attr e other.
Proof.
  intros Hne. induction e as [| [n a0] e IH]; simpl.
  - destruct (String.eqb_spec name other); [congruence | reflexivity].
  - destruct (String.eqb_spec n name) as [-> | Hn]; simpl.
    + destruct (String.eqb_spec name other); [congruence | reflexivity].
    + destruct (String.eqb_spec n other); [reflexivity | exact IH].
Qed.

Lemma attr_set_attr_same (e : Element) (name : string) (a : Attr) :
  attr (set_attr e name a) name = a.
Proof.
  induction e as [| [n a0] e IH]; simpl.
  - now rewrite String.eqb_refl.
  - destruct (String.eqb_spec n name) as [-> | Hn]; simpl.
    + now rewrite String.eqb_refl.
    + destruct (String.eqb_spec n name); [contradiction | exact IH].
Qed.

Lemma attr_attach_other (pk : string) (b : Binding)
      (found : list gdb.Record) (e : Element) (other : string) :
  other <> bind_attr b -> attr (attach pk b found e) other = attr e other.
Proof.
  intros Hne. unfold attach.
  destruct (cardinality b), found; try reflexivity;
    now apply attr_set_attr_other.
Qed.

(** The bound attribute of an element after one binding. *)
Lemma attr_attach_same (pk : string) (b : Binding)
      (found : list gdb.Record) (e : Element) :
  attr (attach pk b found e) (bind_attr b)
  = bind_value pk (cardinality b) found (attr e (bind_attr b)).
Proof.
  unfold attach.
  destruct (cardinality b), found; try reflexivity;
    apply attr_set_attr_same.
Qed.

Lemma Var_eqb_eq (a b : gdb.Var) : Var_eqb a b = true <-> a = b.
Proof.
  destruct a as [x | x], b as [y | y]; simpl;
    try (split; [discriminate | intros [=]]).
  - rewrite Z.eqb_eq. split; [now intros -> | now intros [= ->]].
  - rewrite String.eqb_eq. split; [now intros -> | now intros [= ->]].
Qed.

Lemma index_get_add (idx : Index) (k k' : gdb.Var) (row : gdb.Record) :
  index_get (index_add idx k row) k'
  = if Var_eqb k k' then index_get idx k' ++ [row] else index_get idx k'.
Proof.
  induction idx as [| [k0 rows] idx IH]; simpl.
  - destruct (Var_eqb k k'); reflexivity.
  - destruct (Var_eqb k0 k) eqn:E0; simpl.
    + apply Var_eqb_eq in E0 as ->.
      destruct (Var_eqb k k'); reflexivity.
    + destruct (Var_eqb k0 k') eqn:E1; [| exact IH].
      apply Var_eqb_eq in E1 as ->.
      destruct (Var_eqb k k') eqn:E2; [| reflexivity].
      apply Var_eqb_eq in E2 as ->.
      assert (Hrefl : Var_eqb k' k' = true) by now apply Var_eqb_eq.
      congruence.
Qed.

(** The index answers a key with the rows that carry it in the
    correlation column, in the order of the RecordSet. *)
Lemma index_get_build (rows : list gdb.Record) (col : string) (k : gdb.Var) :
  index_get (build_index rows col) k
  = filter (fun row =>
              match gdb.record_get row col with
              | Some k' => Var_eqb k' k
              | None => false
              end) rows.
Proof.
  unfold build_index.
  enough (H : forall idx,
             index_get
               (fold_left
                  (fun idx row =>
                     match gdb.record_get row col with
                     | Some k' => index_add idx k' row
                     | None => idx
                     end) rows idx) k
             = index_get idx k
               ++ filter (fun row =>
                            match gdb.record_get row col with
                            | Some k' => Var_eqb k' k
                            | None => false
                            end) rows)
    by (rewrite H; reflexivity).
  induction rows as [| row rows IH]; intros idx; simpl.
  - now rewrite app_nil_r.
  - rewrite IH.
    destruct (gdb.record_get row col) as [k' |]; [| reflexivity].
    rewrite index_get_add.
    destruct (Var_eqb k' k); [| reflexivity].
    now rewrite <- app_assoc.
Qed.

(** The related rows of an element: the rows whose child column carries
    the correlation key of the element, in the order of the RecordSet;
    none when the element has no key. *)
Definition related (rows : list gdb.Record) (c : Correlation) (e : Element)
  : list gdb.Record :=
  match key_of c e with
  | Some k =>
      filter (fun row =>
                match gdb.record_get row (child_col c) with
                | Some k' => Var_eqb k' k
                | None => false
                end) rows
  | None => []
  end.

Lemma matches_related (rows : list gdb.Record) (c : Correlation)
      (e : Element) :
  matches (build_index rows (child_col c)) c e = related rows c e.
Proof.
  unfold matches, related.
  destruct (key_of c e); [apply index_get_build | reflexivity].
Qed.

(** What one call does to a destination sequence: it is filled with new
    elements when it is empty and no correlation is given; otherwise
    every element stays in its place and gets its related rows bound. *)
Lemma ScanList_seq (pk : string) (rs : gdb.Result) (es : list Element)
      (b : Binding) :
  ScanList pk rs (DestSeq es) b
  = inr (DestSeq
           (match correlation b, es with
            | None, [] =>
                map (fun row =>
                       [(bind_attr b,
                         bind_value pk (cardinality b) [row] AttrZero)])
                    (Go.elems rs)
            | _, _ =>
                map (fun e =>
                       attach pk b
                              (related (Go.elems rs) (correlation_of pk b) e)
                              e) es
            end)).
Proof.
  unfold ScanList.
  assert (Hmap : map (fun e =>
                        attach pk b
                          (matches (build_index (Go.elems rs)
                                      (child_col (correlation_of pk b)))
                                   (correlation_of pk b) e) e) es
                 = map (fun e =>
                          attach pk b
                            (related (Go.elems rs) (correlation_of pk b) e) e)
                       es).
  { apply map_ext. intros e. now rewrite matches_related. }
  destruct (correlation b) as [c |] eqn:Hc.
  - now rewrite Hmap.
  - destruct es as [| e es]; [| now rewrite Hmap].
    do 2 f_equal. apply map_ext. intros row.
    unfold attach. destruct (cardinality b); reflexivity.
Qed.

Lemma nth_map_attach (pk : string) (b : Binding)
      (g : Element -> list gdb.Record) (es : list Element) (i : nat) :
  i < length es ->
  nth i (map (fun e => attach pk b (g e) e) es) []
  = attach pk b (g (nth i es [])) (nth i es []).
Proof.
  revert i. induction es as [| e es IH]; intros [| i]; simpl; try lia.
  - reflexivity.
  - intros H. apply IH. lia.
Qed.

Lemma map_attach_frame (pk : string) (g : Element -> list gdb.Record)
      (b : Binding) (es : list Element) (i : nat) (other : string) :
  other <> bind_attr b ->
  attr (nth i (map (fun e => attach pk b (g e) e) es) []) other
  = attr (nth i es []) other.
Proof.
  intros Hne. revert i.
  induction es as [| e es IH]; intros [| i]; simpl; auto.
  now apply attr_attach_other.
Qed.

Lemma new_elements_frame (pk : string) (b : Binding)
      (rows : list gdb.Record) (i : nat) (other : string) :
  other <> bind_attr b ->
  attr (nth i (map (fun row =>
                      [(bind_attr b,
                        bind_value pk (cardinality b) [row] AttrZero)])
                   rows) []) other
  = AttrZero.
Proof.
  intros Hne. revert i.
  induction rows as [| row rows IH]; intros [| i]; simpl; auto.
  destruct (String.eqb_spec (bind_attr b) other); [congruence | reflexivity].
Qed.

(** One call of ScanList on a sequence: the elements are kept, every
    attribute other than the bound one is as before, and the bound
    attribute of every element that was there holds its related rows. *)
Lemma ScanList_frame (pk : string) (rs : gdb.Result) (es : list Element)
      (b : Binding) (dest : Dest) :
  ScanList pk rs (DestSeq es) b = inr dest ->
  exists es' : list Element,
    dest = DestSeq es'
    /\ (es <> [] -> length es' = length es)
    /\ (forall (i : nat) (other : string),
           other <> bind_attr b ->
           attr (nth i es' []) other = attr (nth i es []) other)
    /\ (forall i : nat,
           i < length es ->
           attr (nth i es' []) (bind_attr b)
           = bind_value pk (cardinality b)
               (related (Go.elems rs) (correlation_of pk b) (nth i es []))
               (attr (nth i es []) (bind_attr b)))
    /\ (es = [] -> correlation b = None ->
        es' = map (fun row =>
                     [(bind_attr b,
                       bind_value pk (cardinality b) [row] AttrZero)])
                  (Go.elems rs)).
Proof.
  rewrite ScanList_seq. intros [= <-].
  eexists. split; [reflexivity |].
  assert (Hkept :
            forall es0,
              (es0 <> [] -> length
                 (map (fun e =>
                         attach pk b
                           (related (Go.elems rs) (correlation_of pk b) e) e)
                      es0) = length es0)
              /\ (forall i other,
                     other <> bind_attr b ->
                     attr (nth i (map (fun e =>
                                         attach pk b
                                           (related (Go.elems rs)
                                              (correlation_of pk b) e) e)
                                      es0) []) other
                     = attr (nth i es0 []) other)
              /\ (forall i,
                     i < length es0 ->
                     attr (nth i (map (fun e =>
                                         attach pk b
                                           (related (Go.elems rs)
                                              (correlation_of pk b) e) e)
                                      es0) []) (bind_attr b)
                     = bind_value pk (cardinality b)
                         (related (Go.elems rs) (correlation_of pk b)
                                  (nth i es0 []))
                         (attr (nth i es0 []) (bind_attr b)))).
  { intros es0. split; [intros _; apply length_map |]. split.
    - intros i other Hne. now apply map_attach_frame.
    - intros i Hi.
      rewrite (nth_map_attach pk b
                 (related (Go.elems rs) (correlation_of pk b)) es0 i Hi).
      apply attr_attach_same. }
  destruct (correlation b) as [c |].
  - destruct (Hkept es) as (H1 & H2 & H3).
    repeat split; auto. intros _ [=].
  - destruct es as [| e es].
    + split; [congruence |]. split.
      * intros i other Hne. rewrite new_elements_frame by exact Hne.
        now destruct i.
      * split; [simpl; intros i Hi; lia | reflexivity].
    + destruct (Hkept (e :: es)) as (H1 & H2 & H3).
      repeat split; auto. discriminate.
Qed.

(** C9. Two calls of ScanList on the same destination sequence that bind
    different attributes.  The second call keeps the elements of the
    first: their number, element by element the correlation key they were
    scanned with, and every attribute it does not bind, among them the
    attribute bound by the first call, which stays as the first call
    left it.  And each call does its own work: in every element that was
    there, the attribute it binds holds the rows related to the element
    by the correlation key (the first of them for One, all of them in
    row order for Many), written into the structs that were already
    bound. *)
Theorem ScanList_keeps_earlier_attributes :
  forall (pk : string) (r1 r2 : gdb.Result) (es : list Element)
         (b1 b2 : Binding) (d1 d2 : Dest),
    bind_attr b1 <> bind_attr b2 ->
    ScanList pk r1 (DestSeq es) b1 = inr d1 ->
    ScanList pk r2 d1 b2 = inr d2 ->
    exists es1 es2 : list Element,
      d1 = DestSeq es1
      /\ d2 = DestSeq es2
      /\ (es1 <> [] -> length es2 = length es1)
      /\ (forall i : nat,
             attr (nth i es2 []) (bind_attr b1)
             = attr (nth i es1 []) (bind_attr b1))
      /\ (forall (i : nat) (other : string),
             other <> bind_attr b2 ->
             attr (nth i es2 []) other = attr (nth i es1 []) other)
      /\ (forall (i : nat) (c : Correlation),
             parent_attr c <> bind_attr b2 ->
             key_of c (nth i es2 []) = key_of c (nth i es1 []))
      /\ (forall i : nat,
             i < length es ->
             attr (nth i es2 []) (bind_attr b1)
             = bind_value pk (cardinality b1)
                 (related (Go.elems r1) (correlation_of pk b1) (nth i es []))
                 (attr (nth i es []) (bind_attr b1)))
      /\ (es = [] -> correlation b1 = None ->
          es1 = map (fun row =>
                       [(bind_attr b1,
                         bind_value pk (cardinality b1) [row] AttrZero)])
                    (Go.elems r1))
      /\ (forall i : nat,
             i < length es1 ->
             attr (nth i es2 []) (bind_attr b2)
             = bind_value pk (cardinality b2)
                 (related (Go.elems r2) (correlation_of pk b2)
                          (nth i es1 []))
                 (attr (nth i es1 []) (bind_attr b2))).
Proof.
  intros pk r1 r2 es b1 b2 d1 d2 Hne H1 H2.
  destruct (ScanList_frame pk r1 es b1 d1 H1)
    as (es1 & -> & _ & _ & Hbound1 & Hnew1).
  destruct (ScanList_frame pk r2 es1 b2 d2 H2)
    as (es2 & -> & Hlen & Hframe & Hbound2 & _).
  exists es1, es2.
  split; [reflexivity |]. split; [reflexivity |]. split; [exact Hlen |].
  split; [intros i; now apply Hframe |]. split; [exact Hframe |].
  split; [| split; [| split; [exact Hnew1 | exact Hbound2]]].
  - intros i c Hc. unfold key_of. now rewrite Hframe.
  - intros i Hi. rewrite Hframe by exact Hne. now apply Hbound1.
Qed.

(** The rows of Test_ScanList_NoRecreate_SliceAttribute_Ptr. *)
Definition test_r1 : gdb.Result :=
  Some [[("id", gdb.VarInt 1); ("name", gdb.VarStr "john");
         ("age", gdb.VarInt 16)];
        [("id", gdb.VarInt 2); ("name", gdb.VarStr "smith");
         ("age", gdb.VarInt 18)]].

Definition test_r2 : gdb.Result :=
  Some [[("id", gdb.VarInt 100); ("pid", gdb.VarInt 1);
         ("age", gdb.VarInt 30); ("name", gdb.VarStr "john")];
        [("id", gdb.VarInt 200); ("pid", gdb.VarInt 1);
         ("age", gdb.VarInt 31); ("name", gdb.VarStr "smith")]].

Definition test_r3 : gdb.Result :=
  Some [[("id", gdb.VarInt 100); ("pid", gdb.VarInt 1);
         ("age", gdb.VarInt 40)];
        [("id", gdb.VarInt 200); ("pid", gdb.VarInt 1);
         ("age", gdb.VarInt 41)]].

(** The second rows of Test_ScanList_NoRecreate_PtrAttribute. *)
Definition test_ages : gdb.Result :=
  Some [[("id", gdb.VarInt 1); ("age", gdb.VarInt 20)];
        [("id", gdb.VarInt 2); ("age", gdb.VarInt 21)]].

(** ScanList(&s, "One"), ScanList(&s, "Many", "One", "pid:Id") and
    ScanList(&s, "One", "One", "id:Id"). *)
Definition test_one : Binding :=
  {| bind_attr := "One"; cardinality := One; correlation := None |}.

Definition test_many : Binding :=
  {| bind_attr := "Many"; cardinality := Many;
     correlation := Some {| parent_attr := "One"; parent_col := "id";
                            child_col := "pid" |} |}.

Definition test_one_again : Binding :=
  {| bind_attr := "One"; cardinality := One;
     correlation := Some {| parent_attr := "One"; parent_col := "id";
                            child_col := "id" |} |}.

Definition test_after_one : list Element :=
  map (fun row => [("One", AttrOne row)]) (Go.elems test_r1).

Definition test_after_many : list Element :=
  [[("One", AttrOne (nth 0 (Go.elems test_r1) []));
    ("Many", AttrMany (Go.elems test_r2))];
   [("One", AttrOne (nth 1 (Go.elems test_r1) []));
    ("Many", AttrMany [])]].

(** A field of the struct bound to an attribute of element [i], and of
    struct [j] of a sequence bound to it. *)
Definition field_one (es : list Element) (i : nat) (name field : string)
  : option gdb.Var :=
  match attr (nth i es []) name with
  | AttrOne struct => gdb.record_get struct field
  | _ => None
  end.

Definition field_many (es : list Element) (i : nat) (name : string)
           (j : nat) (field : string) : option gdb.Var :=
  match attr (nth i es []) name with
  | AttrMany structs => gdb.record_get (nth j structs []) field
  | _ => None
  end.

Definition seq_of (d : gdb.Error + Dest) : list Element :=
  match d with
  | inr (DestSeq es) => es
  | _ => []
  end.

(** The model gives the values that the tests assert, at each of their
    steps: Test_ScanList_NoRecreate_SliceAttribute_Ptr after r1, r2 and
    r3, and Test_ScanList_NoRecreate_PtrAttribute after its second
    rows. *)
Lemma ScanList_test_values :
  let s1 := seq_of (ScanList "id" test_r1 (DestSeq []) test_one) in
  let s2 := seq_of (ScanList "id" test_r2 (DestSeq s1) test_many) in
  let s3 := seq_of (ScanList "id" test_r3 (DestSeq s2) test_many) in
  let p2 := seq_of (ScanList "id" test_ages (DestSeq s1) test_one_again) in
  (s1 = test_after_one /\ s2 = test_after_many)
  /\ (length s3 = 2
      /\ field_one s3 0 "One" "name" = Some (gdb.VarStr "john")
      /\ field_one s3 0 "One" "age" = Some (gdb.VarInt 16)
      /\ attr (nth 0 s3 []) "Many"
         = AttrMany [[("id", gdb.VarInt 100); ("pid", gdb.VarInt 1);
                      ("age", gdb.VarInt 40); ("name", gdb.VarStr "john")];
                     [("id", gdb.VarInt 200); ("pid", gdb.VarInt 1);
                      ("age", gdb.VarInt 41); ("name", gdb.VarStr "smith")]]
      /\ field_many s3 0 "Many" 0 "name" = Some (gdb.VarStr "john")
      /\ field_many s3 0 "Many" 0 "age" = Some (gdb.VarInt 40)
      /\ field_many s3 0 "Many" 1 "name" = Some (gdb.VarStr "smith")
      /\ field_many s3 0 "Many" 1 "age" = Some (gdb.VarInt 41)
      /\ field_one s3 1 "One" "name" = Some (gdb.VarStr "smith")
      /\ field_one s3 1 "One" "age" = Some (gdb.VarInt 18)
      /\ attr (nth 1 s3 []) "Many" = AttrMany [])
  /\ (length p2 = 2
      /\ field_one p2 0 "One" "name" = Some (gdb.VarStr "john")
      /\ field_one p2 0 "One" "age" = Some (gdb.VarInt 20)
      /\ field_one p2 1 "One" "name" = Some (gdb.VarStr "smith")
      /\ field_one p2 1 "One" "age" = Some (gdb.VarInt 21)).
Proof.
  vm_compute. repeat split.
Qed.

Lemma ScanList_keeps_earlier_attributes_witness :
  exists es1 es2 : list Element,
    DestSeq test_after_one = DestSeq es1
    /\ DestSeq test_after_many = DestSeq es2
    /\ (es1 <> [] -> length es2 = length es1)
    /\ (forall i : nat,
           attr (nth i es2 []) (bind_attr test_one)
           = attr (nth i es1 []) (bind_attr test_one))
    /\ (forall (i : nat) (other : string),
           other <> bind_attr test_many ->
           attr (nth i es2 []) other = attr (nth i es1 []) other)
    /\ (forall (i : nat) (c : Correlation),
           parent_attr c <> bind_attr test_many ->
           key_of c (nth i es2 []) = key_of c (nth i es1 []))
    /\ (forall i : nat,
           i < length (@nil Element) ->
           attr (nth i es2 []) (bind_attr test_one)
           = bind_value "id" (cardinality test_one)
               (related (Go.elems test_r1) (correlation_of "id" test_one)
                        (nth i [] []))
               (attr (nth i [] []) (bind_attr test_one)))
    /\ (@nil Element = [] -> correlation test_one = None ->
        es1 = map (fun row =>
                     [(bind_attr test_one,
                       bind_value "id" (cardinality test_one) [row]
                                  AttrZero)])
                  (Go.elems test_r1))
    /\ (forall i : nat,
           i < length es1 ->
           attr (nth i es2 []) (bind_attr test_many)
           = bind_value "id" (cardinality test_many)
               (related (Go.elems test_r2) (correlation_of "id" test_many)
                        (nth i es1 []))
               (attr (nth i es1 []) (bind_attr test_many))).
Proof.
  apply (ScanList_keeps_earlier_attributes
           "id" test_r1 test_r2 [] test_one test_many).
  - discriminate.
  - reflexivity.
  - reflexivity.
Defined.

(* ===================================================================== *)
(** * More of the code                                                    *)
(* ===================================================================== *)

(** ** Package gdb: the other context helpers of gdb_core_ctx.go          *)

Module gdbctx.

(** ignoreResultKeyInCtx gctx.StrKey = "IgnoreResult" *)
Definition ignoreResultKeyInCtx : string := "IgnoreResult".

(** ctx.Value(key) != nil *)
Definition notNil (v : gdb.CtxValue) : bool :=
  match v with
  | gdb.CtxNil => false
  | _ => true
  end.

(** InjectIgnoreResult: the mark is the value [true], a value of another
    type than the ones the drivers read. *)
Definition InjectIgnoreResult (ctx : gdb.Context) : gdb.Context :=
  if notNil (gdb.Value ctx ignoreResultKeyInCtx) then ctx
  else gdb.WithValue ctx ignoreResultKeyInCtx gdb.CtxOther.

Definition GetIgnoreResultFromCtx (ctx : gdb.Context) : bool :=
  notNil (gdb.Value ctx ignoreResultKeyInCtx).

(** A [*ConfigNode]: nil, or the address of a configuration node. *)
Definition NodePtr : Type := option nat.

(** The values the internal helpers store: a value of the kinds above, a
    pointer to an internalCtxData, or a pointer to an
    internalColumnData. *)
Inductive Stored : Type :=
| Std (v : gdb.CtxValue)
| CtxDataPtr (loc : nat)
| ColumnDataPtr (loc : nat).

(** A context whose frames may hold those pointers. *)
Definition Context : Type := list (string * Stored).

Definition WithValue (ctx : Context) (key : string) (v : Stored) : Context :=
  (key, v) :: ctx.

Fixpoint Value (ctx : Context) (key : string) : Stored :=
  match ctx with
  | [] => Std gdb.CtxNil
  | (k, v) :: parent => if String.eqb k key then v else Value parent key
  end.

(** The structs behind the pointers: cell [loc] of [ctxData] is the field
    ConfigNode of an internalCtxData, cell [loc] of [columnData] the field
    FirstResultColumn of an internalColumnData. *)
Record Heap : Type :=
  { ctxData : list NodePtr;
    columnData : list string }.

Definition internalCtxDataKeyInCtx : string := "InternalCtxData".

Definition internalColumnDataKeyInCtx : string := "InternalColumnData".

Fixpoint store {A : Type} (l : list A) (loc : nat) (a : A) : list A :=
  match l, loc with
  | [], _ => []
  | _ :: r, 0 => a :: r
  | x :: r, S loc' => x :: store r loc' a
  end.

Definition isNil (v : Stored) : bool :=
  match v with
  | Std gdb.CtxNil => true
  | _ => false
  end.

(** What a helper that writes or fails returns: nil, an error, or the
    panic of a type assertion without the ok form. *)
Inductive Outcome (A : Type) : Type :=
| Done (a : A)
| Failed (e : gdb.Error)
| Panic.

Arguments Done {A} a.
Arguments Failed {A} e.
Arguments Panic {A}.

Definition noInternalData : gdb.Error :=
  gdb.NewCode gdb.CodeInternalError "no internal data found in context".

Section Core.

(** c.config *)
Variable config : NodePtr.

(** injectInternalCtxData: if the internal data is already injected, it
    does nothing. *)
Definition injectInternalCtxData (ctx : Context) (h : Heap)
  : Context * Heap :=
  if negb (isNil (Value ctx internalCtxDataKeyInCtx)) then (ctx, h)
  else
    (WithValue ctx internalCtxDataKeyInCtx (CtxDataPtr (length (ctxData h))),
     {| ctxData := ctxData h ++ [config]; columnData := columnData h |}).

Definition setConfigNodeToCtx (ctx : Context) (node : NodePtr) (h : Heap)
  : Outcome Heap :=
  match Value ctx internalCtxDataKeyInCtx with
  | Std gdb.CtxNil => Failed noInternalData
  | CtxDataPtr loc =>
      Done {| ctxData := store (ctxData h) loc node;
              columnData := columnData h |}
  | _ => Panic
  end.

Definition getConfigNodeFromCtx (ctx : Context) (h : Heap)
  : Outcome NodePtr :=
  match Value ctx internalCtxDataKeyInCtx with
  | Std gdb.CtxNil => Done None
  | CtxDataPtr loc => Done (nth loc (ctxData h) None)
  | _ => Panic
  end.

(** injectInternalColumn: a new internalColumnData at every call. *)
Definition injectInternalColumn (ctx : Context) (h : Heap) : Context * Heap :=
  (WithValue ctx internalColumnDataKeyInCtx
             (ColumnDataPtr (length (columnData h))),
   {| ctxData := ctxData h;
      columnData := columnData h ++ [EmptyString] |}).

(** getInternalColumnFromCtx: the pointer, nil as [None]. *)
Definition getInternalColumnFromCtx (ctx : Context) : Outcome (option nat) :=
  match Value ctx internalColumnDataKeyInCtx with
  | Std gdb.CtxNil => Done None
  | ColumnDataPtr loc => Done (Some loc)
  | _ => Panic
  end.

End Core.

(** The pointers of a context point into the heap. *)
Definition wf (ctx : Context) (h : Heap) : Prop :=
  Forall (fun frame =>
            match snd frame with
            | CtxDataPtr loc => loc < length (ctxData h)
            | ColumnDataPtr loc => loc < length (columnData h)
            | Std _ => True
            end) ctx.

End gdbctx.

(** ** Properties of the context helpers *)

(** The last non-empty list among successive injections. *)
Definition last_nonempty (injected : list (option (list string)))
  : option (option (list string)) :=
  find (fun fields => negb (Nat.eqb (Go.len fields) 0)) (rev injected).

(** X1. After any sequence of InjectReturning calls, GetReturningFromCtx
    returns the last non-empty list injected, and what the context held
    before when every injected list was empty: an empty list never clears
    an earlier request. *)
Theorem InjectReturning_last_nonempty_wins :
  forall (ctx : gdb.Context) (injected : list (option (list string))),
    gdb.GetReturningFromCtx (fold_left gdb.InjectReturning injected ctx)
    = match last_nonempty injected with
      | Some fields => fields
      | None => gdb.GetReturningFromCtx ctx
      end.
Proof.
  intros ctx injected. unfold last_nonempty.
  induction injected as [| fields injected IH] using rev_ind; [reflexivity |].
  rewrite fold_left_app, rev_app_distr. simpl.
  unfold gdb.InjectReturning at 1.
  destruct (Nat.eqb (Go.len fields) 0); simpl; [exact IH |].
  unfold gdb.GetReturningFromCtx. now rewrite Value_WithValue_same.
Qed.

Lemma notNil_Value_InjectIgnoreResult (ctx : gdb.Context) :
  gdbctx.notNil
    (gdb.Value (gdbctx.InjectIgnoreResult ctx) gdbctx.ignoreResultKeyInCtx)
  = true.
Proof.
  unfold gdbctx.InjectIgnoreResult.
  destruct (gdbctx.notNil (gdb.Value ctx gdbctx.ignoreResultKeyInCtx)) eqn:E;
    [exact E |].
  now rewrite Value_WithValue_same.
Qed.

(** X2. The ignore-result mark. After InjectIgnoreResult the mark is read
    as set; injecting it a second time returns the context as it is; the
    mark and the RETURNING fields do not disturb each other. *)
Theorem InjectIgnoreResult_mark :
  forall ctx : gdb.Context,
    gdbctx.GetIgnoreResultFromCtx (gdbctx.InjectIgnoreResult ctx) = true
    /\ gdbctx.InjectIgnoreResult (gdbctx.InjectIgnoreResult ctx)
       = gdbctx.InjectIgnoreResult ctx
    /\ gdb.GetReturningFromCtx (gdbctx.InjectIgnoreResult ctx)
       = gdb.GetReturningFromCtx ctx
    /\ (forall fields : option (list string),
           gdbctx.GetIgnoreResultFromCtx (gdb.InjectReturning ctx fields)
           = gdbctx.GetIgnoreResultFromCtx ctx).
Proof.
  intros ctx. split; [| split; [| split]].
  - apply notNil_Value_InjectIgnoreResult.
  - unfold gdbctx.InjectIgnoreResult at 1.
    now rewrite notNil_Value_InjectIgnoreResult.
  - unfold gdbctx.InjectIgnoreResult, gdb.GetReturningFromCtx.
    destruct (gdbctx.notNil _); [reflexivity |].
    rewrite Value_WithValue_other; [reflexivity | discriminate].
  - intros fields. unfold gdbctx.GetIgnoreResultFromCtx.
    rewrite Value_InjectReturning_other; [reflexivity | discriminate].
Qed.

(** *** The internal data behind a pointer *)

Lemma store_length {A : Type} (l : list A) (loc : nat) (a : A) :
  length (gdbctx.store l loc a) = length l.
Proof.
  revert loc. induction l as [| x l IH]; intros [| loc]; simpl; auto.
Qed.

Lemma nth_store_same {A : Type} (l : list A) (loc : nat) (a d : A) :
  loc < length l -> nth loc (gdbctx.store l loc a) d = a.
Proof.
  revert loc. induction l as [| x l IH]; intros [| loc]; simpl; try lia.
  - reflexivity.
  - intros H. apply IH. lia.
Qed.

Lemma nth_store_other {A : Type} (l : list A) (loc loc' : nat) (a d : A) :
  loc' <> loc -> nth loc' (gdbctx.store l loc a) d = nth loc' l d.
Proof.
  revert loc loc'.
  induction l as [| x l IH]; intros [| loc] [| loc']; simpl; auto; try lia.
Qed.

Lemma gdbctx_Value_WithValue_other (ctx : gdbctx.Context) (k key : string)
      (v : gdbctx.Stored) :
  k <> key ->
  gdbctx.Value (gdbctx.WithValue ctx k v) key = gdbctx.Value ctx key.
Proof.
  intros Hne. unfold gdbctx.WithValue; simpl.
  destruct (String.eqb_spec k key); [contradiction | reflexivity].
Qed.

Lemma wf_Value (ctx : gdbctx.Context) (h : gdbctx.Heap) (key : string) :
  gdbctx.wf ctx h ->
  match gdbctx.Value ctx key with
  | gdbctx.CtxDataPtr loc => loc < length (gdbctx.ctxData h)
  | gdbctx.ColumnDataPtr loc => loc < length (gdbctx.columnData h)
  | gdbctx.Std _ => True
  end.
Proof.
  induction 1 as [| [k v] parent Hv _ IH]; simpl; [exact I |].
  destruct (String.eqb k key); [exact Hv | exact IH].
Qed.

Lemma wf_grow (ctx : gdbctx.Context) (h h' : gdbctx.Heap) :
  length (gdbctx.ctxData h) <= length (gdbctx.ctxData h') ->
  length (gdbctx.columnData h) <= length (gdbctx.columnData h') ->
  gdbctx.wf ctx h -> gdbctx.wf ctx h'.
Proof.
  intros H1 H2. unfold gdbctx.wf. apply Forall_impl.
  intros [k [v | loc | loc]]; simpl; auto; lia.
Qed.

(** X3. injectInternalCtxData injects once. On a context without
    internal data it allocates one internalCtxData holding c.config, and
    getConfigNodeFromCtx then returns c.config; on a context that already
    has a value under the key it changes nothing; so a second injection,
    with whatever configuration, changes neither the context nor the
    data. Pointers of the context stay valid. *)
Theorem injectInternalCtxData_once :
  forall (config : gdbctx.NodePtr) (ctx : gdbctx.Context) (h : gdbctx.Heap),
    gdbctx.wf ctx h ->
    let r := gdbctx.injectInternalCtxData config ctx h in
    gdbctx.wf (fst r) (snd r)
    /\ (gdbctx.isNil (gdbctx.Value ctx gdbctx.internalCtxDataKeyInCtx) = true ->
        gdbctx.getConfigNodeFromCtx (fst r) (snd r) = gdbctx.Done config)
    /\ (gdbctx.isNil (gdbctx.Value ctx gdbctx.internalCtxDataKeyInCtx) = false ->
        r = (ctx, h))
    /\ (forall config2 : gdbctx.NodePtr,
           gdbctx.injectInternalCtxData config2 (fst r) (snd r) = r).
Proof.
  intros config ctx h Hwf r. subst r.
  unfold gdbctx.injectInternalCtxData.
  destruct (gdbctx.isNil (gdbctx.Value ctx gdbctx.internalCtxDataKeyInCtx))
    eqn:Hnil; simpl.
  - split; [| split; [| split]].
    + constructor.
      * simpl. rewrite length_app. simpl. lia.
      * apply (wf_grow ctx h); simpl; auto. rewrite length_app. lia.
    + intros _. unfold gdbctx.getConfigNodeFromCtx. simpl.
      rewrite app_nth2, Nat.sub_diag by lia. reflexivity.
    + discriminate.
    + intros config2. reflexivity.
  - split; [exact Hwf |]. split; [discriminate |]. split; [reflexivity |].
    intros config2. now rewrite Hnil.
Qed.

Lemma injectInternalCtxData_once_witness :
  let h := {| gdbctx.ctxData := []; gdbctx.columnData := [] |} in
  let r := gdbctx.injectInternalCtxData (Some 5) [] h in
  gdbctx.wf (fst r) (snd r)
  /\ (gdbctx.isNil (gdbctx.Value [] gdbctx.internalCtxDataKeyInCtx) = true ->
      gdbctx.getConfigNodeFromCtx (fst r) (snd r) = gdbctx.Done (Some 5))
  /\ (gdbctx.isNil (gdbctx.Value [] gdbctx.internalCtxDataKeyInCtx) = false ->
      r = ([], h))
  /\ (forall config2 : gdbctx.NodePtr,
         gdbctx.injectInternalCtxData config2 (fst r) (snd r) = r).
Proof.
  intros h.
  apply (injectInternalCtxData_once (Some 5) [] h). constructor.
Defined.

(** X4. setConfigNodeToCtx writes through the pointer. Without internal
    data it returns the InternalError and writes nothing. With internal
    data it returns nil, and afterwards getConfigNodeFromCtx returns the
    node through the same context, through every context that carries
    the same pointer (such as one derived with WithValue under another
    key), while the data of another injection and the column data are
    as before. *)
Theorem setConfigNodeToCtx_shared :
  forall (ctx : gdbctx.Context) (node : gdbctx.NodePtr) (h : gdbctx.Heap),
    (gdbctx.isNil (gdbctx.Value ctx gdbctx.internalCtxDataKeyInCtx) = true ->
     gdbctx.setConfigNodeToCtx ctx node h
     = gdbctx.Failed gdbctx.noInternalData)
    /\ (forall loc : nat,
           gdbctx.Value ctx gdbctx.internalCtxDataKeyInCtx
           = gdbctx.CtxDataPtr loc ->
           loc < length (gdbctx.ctxData h) ->
           exists h' : gdbctx.Heap,
             gdbctx.setConfigNodeToCtx ctx node h = gdbctx.Done h'
             /\ gdbctx.getConfigNodeFromCtx ctx h' = gdbctx.Done node
             /\ (forall ctx2 : gdbctx.Context,
                    gdbctx.Value ctx2 gdbctx.internalCtxDataKeyInCtx
                    = gdbctx.CtxDataPtr loc ->
                    gdbctx.getConfigNodeFromCtx ctx2 h' = gdbctx.Done node)
             /\ (forall (k : string) (v : gdbctx.Stored),
                    k <> gdbctx.internalCtxDataKeyInCtx ->
                    gdbctx.getConfigNodeFromCtx (gdbctx.WithValue ctx k v) h'
                    = gdbctx.Done node)
             /\ (forall (ctx3 : gdbctx.Context) (loc3 : nat),
                    gdbctx.Value ctx3 gdbctx.internalCtxDataKeyInCtx
                    = gdbctx.CtxDataPtr loc3 ->
                    loc3 <> loc ->
                    gdbctx.getConfigNodeFromCtx ctx3 h'
                    = gdbctx.getConfigNodeFromCtx ctx3 h)
             /\ gdbctx.columnData h' = gdbctx.columnData h
             /\ length (gdbctx.ctxData h') = length (gdbctx.ctxData h)).
Proof.
  intros ctx node h. split.
  - unfold gdbctx.setConfigNodeToCtx, gdbctx.isNil.
    destruct (gdbctx.Value ctx gdbctx.internalCtxDataKeyInCtx)
      as [[| | |] | |]; (reflexivity || discriminate).
  - intros loc Hv Hloc. unfold gdbctx.setConfigNodeToCtx. rewrite Hv.
    eexists. split; [reflexivity |].
    assert (Hget : forall ctx2,
               gdbctx.Value ctx2 gdbctx.internalCtxDataKeyInCtx
               = gdbctx.CtxDataPtr loc ->
               gdbctx.getConfigNodeFromCtx ctx2
                 {| gdbctx.ctxData := gdbctx.store (gdbctx.ctxData h) loc node;
                    gdbctx.columnData := gdbctx.columnData h |}
               = gdbctx.Done node).
    { intros ctx2 H2. unfold gdbctx.getConfigNodeFromCtx. rewrite H2. simpl.
      now rewrite nth_store_same. }
    split; [now apply Hget |]. split; [exact Hget |].
    split; [| split; [| split]].
    + intros k v Hk. apply Hget.
      now rewrite gdbctx_Value_WithValue_other.
    + intros ctx3 loc3 H3 Hne. unfold gdbctx.getConfigNodeFromCtx.
      rewrite H3. simpl. now rewrite nth_store_other.
    + reflexivity.
    + simpl. apply store_length.
Qed.

Lemma setConfigNodeToCtx_shared_witness :
  let h := {| gdbctx.ctxData := [Some 1]; gdbctx.columnData := [] |} in
  let ctx := [(gdbctx.internalCtxDataKeyInCtx, gdbctx.CtxDataPtr 0)] in
  exists h' : gdbctx.Heap,
    gdbctx.setConfigNodeToCtx ctx (Some 2) h = gdbctx.Done h'
    /\ gdbctx.getConfigNodeFromCtx ctx h' = gdbctx.Done (Some 2).
Proof.
  intros h ctx.
  destruct (proj2 (setConfigNodeToCtx_shared ctx (Some 2) h) 0)
    as (h' & Hset & Hget & _).
  - reflexivity.
  - simpl. lia.
  - exists h'. split; assumption.
Defined.

(** X5. injectInternalColumn makes a new internalColumnData at every call:
    the pointer read back by getInternalColumnFromCtx is the new one, it
    differs from the pointer the context carried before, the new struct
    has an empty FirstResultColumn and the older ones are not changed. *)
Theorem injectInternalColumn_fresh :
  forall (ctx : gdbctx.Context) (h : gdbctx.Heap),
    gdbctx.wf ctx h ->
    let r := gdbctx.injectInternalColumn ctx h in
    let fresh := length (gdbctx.columnData h) in
    gdbctx.getInternalColumnFromCtx (fst r) = gdbctx.Done (Some fresh)
    /\ gdbctx.getInternalColumnFromCtx ctx <> gdbctx.Done (Some fresh)
    /\ nth fresh (gdbctx.columnData (snd r)) "?" = EmptyString
    /\ (forall loc : nat,
           loc < fresh ->
           nth loc (gdbctx.columnData (snd r)) "?"
           = nth loc (gdbctx.columnData h) "?")
    /\ gdbctx.ctxData (snd r) = gdbctx.ctxData h
    /\ gdbctx.wf (fst r) (snd r).
Proof.
  intros ctx h Hwf r fresh. subst r fresh. simpl.
  split; [| split; [| split; [| split; [| split]]]].
  - unfold gdbctx.getInternalColumnFromCtx. simpl. reflexivity.
  - unfold gdbctx.getInternalColumnFromCtx.
    pose proof (wf_Value ctx h gdbctx.internalColumnDataKeyInCtx Hwf) as Hv.
    destruct (gdbctx.Value ctx gdbctx.internalColumnDataKeyInCtx)
      as [[| | |] | loc | loc]; try discriminate.
    intros [= ->]. lia.
  - rewrite app_nth2, Nat.sub_diag by lia. reflexivity.
  - intros loc Hloc. now rewrite app_nth1.
  - reflexivity.
  - constructor.
    + simpl. rewrite length_app. simpl. lia.
    + apply (wf_grow ctx h); simpl; auto. rewrite length_app. lia.
Qed.

Lemma injectInternalColumn_fresh_witness :
  let h := {| gdbctx.ctxData := []; gdbctx.columnData := ["id"] |} in
  let ctx := [(gdbctx.internalColumnDataKeyInCtx, gdbctx.ColumnDataPtr 0)] in
  let r := gdbctx.injectInternalColumn ctx h in
  gdbctx.getInternalColumnFromCtx (fst r) = gdbctx.Done (Some 1)
  /\ gdbctx.getInternalColumnFromCtx ctx <> gdbctx.Done (Some 1).
Proof.
  intros h ctx r.
  destruct (injectInternalColumn_fresh ctx h) as (H1 & H2 & _).
  - repeat constructor.
  - split; assumption.
Defined.

(** ** More on the resolution of the link *)

(** A link supplied by the caller never opens a master link. When it
    is not a transaction, the transaction of the context replaces it if
    there is one; otherwise the supplied link itself is used. *)
Lemma TransactionChecks_supplied_link :
  forall (d : Driver) (ctx : gdb.Context) (l : Link),
    calls (TransactionChecks d ctx (Some l)) = []
    /\ exists resolved : Link,
        outcome (TransactionChecks d ctx (Some l)) = inr resolved
        /\ (IsTransaction l = false ->
            forall tx, TXFromCtx d ctx = Some tx -> resolved = tx)
        /\ (TXFromCtx d ctx = None -> resolved = l).
Proof.
  intros d ctx l. unfold TransactionChecks.
  destruct (IsTransaction l); simpl.
  - split; [reflexivity |]. exists l. repeat split. discriminate.
  - destruct (TXFromCtx d ctx) as [tx |]; simpl.
    + split; [reflexivity |]. exists tx. repeat split.
      * intros _ tx' [= <-]. reflexivity.
      * discriminate.
    + split; [reflexivity |]. exists l. repeat split. discriminate.
Qed.

(** X6. The resolution is idempotent. When the transactions found in the
    context are transaction links, running the block again on the link it
    resolved returns that same link and calls nothing: the default DoExec
    that receives the resolved link resolves it to itself. *)
Theorem TransactionChecks_idempotent :
  forall (d : Driver) (ctx : gdb.Context) (link : option Link)
         (resolved : Link),
    (forall tx, TXFromCtx d ctx = Some tx -> IsTransaction tx = true) ->
    outcome (TransactionChecks d ctx link) = inr resolved ->
    TransactionChecks d ctx (Some resolved) = ret resolved.
Proof.
  intros d ctx link resolved Htx. unfold TransactionChecks.
  destruct link as [l |].
  - destruct (IsTransaction l) eqn:Hl; simpl.
    + intros [= <-]. now rewrite Hl.
    + destruct (TXFromCtx d ctx) as [tx |] eqn:Hc; simpl; intros [= <-].
      * now rewrite (Htx _ eq_refl).
      * now rewrite Hl.
  - destruct (TXFromCtx d ctx) as [tx |] eqn:Hc; simpl.
    + intros [= <-]. now rewrite (Htx _ eq_refl).
    + intros Hm. destruct (IsTransaction resolved); reflexivity.
Qed.

Lemma TransactionChecks_idempotent_witness :
  TransactionChecks (sample_driver (Some sample_tx) None []) []
                    (Some sample_tx)
  = ret sample_tx.
Proof.
  apply (TransactionChecks_idempotent
           (sample_driver (Some sample_tx) None []) [] (Some sample_link)).
  - intros tx [= <-]. reflexivity.
  - reflexivity.
Defined.

(** ** More on pgsql's DoExec *)

Lemma nth_pred_length_last {A : Type} (l : list A) (d : A) :
  nth (length l - 1) l d = last l d.
Proof.
  induction l as [| x l IH]; [reflexivity |].
  destruct l as [| y l]; [reflexivity |].
  replace (length (x :: y :: l) - 1) with (S (length (y :: l) - 1))
    by (simpl; lia).
  exact IH.
Qed.

(** X7. Explicit RETURNING fields in pgsql's DoExec, whatever primary-key
    field the context carries. A successful call has filtered the
    statement with the clause of those fields appended, committed it
    once, as a query, through the resolved link, and returns a Result
    whose records are the rows of that query, whose affected count is
    their number and whose lastInsertIdError is the NotSupported
    error. *)
Theorem pgsql_DoExec_user_returning :
  forall (pk : string) (d : Driver) (ctx : gdb.Context) (link : option Link)
         (sql : string) (args : Args) (res : sql.Result),
    Go.len (gdb.GetReturningFromCtx ctx) <> 0 ->
    outcome (pgsql.DoExec pk d ctx link sql args) = inr res ->
    exists (l : Link) (sql2 : string) (args2 : Args) (out : DoCommitOutput),
      let fmt :=
        FormatSqlBeforeExecuting d
          (sql ++ " "
               ++ pgsql.buildReturningClause
                    (Go.elems (gdb.GetReturningFromCtx ctx)))%string
          args in
      let input :=
        {| in_Link := l; in_Sql := sql2; in_Args := args2;
           in_Type := SqlTypeQueryContext;
           in_IsTransaction := IsTransaction l |} in
      outcome (TransactionChecks d ctx link) = inr l
      /\ DoFilter d ctx l (fst fmt) (snd fmt) = inr (sql2, args2)
      /\ DoCommit d ctx input = inr out
      /\ calls (pgsql.DoExec pk d ctx link sql args)
         = calls (TransactionChecks d ctx link)
             ++ [CallDoFilter l (fst fmt) (snd fmt); CallDoCommit input]
      /\ res = sql.Pgsql
                 {| sql.affected := Z.of_nat (Go.len (out_Records out));
                    sql.lastInsertId := 0;
                    sql.lastInsertIdError := Some pgsql.notSupportedCustom;
                    sql.pg_records := out_Records out |}.
Proof.
  intros pk d ctx link sql args res Hlen Hres.
  destruct (returningMode_user pk ctx sql Hlen) as (Hcore & Huser & Hsql).
  destruct (pgsql_DoExec_query_path pk d ctx link sql args res Hcore Hres)
    as (l & sql2 & args2 & out & Htc & Hf & Hc & -> & Hcalls).
  rewrite Hsql in Hf, Hcalls.
  exists l, sql2, args2, out. cbv zeta.
  repeat split; try assumption.
  unfold pgsql.resultOf. now rewrite Huser.
Qed.

Lemma pgsql_DoExec_user_returning_witness :
  let rows := Some [[("id", gdb.VarInt 7)]; [("id", gdb.VarInt 8)]] in
  let d := sample_driver None rows [] in
  let ctx :=
    gdb.InjectReturning
      [("primary_key", gdb.CtxTableField (sample_id_field "int8"))]
      (Some ["id"]) in
  exists (l : Link) (sql2 : string) (args2 : Args) (out : DoCommitOutput),
    outcome (TransactionChecks d ctx None) = inr l
    /\ sql2 = (String.append "INSERT INTO user(name) VALUES(?),(?) RETURNING "
                 (Go.dquote ++ "id" ++ Go.dquote))%string
    /\ sql.Pgsql {| sql.affected := 2; sql.lastInsertId := 0;
                    sql.lastInsertIdError := Some pgsql.notSupportedCustom;
                    sql.pg_records := rows |}
       = sql.Pgsql
           {| sql.affected := Z.of_nat (Go.len (out_Records out));
              sql.lastInsertId := 0;
              sql.lastInsertIdError := Some pgsql.notSupportedCustom;
              sql.pg_records := out_Records out |}.
Proof.
  intros rows d ctx.
  destruct (pgsql_DoExec_user_returning
              "primary_key" d ctx None "INSERT INTO user(name) VALUES(?),(?)"
              [gdb.VarStr "john"; gdb.VarStr "ann"]
              (sql.Pgsql {| sql.affected := 2; sql.lastInsertId := 0;
                            sql.lastInsertIdError :=
                              Some pgsql.notSupportedCustom;
                            sql.pg_records := rows |}))
    as (l & sql2 & args2 & out & Htc & Hf & _ & _ & Hres).
  - simpl. discriminate.
  - reflexivity.
  - exists l, sql2, args2, out. repeat split; try assumption.
    simpl in Hf. now injection Hf as <- _.
Defined.

(** The Result of the automatic fallback on a primary key whose type
    contains "int", by the rows of the query. *)
Lemma resultOf_auto_int (d : Driver) (v : pgsql.Locals)
      (out : DoCommitOutput) :
  pgsql.isUserReturning v = false ->
  Go.Contains (gdb.Type_ (pgsql.pkField v)) "int" = true ->
  pgsql.resultOf d v out
  = match Go.elems (out_Records out) with
    | [] => sql.PgsqlZero
    | rows =>
        match gdb.record_get (last rows []) (pgsql.primaryKey v) with
        | Some value =>
            {| sql.affected := Z.of_nat (length rows);
               sql.lastInsertId := VarInt64 d value;
               sql.lastInsertIdError := None;
               sql.pg_records := None |}
        | None => sql.PgsqlZero
        end
    end.
Proof.
  intros Huser Hint. unfold pgsql.resultOf. rewrite Huser, Hint. simpl.
  destruct (out_Records out) as [[| row rows] |]; try reflexivity.
  cbn [Go.len Go.elems].
  rewrite nth_pred_length_last. reflexivity.
Qed.

(** X8. The automatic fallback on an integer primary key. When the
    fallback is applied, the type of the primary-key field contains "int"
    and the query returned rows whose last one has a value in the
    primary-key column, the Result has the number of returned rows as
    affected count, the Int64 of that value of the last row as
    lastInsertId, no lastInsertIdError and no records. *)
Theorem auto_returning_integer_key :
  forall (pk : string) (d : Driver) (ctx : gdb.Context) (link : option Link)
         (sql : string) (args : Args) (f : gdb.TableField)
         (res : sql.Result),
    auto_returning pk ctx sql = true ->
    gdb.Value ctx pk = gdb.CtxTableField f ->
    Go.Contains (gdb.Type_ f) "int" = true ->
    outcome (pgsql.DoExec pk d ctx link sql args) = inr res ->
    exists (input : DoCommitInput) (out : DoCommitOutput),
      DoCommit d ctx input = inr out
      /\ in_Type input = SqlTypeQueryContext
      /\ forall (rows : list gdb.Record) (value : gdb.Var),
          Go.elems (out_Records out) = rows ->
          rows <> [] ->
          gdb.record_get (last rows []) (gdb.Name f) = Some value ->
          res = sql.Pgsql
                  {| sql.affected := Z.of_nat (length rows);
                     sql.lastInsertId := VarInt64 d value;
                     sql.lastInsertIdError := None;
                     sql.pg_records := None |}.
Proof.
  intros pk d ctx link sql args f res Hauto Hv Hint Hres.
  destruct (returningMode_auto pk ctx sql f Hauto Hv)
    as (Hcore & Huser & Hpk & Hname).
  destruct (pgsql_DoExec_query_path pk d ctx link sql args res Hcore Hres)
    as (l & sql2 & args2 & out & _ & _ & Hc & -> & _).
  eexists. exists out. split; [exact Hc |]. split; [reflexivity |].
  intros rows value Hrows Hne Hget.
  rewrite resultOf_auto_int by (rewrite ?Hpk; assumption).
  rewrite Hrows, Hname.
  destruct rows as [| row rows]; [contradiction |].
  cbv beta iota zeta. now rewrite Hget.
Qed.

Lemma auto_returning_integer_key_witness :
  let rows := [[("id", gdb.VarInt 7)]; [("id", gdb.VarInt 8)]] in
  let d := sample_driver None (Some rows) [] in
  let ctx := [("primary_key", gdb.CtxTableField (sample_id_field "int8"))] in
  exists (input : DoCommitInput) (out : DoCommitOutput),
    DoCommit d ctx input = inr out
    /\ in_Type input = SqlTypeQueryContext
    /\ sql.Pgsql {| sql.affected := 2; sql.lastInsertId := 8;
                    sql.lastInsertIdError := None; sql.pg_records := None |}
       = sql.Pgsql
           {| sql.affected := Z.of_nat (length rows);
              sql.lastInsertId := VarInt64 d (gdb.VarInt 8);
              sql.lastInsertIdError := None;
              sql.pg_records := None |}.
Proof.
  intros rows d ctx.
  destruct (auto_returning_integer_key
              "primary_key" d ctx None "INSERT INTO user(name) VALUES(?),(?)"
              [gdb.VarStr "john"; gdb.VarStr "ann"]
              (sample_id_field "int8")
              (sql.Pgsql {| sql.affected := 2; sql.lastInsertId := 8;
                            sql.lastInsertIdError := None;
                            sql.pg_records := None |})
              eq_refl eq_refl eq_refl eq_refl)
    as (input & out & Hc & Hty & Hres).
  exists input, out. split; [exact Hc |]. split; [exact Hty |].
  apply (Hres rows (gdb.VarInt 8)).
  - simpl in Hc. now injection Hc as <-.
  - discriminate.
  - reflexivity.
Defined.

(** X9. The fallback loses the count when the key is missing. When the
    fallback is applied on an integer primary key and the last returned
    row has no value in the primary-key column, or no row is returned,
    DoExec returns the zero Result without error: affected 0 and
    lastInsertId 0, however many rows the query returned. *)
Theorem auto_returning_key_missing_in_last_row :
  forall (pk : string) (d : Driver) (ctx : gdb.Context) (link : option Link)
         (sql : string) (args : Args) (f : gdb.TableField)
         (res : sql.Result),
    auto_returning pk ctx sql = true ->
    gdb.Value ctx pk = gdb.CtxTableField f ->
    Go.Contains (gdb.Type_ f) "int" = true ->
    outcome (pgsql.DoExec pk d ctx link sql args) = inr res ->
    exists (input : DoCommitInput) (out : DoCommitOutput),
      DoCommit d ctx input = inr out
      /\ (gdb.record_get (last (Go.elems (out_Records out)) []) (gdb.Name f)
          = None ->
          res = sql.Pgsql sql.PgsqlZero).
Proof.
  intros pk d ctx link sql args f res Hauto Hv Hint Hres.
  destruct (returningMode_auto pk ctx sql f Hauto Hv)
    as (Hcore & Huser & Hpk & Hname).
  destruct (pgsql_DoExec_query_path pk d ctx link sql args res Hcore Hres)
    as (l & sql2 & args2 & out & _ & _ & Hc & -> & _).
  eexists. exists out. split; [exact Hc |].
  intros Hget.
  rewrite resultOf_auto_int by (rewrite ?Hpk; assumption).
  rewrite Hname.
  destruct (Go.elems (out_Records out)) as [| row rows]; [reflexivity |].
  cbv beta iota zeta. now rewrite Hget.
Qed.

Lemma auto_returning_key_missing_in_last_row_witness :
  let rows := [[("id", gdb.VarInt 7)]; [("ID", gdb.VarInt 8)]] in
  let d := sample_driver None (Some rows) [] in
  let ctx := [("primary_key", gdb.CtxTableField (sample_id_field "int8"))] in
  outcome (pgsql.DoExec "primary_key" d ctx None
                        "INSERT INTO user(name) VALUES(?),(?)"
                        [gdb.VarStr "john"; gdb.VarStr "ann"])
  = inr (sql.Pgsql sql.PgsqlZero).
Proof.
  intros rows d ctx.
  destruct (auto_returning_key_missing_in_last_row
              "primary_key" d ctx None "INSERT INTO user(name) VALUES(?),(?)"
              [gdb.VarStr "john"; gdb.VarStr "ann"]
              (sample_id_field "int8") (sql.Pgsql sql.PgsqlZero)
              eq_refl eq_refl eq_refl eq_refl)
    as (input & out & Hc & Hres).
  reflexivity.
Defined.

(** The statement that pgsql's DoExec goes on with is the caller's
    statement with at most a clause appended. *)
Lemma returningMode_appends (pk : string) (ctx : gdb.Context) (sql : string) :
  exists suffix : string,
    pgsql.l_sql (pgsql.returningMode pk ctx sql) = (sql ++ suffix)%string
    /\ (pgsql.isUseCoreDoExec (pgsql.returningMode pk ctx sql) = true ->
        suffix = EmptyString).
Proof.
  assert (Hnil : forall s : string, s = (s ++ EmptyString)%string).
  { induction s as [| c s IH]; simpl; [reflexivity | now rewrite <- IH]. }
  unfold pgsql.returningMode.
  destruct (Nat.ltb 0 (Go.len (gdb.GetReturningFromCtx ctx))).
  - eexists. split; [reflexivity | discriminate].
  - destruct (gdb.Value ctx pk) as [| fs | f |];
      try (exists EmptyString; split; [apply Hnil | reflexivity]).
    destruct (negb (String.eqb (gdb.Name f) EmptyString)
              && Go.Contains sql "INSERT INTO").
    + eexists. split; [reflexivity | discriminate].
    + exists EmptyString. split; [apply Hnil | reflexivity].
Qed.

(** X10. The calls of one DoExec of pgsql. The statement DoExec goes on
    with is the caller's statement with at most a clause appended. When
    the resolution of the link fails, DoExec makes no further call and
    returns that error. When it gives a link, DoExec makes, after the
    calls of the resolution, either the one call of the default DoExec,
    with the caller's statement unchanged and that link; or the one call
    of the filter with that link and the formatted statement, which ends
    the run with the error of the filter, or is followed by exactly one
    commit: of the filtered statement, through that link, as a query.
    Never both the default DoExec and a commit. *)
Theorem pgsql_DoExec_calls :
  forall (pk : string) (d : Driver) (ctx : gdb.Context) (link : option Link)
         (sql : string) (args : Args),
    let v := pgsql.returningMode pk ctx sql in
    let fmt := FormatSqlBeforeExecuting d (pgsql.l_sql v) args in
    let run := pgsql.DoExec pk d ctx link sql args in
    (exists suffix : string,
        pgsql.l_sql v = (sql ++ suffix)%string
        /\ (pgsql.isUseCoreDoExec v = true -> suffix = EmptyString))
    /\ match outcome (TransactionChecks d ctx link) with
       | inl e =>
           calls run = calls (TransactionChecks d ctx link)
           /\ outcome run = inl e
       | inr l =>
           if pgsql.isUseCoreDoExec v then
             calls run
             = calls (TransactionChecks d ctx link)
                 ++ [CallCoreDoExec (Some l) sql args]
             /\ outcome run = CoreDoExec d ctx (Some l) sql args
           else
             match DoFilter d ctx l (fst fmt) (snd fmt) with
             | inl e =>
                 calls run
                 = calls (TransactionChecks d ctx link)
                     ++ [CallDoFilter l (fst fmt) (snd fmt)]
                 /\ outcome run = inl e
             | inr (sql2, args2) =>
                 let input :=
                   {| in_Link := l; in_Sql := sql2; in_Args := args2;
                      in_Type := SqlTypeQueryContext;
                      in_IsTransaction := IsTransaction l |} in
                 calls run
                 = calls (TransactionChecks d ctx link)
                     ++ [CallDoFilter l (fst fmt) (snd fmt);
                         CallDoCommit input]
                 /\ outcome run
                    = match DoCommit d ctx input with
                      | inl e => inl e
                      | inr out => inr (sql.Pgsql (pgsql.resultOf d v out))
                      end
             end
       end.
Proof.
  intros pk d ctx link sql args v fmt run.
  split; [apply returningMode_appends |].
  destruct (outcome (TransactionChecks d ctx link)) as [e | l] eqn:Hl.
  - now apply pgsql_DoExec_unresolved.
  - destruct (pgsql.isUseCoreDoExec v) eqn:Hcore.
    + destruct (pgsql_DoExec_default_run pk d ctx link sql args l Hcore Hl)
        as [Hcalls Hout].
      destruct (returningMode_appends pk ctx sql) as (suffix & Hsql & Hnil).
      fold v in Hsql, Hnil. rewrite (Hnil Hcore) in Hsql.
      assert (Hsame : pgsql.l_sql (pgsql.returningMode pk ctx sql) = sql).
      { fold v. rewrite Hsql. clear.
        induction sql as [| c s IH]; simpl; [reflexivity | now rewrite IH]. }
      rewrite Hsame in Hcalls, Hout. split; assumption.
    + exact (pgsql_DoExec_returning_run pk d ctx link sql args l Hcore Hl).
Qed.

(** ** More on pgsql's DoInsert *)

(** Replace is refused before anything is called: with the Replace
    option pgsql's DoInsert returns the NotSupported error and makes no
    call at all, neither the lookup of the table fields nor the insert,
    whatever RETURNING fields are requested. *)
Lemma pgsql_DoInsert_replace_refused :
  forall (pk : string) (d : Driver) (ctx : gdb.Context) (link : option Link)
         (table : string) (rows : DataList)
         (returning : option (list string)),
    let opt := {| opt_InsertOption := InsertOptionReplace;
                  opt_Returning := returning |} in
    pgsql.DoInsert pk d ctx link table rows opt
    = ([], inl pgsql.notSupportedReplace)
    /\ gdb.err_code pgsql.notSupportedReplace = gdb.CodeNotSupported.
Proof.
  intros. split; reflexivity.
Qed.

(** X11. An insert with explicit RETURNING fields. pgsql's DoInsert does
    not look up the table fields; the context it hands to the default
    DoInsert yields exactly those fields; and on that context pgsql's
    DoExec takes the user's mode for any statement: the clause built
    from those fields is appended, also when the context already carried
    a primary-key field. *)
Theorem pgsql_DoInsert_explicit_returning :
  forall (pk : string) (d : Driver) (ctx : gdb.Context) (link : option Link)
         (table : string) (rows : DataList) (opt : DoInsertOption)
         (f : string) (fields : list string),
    opt_InsertOption opt <> InsertOptionReplace ->
    opt_Returning opt = Some (f :: fields) ->
    let ctx2 := gdb.InjectReturning ctx (Some (f :: fields)) in
    pgsql.DoInsert pk d ctx link table rows opt
    = call (CallCoreDoInsert ctx2 link)
           (CoreDoInsert d ctx2 link table rows opt)
    /\ gdb.GetReturningFromCtx ctx2 = Some (f :: fields)
    /\ forall sql : string,
        let v := pgsql.returningMode pk ctx2 sql in
        pgsql.isUserReturning v = true
        /\ pgsql.isUseCoreDoExec v = false
        /\ pgsql.l_sql v
           = (sql ++ " " ++ pgsql.buildReturningClause (f :: fields))%string.
Proof.
  intros pk d ctx link table rows opt f fields Hopt Hret ctx2.
  assert (Hget : gdb.GetReturningFromCtx ctx2 = Some (f :: fields)).
  { unfold ctx2, gdb.InjectReturning, gdb.GetReturningFromCtx. simpl.
    reflexivity. }
  split; [| split; [exact Hget |]].
  - unfold pgsql.DoInsert. rewrite Hret.
    destruct (opt_InsertOption opt); try contradiction; reflexivity.
  - intros sql v.
    destruct (returningMode_user pk ctx2 sql) as (Hcore & Huser & Hsql).
    + rewrite Hget. simpl. discriminate.
    + rewrite Hget in Hsql. auto.
Qed.

Lemma pgsql_DoInsert_explicit_returning_witness :
  let d := sample_driver None None [sample_id_field "int8"] in
  let opt := {| opt_InsertOption := InsertOptionSave;
                opt_Returning := Some ["id"; "name"] |} in
  let ctx2 := gdb.InjectReturning [] (Some ["id"; "name"]) in
  pgsql.DoInsert "primary_key" d [] None "user" [] opt
  = call (CallCoreDoInsert ctx2 None) (CoreDoInsert d ctx2 None "user" [] opt).
Proof.
  intros d opt ctx2.
  apply (pgsql_DoInsert_explicit_returning
           "primary_key" d [] None "user" [] opt "id" ["name"]).
  - discriminate.
  - reflexivity.
Defined.

(** X12. pgsql's DoInsert adds nothing of its own to the outcome. For
    every option but Replace its outcome is the outcome of the default
    DoInsert, which is its last call; the table fields are looked up
    exactly when the option is the default one and no RETURNING fields
    are requested; and when that lookup fails, or the option is another
    one, without RETURNING fields the context is handed over as it
    is. *)
Theorem pgsql_DoInsert_delegates :
  forall (pk : string) (d : Driver) (ctx : gdb.Context) (link : option Link)
         (table : string) (rows : DataList) (opt : DoInsertOption),
    opt_InsertOption opt <> InsertOptionReplace ->
    exists ctx2 : gdb.Context,
      outcome (pgsql.DoInsert pk d ctx link table rows opt)
      = CoreDoInsert d ctx2 link table rows opt
      /\ (calls (pgsql.DoInsert pk d ctx link table rows opt)
          = if (match opt_InsertOption opt with
                | InsertOptionDefault => true
                | _ => false
                end) && Nat.eqb (Go.len (opt_Returning opt)) 0
            then [CallTableFields table; CallCoreDoInsert ctx2 link]
            else [CallCoreDoInsert ctx2 link])
      /\ (Go.len (opt_Returning opt) = 0 ->
          opt_InsertOption opt <> InsertOptionDefault
          \/ (exists e, TableFields d ctx table = inl e) ->
          ctx2 = ctx).
Proof.
  intros pk d ctx link table rows opt Hopt. unfold pgsql.DoInsert.
  destruct (opt_InsertOption opt) eqn:Ho; try contradiction.
  - destruct (Nat.eqb_spec (Go.len (opt_Returning opt)) 0) as [Hlen | Hlen].
    + rewrite Hlen. cbn [Nat.ltb Nat.leb andb Nat.eqb].
      unfold call.
      destruct (TableFields d ctx table) as [e | tfs] eqn:Htf.
      * exists ctx. simpl. repeat split.
      * destruct (pgsql.firstPri tfs) as [f0 |]; simpl.
        -- eexists. split; [reflexivity |]. split; [reflexivity |].
           intros _ [H | (e & He)]; [contradiction | discriminate].
        -- exists ctx. repeat split.
    + destruct (Nat.ltb_spec 0 (Go.len (opt_Returning opt))); [| lia].
      eexists. split; [reflexivity |]. split; [reflexivity |].
      intros H0. contradiction.
  - destruct (Nat.ltb 0 (Go.len (opt_Returning opt))) eqn:Hl; simpl.
    + eexists. split; [reflexivity |]. split; [reflexivity |].
      intros H0. apply Nat.ltb_lt in Hl. lia.
    + exists ctx. repeat split.
  - destruct (Nat.ltb 0 (Go.len (opt_Returning opt))) eqn:Hl; simpl.
    + eexists. split; [reflexivity |]. split; [reflexivity |].
      intros H0. apply Nat.ltb_lt in Hl. lia.
    + exists ctx. repeat split.
  - destruct (Nat.ltb 0 (Go.len (opt_Returning opt))) eqn:Hl; simpl.
    + eexists. split; [reflexivity |]. split; [reflexivity |].
      intros H0. apply Nat.ltb_lt in Hl. lia.
    + exists ctx. repeat split.
Qed.

Lemma pgsql_DoInsert_delegates_witness :
  let d := sample_driver None None [sample_id_field "int8"] in
  exists ctx2 : gdb.Context,
    outcome (pgsql.DoInsert "primary_key" d [] None "user" []
                            sample_default_insert)
    = CoreDoInsert d ctx2 None "user" [] sample_default_insert.
Proof.
  intros d.
  destruct (pgsql_DoInsert_delegates "primary_key" d [] None "user" []
                                     sample_default_insert)
    as (ctx2 & Hout & _).
  - discriminate.
  - exists ctx2. exact Hout.
Defined.

(** ** More on sqlite's DoExec and DoInsert *)

(** X13. The two later revisions of sqlite's DoExec agree on the
    statement. Without RETURNING fields in the context both are the
    default DoExec on the caller's statement and link, with no other
    call; with fields, the revision that stays on the default path sends
    the statement with the clause appended, and the revision that
    queries resolves the link first and hands that same statement to the
    filter. *)
Theorem sqlite_DoExec_revisions_agree :
  forall (d : Driver) (ctx : gdb.Context) (link : option Link)
         (sql : string) (args : Args),
    (Go.len (gdb.GetReturningFromCtx ctx) = 0 ->
     sqlite.DoExec_query d ctx link sql args
     = call (CallCoreDoExec link sql args) (CoreDoExec d ctx link sql args)
     /\ sqlite.DoExec_default d ctx link sql args
        = sqlite.DoExec_query d ctx link sql args)
    /\ (Go.len (gdb.GetReturningFromCtx ctx) <> 0 ->
        let sql1 :=
          (sql ++ " "
               ++ sqlite.buildReturningClause
                    (Go.elems (gdb.GetReturningFromCtx ctx)))%string in
        let fmt := FormatSqlBeforeExecuting d sql1 args in
        sqlite.DoExec_default d ctx link sql args
        = call (CallCoreDoExec link sql1 args)
               (CoreDoExec d ctx link sql1 args)
        /\ forall l : Link,
            outcome (TransactionChecks d ctx link) = inr l ->
            exists rest : list Call,
              calls (sqlite.DoExec_query d ctx link sql args)
              = calls (TransactionChecks d ctx link)
                  ++ CallDoFilter l (fst fmt) (snd fmt) :: rest).
Proof.
  intros d ctx link sql args. split.
  - intros Hlen. unfold sqlite.DoExec_query, sqlite.DoExec_default.
    rewrite Hlen. split; reflexivity.
  - intros Hlen sql1 fmt.
    unfold sqlite.DoExec_query, sqlite.DoExec_default.
    destruct (Nat.eqb_spec (Go.len (gdb.GetReturningFromCtx ctx)) 0)
      as [E | _]; [contradiction |].
    destruct (Nat.ltb_spec 0 (Go.len (gdb.GetReturningFromCtx ctx)));
      [| lia].
    split; [reflexivity |].
    intros l Hl. rewrite calls_bind, Hl.
    subst fmt sql1.
    destruct (FormatSqlBeforeExecuting d _ args) as [s1 a1].
    cbv beta iota. rewrite calls_bind. simpl. eexists. reflexivity.
Qed.

Lemma sqlite_DoExec_revisions_agree_witness :
  let d := sample_driver None None [] in
  sqlite.DoExec_default d [] None "DELETE FROM user" []
  = sqlite.DoExec_query d [] None "DELETE FROM user" [].
Proof.
  intros d.
  apply (proj1 (sqlite_DoExec_revisions_agree d [] None "DELETE FROM user" [])).
  reflexivity.
Defined.

(** X14. DoInsert and DoExec of sqlite meet through the context. The
    DoInsert of sqlite_do_insert.go hands to the default DoInsert the
    context with the requested fields injected; without requested fields
    the context goes through as it is, so that fields already in it stay
    in force. On the context of an insert with requested fields, the
    DoExec of the later revisions appends the clause built from exactly
    those fields; and the DoInsert of the first revision pairs in the
    same way with the DoExec of sqlite_do_exec.go through their own
    key. *)
Theorem sqlite_DoInsert_then_DoExec :
  forall (d : Driver) (ctx : gdb.Context) (link : option Link)
         (table : string) (rows : DataList) (opt : DoInsertOption),
    let ctx2 := gdb.InjectReturning ctx (opt_Returning opt) in
    sqlite.DoInsert d ctx link table rows opt
    = call (CallCoreDoInsert ctx2 link)
           (CoreDoInsert d ctx2 link table rows opt)
    /\ (Go.len (opt_Returning opt) = 0 -> ctx2 = ctx)
    /\ forall (f : string) (fields : list string),
        opt_Returning opt = Some (f :: fields) ->
        let clause := sqlite.buildReturningClause (f :: fields) in
        (forall (link' : option Link) (sql : string) (args : Args),
            sqlite.DoExec_default d ctx2 link' sql args
            = call (CallCoreDoExec link' (sql ++ " " ++ clause)%string args)
                   (CoreDoExec d ctx2 link' (sql ++ " " ++ clause)%string
                               args))
        /\ Go.elems (gdb.GetReturningFromCtx ctx2) = f :: fields
        /\ exists ctx3 : gdb.Context,
            sqlite.DoInsert_ctxkey d ctx link table rows opt
            = call (CallCoreDoInsert ctx3 link)
                   (CoreDoInsert d ctx3 link table rows opt)
            /\ forall (link' : option Link) (sql : string) (args : Args),
                sqlite.DoExec d ctx3 link' sql args
                = call (CallCoreDoExec link' (sql ++ " " ++ clause)%string
                                       args)
                       (CoreDoExec d ctx3 link' (sql ++ " " ++ clause)%string
                                   args).
Proof.
  intros d ctx link table rows opt ctx2. subst ctx2.
  split; [| split].
  - unfold sqlite.DoInsert, gdb.InjectReturning.
    destruct (Nat.ltb_spec 0 (Go.len (opt_Returning opt))) as [Hpos | Hz];
      [reflexivity |].
    destruct (Nat.eqb_spec (Go.len (opt_Returning opt)) 0); [reflexivity | lia].
  - intros Hlen. unfold gdb.InjectReturning. now rewrite Hlen.
  - intros f fields Hret clause. rewrite Hret.
    split; [| split].
    + intros link' sql args. reflexivity.
    + reflexivity.
    + eexists. split.
      * unfold sqlite.DoInsert_ctxkey. rewrite Hret. reflexivity.
      * intros link' sql args. reflexivity.
Qed.

Lemma sqlite_DoInsert_then_DoExec_witness :
  let d := sample_driver None None [] in
  let opt := {| opt_InsertOption := InsertOptionDefault;
                opt_Returning := Some ["id"] |} in
  Go.elems (gdb.GetReturningFromCtx
              (gdb.InjectReturning [] (opt_Returning opt)))
  = ["id"].
Proof.
  intros d opt.
  destruct (sqlite_DoInsert_then_DoExec d [] None "user" [] opt)
    as (_ & _ & H).
  destruct (H "id" [] eq_refl) as (_ & Hget & _).
  exact Hget.
Defined.

Lemma sqlite_DoExec_query_error (d : Driver) (ctx : gdb.Context)
      (link : option Link) (sql : string) (args : Args) (e : gdb.Error) :
  Go.len (gdb.GetReturningFromCtx ctx) <> 0 ->
  outcome (sqlite.DoExec_query d ctx link sql args) = inl e ->
  MasterLink d = inl e
  \/ (exists l s a, DoFilter d ctx l s a = inl e)
  \/ (exists input, DoCommit d ctx input = inl e).
Proof.
  intros Hlen. unfold sqlite.DoExec_query.
  destruct (Nat.eqb_spec (Go.len (gdb.GetReturningFromCtx ctx)) 0)
    as [E | _]; [contradiction |].
  pose proof (TransactionChecks_error d ctx link) as Htc.
  destruct (TransactionChecks d ctx link) as [log [e0 | l]]; simpl in *.
  - intros [= <-]. left. now apply Htc.
  - clear Htc.
    destruct (FormatSqlBeforeExecuting d _ args) as [sql1 args1].
    simpl. unfold call, bind.
    destruct (DoFilter d ctx l sql1 args1) as [e1 | [sql2 args2]] eqn:Hf;
      simpl; [intros [= <-]; right; left; eauto |].
    destruct (DoCommit d ctx _) as [e2 | out] eqn:Hc; simpl;
      [intros [= <-]; right; right; eauto | discriminate].
Qed.

(** X15. A RETURNING statement through the querying DoExec of sqlite. A
    successful call has committed the statement once, as a query, and
    returns a Result whose GetRecords are the rows of that query and
    whose RowsAffected is their number, without error, whenever the rows
    are not nil; a failed call returns the error of opening the master
    link, of the filter or of the commit. *)
Theorem sqlite_DoExec_query_result :
  forall (d : Driver) (ctx : gdb.Context) (link : option Link)
         (sql : string) (args : Args),
    Go.len (gdb.GetReturningFromCtx ctx) <> 0 ->
    (forall res : sql.Result,
        outcome (sqlite.DoExec_query d ctx link sql args) = inr res ->
        exists (input : DoCommitInput) (out : DoCommitOutput)
               (r : sql.SqliteResult),
          In (CallDoCommit input)
             (calls (sqlite.DoExec_query d ctx link sql args))
          /\ in_Type input = SqlTypeQueryContext
          /\ DoCommit d ctx input = inr out
          /\ res = sql.Sqlite r
          /\ sqlite.GetRecords r = out_Records out
          /\ forall rows : list gdb.Record,
              out_Records out = Some rows ->
              sqlite.RowsAffected r = (Z.of_nat (length rows), None))
    /\ (forall e : gdb.Error,
           outcome (sqlite.DoExec_query d ctx link sql args) = inl e ->
           MasterLink d = inl e
           \/ (exists l s a, DoFilter d ctx l s a = inl e)
           \/ (exists input, DoCommit d ctx input = inl e)).
Proof.
  intros d ctx link sql args Hlen. split.
  - intros res Hres.
    destruct (sqlite_DoExec_query_path d ctx link sql args res Hlen Hres)
      as (l & sql2 & args2 & out & _ & _ & Hc & -> & Hcalls).
    eexists. exists out. eexists.
    split; [rewrite Hcalls; apply in_or_app; right; right; left; reflexivity |].
    split; [reflexivity |]. split; [exact Hc |]. split; [reflexivity |].
    split; [reflexivity |].
    intros rows Hrows. unfold sqlite.RowsAffected. simpl. now rewrite Hrows.
  - intros e. now apply sqlite_DoExec_query_error.
Qed.

Lemma sqlite_DoExec_query_result_witness :
  let rows := [[("id", gdb.VarInt 3)]; [("id", gdb.VarInt 4)]] in
  let d := sample_driver None (Some rows) [] in
  let ctx := gdb.InjectReturning [] (Some ["id"]) in
  exists (input : DoCommitInput) (out : DoCommitOutput)
         (r : sql.SqliteResult),
    in_Type input = SqlTypeQueryContext
    /\ DoCommit d ctx input = inr out
    /\ sqlite.GetRecords r = out_Records out.
Proof.
  intros rows d ctx.
  destruct (proj1 (sqlite_DoExec_query_result
                     d ctx None "DELETE FROM user WHERE id>2" []
                     ltac:(simpl; discriminate))
                  (sql.Sqlite {| sql.embedded := None;
                                 sql.records := Some rows |})
                  eq_refl)
    as (input & out & r & _ & Hty & Hc & _ & Hrec & _).
  exists input, out, r. auto.
Defined.

(** ** More on the RETURNING clause *)

Lemma TrimRight_idempotent (s : string) :
  Go.TrimRight (Go.TrimRight s) = Go.TrimRight s.
Proof.
  induction s as [| c r IH]; [reflexivity |].
  simpl. destruct (Go.TrimRight r) as [| c' r'] eqn:Hr.
  - destruct (Go.isSpace c) eqn:Hc; simpl; [reflexivity |].
    now rewrite Hc.
  - simpl. simpl in IH. now rewrite IH.
Qed.

(** A string that is empty or starts with a character that is not white
    space. *)
Definition no_leading_space (s : string) : Prop :=
  match s with
  | EmptyString => True
  | String c _ => Go.isSpace c = false
  end.

Lemma TrimLeft_no_leading_space (s : string) :
  no_leading_space (Go.TrimLeft s).
Proof.
  induction s as [| c r IH]; simpl; [exact I |].
  destruct (Go.isSpace c) eqn:Hc; [exact IH | exact Hc].
Qed.

Lemma TrimLeft_fixed (s : string) :
  no_leading_space s -> Go.TrimLeft s = s.
Proof.
  destruct s as [| c r]; simpl; [reflexivity |]. now intros ->.
Qed.

Lemma TrimRight_no_leading_space (s : string) :
  no_leading_space s -> no_leading_space (Go.TrimRight s).
Proof.
  destruct s as [| c r]; simpl; [auto |].
  intros Hc. destruct (Go.TrimRight r); [rewrite Hc |]; exact Hc.
Qed.

Lemma TrimSpace_idempotent (s : string) :
  Go.TrimSpace (Go.TrimSpace s) = Go.TrimSpace s.
Proof.
  unfold Go.TrimSpace.
  rewrite (TrimLeft_fixed (Go.TrimRight (Go.TrimLeft s))).
  - apply TrimRight_idempotent.
  - apply TrimRight_no_leading_space, TrimLeft_no_leading_space.
Qed.

(** X16. White space around a requested field does not matter, and a
    blank field is not dropped. For both dialects the clause built from
    the fields is the clause built from the trimmed fields; a field that
    is empty or all white space stays in the clause as an empty quoted
    identifier. *)
Theorem buildReturningClause_ignores_surrounding_space :
  (forall fields : list string,
      pgsql.buildReturningClause (map Go.TrimSpace fields)
      = pgsql.buildReturningClause fields
      /\ sqlite.buildReturningClause (map Go.TrimSpace fields)
         = sqlite.buildReturningClause fields)
  /\ (forall field : string,
         Go.TrimSpace field = EmptyString ->
         pgsql.quoteField field = (Go.dquote ++ Go.dquote)%string
         /\ sqlite.quoteField field = "``")
  /\ (forall (blank : string) (fields : list string),
         Go.TrimSpace blank = EmptyString ->
         sqlite.buildReturningClause (blank :: fields)
         = ("RETURNING "
              ++ Go.Join ("``" :: map sqlite.quoteField fields) ", ")%string).
Proof.
  assert (Hpg : forall f, pgsql.quoteField (Go.TrimSpace f)
                          = pgsql.quoteField f).
  { intros f. unfold pgsql.quoteField. now rewrite TrimSpace_idempotent. }
  assert (Hlite : forall f, sqlite.quoteField (Go.TrimSpace f)
                            = sqlite.quoteField f).
  { intros f. unfold sqlite.quoteField. now rewrite TrimSpace_idempotent. }
  assert (Hblank : forall field, Go.TrimSpace field = EmptyString ->
                                 sqlite.quoteField field = "``").
  { intros field H. unfold sqlite.quoteField. now rewrite H. }
  split; [| split].
  - intros [| f fields]; [split; reflexivity |].
    unfold pgsql.buildReturningClause, sqlite.buildReturningClause.
    cbn [map]. rewrite !fold_left_snoc, !app_nil_l.
    cbn [map]. rewrite Hpg, Hlite, !map_map.
    split; do 3 f_equal; apply map_ext; auto.
  - intros field H. split; [| now apply Hblank].
    unfold pgsql.quoteField. now rewrite H.
  - intros blank fields H. unfold sqlite.buildReturningClause.
    rewrite fold_left_snoc, app_nil_l. cbn [map].
    now rewrite (Hblank blank H).
Qed.

Lemma buildReturningClause_ignores_surrounding_space_witness :
  sqlite.quoteField "  " = "``"
  /\ sqlite.buildReturningClause ["  "; "id"] = "RETURNING ``, `id`".
Proof.
  destruct buildReturningClause_ignores_surrounding_space
    as (_ & Hblank & Hclause).
  split.
  - apply (Hblank "  "). reflexivity.
  - apply (Hclause "  " ["id"]). reflexivity.
Defined.

(** ** More on the scan-and-return helpers *)

(** X17. The rows a helper scans. Over a Result of pgsql's DoExec in the
    user's mode, InsertAndScan, UpdateAndScan and DeleteAndScan give the
    rows of the query to Structs and return its answer when there is at
    least one row, and fail with NotFound when there is none; a list set
    earlier with Returning has no effect on that, the helpers ask for all
    fields. *)
Theorem scan_helpers_over_pgsql_result :
  forall (ops : Methods) (m : Model) (fields : option (list string))
         (args : list Any) (d : Driver) (v : pgsql.Locals)
         (out : DoCommitOutput),
    pgsql.isUserReturning v = true ->
    let res := inr (sql.Pgsql (pgsql.resultOf d v out)) in
    let scanned :=
      match out_Records out with
      | Some (row :: rows) => Structs ops (row :: rows)
      | _ => Some notFoundScan
      end in
    (Insert ops (insert_model ops m args) = res ->
     InsertAndScan ops (Returning m fields) args = scanned)
    /\ (Update ops (update_model ops m args) = res ->
        UpdateAndScan ops (Returning m fields) args = scanned)
    /\ (Delete ops (delete_model ops m args) = res ->
        DeleteAndScan ops (Returning m fields) args = scanned).
Proof.
  intros ops m fields args d v out Huser res scanned.
  assert (Hscan : forall h drivers,
             scanReturning ops h drivers res = scanned).
  { intros h drivers. subst res scanned.
    unfold scanReturning, SqlResultToReturning, GetRecords, pgsql.resultOf.
    rewrite Huser. simpl.
    destruct (out_Records out) as [[| row rows] |]; reflexivity. }
  destruct (helpers_scan ops (Returning m fields) args) as (Hi & Hu & Hd).
  rewrite Hi, Hu, Hd.
  change (insert_model ops (Returning m fields) args)
    with (insert_model ops m args).
  change (update_model ops (Returning m fields) args)
    with (update_model ops m args).
  change (delete_model ops (Returning m fields) args)
    with (delete_model ops m args).
  repeat split; intros ->; apply Hscan.
Qed.

Lemma scan_helpers_over_pgsql_result_witness :
  let rows := Some [[("id", gdb.VarInt 7)]] : gdb.Result in
  let d := sample_driver None rows [] in
  let v := pgsql.returningMode "primary_key"
             (gdb.InjectReturning [] (Some ["*"])) "DELETE FROM user" in
  let out := {| out_Result := None; out_Records := rows |} in
  let ops := {| Data := fun m _ => m;
                Where := fun m _ _ => m;
                Insert := fun _ => inr (sql.Pgsql (pgsql.resultOf d v out));
                InsertIgnore := fun _ => inr (sql.Native sample_native);
                Save := fun _ => inr (sql.Native sample_native);
                Replace := fun _ => inr (sql.Native sample_native);
                Update := fun _ => inr (sql.Native sample_native);
                Delete := fun _ => inr (sql.Pgsql (pgsql.resultOf d v out));
                Structs := fun _ => None |} in
  let m := {| returning := None; data := []; where_ := [] |} in
  DeleteAndScan ops (Returning m (Some ["id"])) [] = None.
Proof.
  intros rows d v out ops m.
  destruct (scan_helpers_over_pgsql_result
              ops m (Some ["id"]) [] d v out eq_refl) as (_ & _ & Hd).
  apply Hd. reflexivity.
Defined.

(* ===================================================================== *)
(** ** contrib/drivers/dm: Tables                                         *)
(* ===================================================================== *)

Module dm.

(** tablesSqlByUser returns tables owned by current user. *)
Definition tablesSqlByUser : string :=
  "SELECT TABLE_NAME FROM USER_TABLES ORDER BY TABLE_NAME".

(** fmt.Sprintf(tablesSqlBySchema, owner) *)
Definition tablesSqlBySchema (owner : string) : string :=
  "SELECT TABLE_NAME FROM ALL_TABLES WHERE OWNER = '" ++ owner
    ++ "' ORDER BY TABLE_NAME".

(** What the driver and its packages answer to Tables. [VarString] stands
    for the method String of gvar.Var. *)
Record Driver : Type :=
  { GetSchema : string;
    GetOrDefaultStr : string -> list string -> string;
    SlaveLink : list string -> gdb.Error + core.Link;
    DoSelect : gdb.Context -> core.Link -> string -> gdb.Error + gdb.Result;
    VarString : gdb.Var -> string }.

(** The body of the loop over the result: [tables] is nil until the
    first append. *)
Definition collect (d : Driver) (tables : option (list string))
           (m : gdb.Record) : option (list string) :=
  match gdb.record_get m "TABLE_NAME" with
  | Some v => Some (Go.elems tables ++ [VarString d v])
  | None => tables
  end.

(** Tables retrieves and returns the tables of current schema. *)
Definition Tables (d : Driver) (ctx : gdb.Context) (schema : list string)
  : gdb.Error + option (list string) :=
  let usedSchema := GetOrDefaultStr d (GetSchema d) schema in
  match SlaveLink d schema with
  | inl err => inl err
  | inr link =>
      let query :=
        if negb (String.eqb usedSchema EmptyString)
        then tablesSqlBySchema (Go.ToUpper usedSchema)
        else tablesSqlByUser in
      match DoSelect d ctx link query with
      | inl err => inl err
      | inr result => inr (fold_left (collect d) (Go.elems result) None)
      end
  end.

End dm.

(** The table names of a result: the TABLE_NAME value of every row that
    has one, in row order. *)
Definition table_names (d : dm.Driver) (rows : list gdb.Record)
  : list string :=
  flat_map (fun m =>
              match gdb.record_get m "TABLE_NAME" with
              | Some v => [dm.VarString d v]
              | None => []
              end) rows.

Lemma collect_names (d : dm.Driver) (rows : list gdb.Record)
      (tables : option (list string)) :
  Go.elems (fold_left (dm.collect d) rows tables)
  = Go.elems tables ++ table_names d rows
  /\ (fold_left (dm.collect d) rows tables = None <->
      tables = None /\ table_names d rows = []).
Proof.
  revert tables. induction rows as [| m rows IH]; intros tables; simpl.
  - rewrite app_nil_r. split; [reflexivity |]. tauto.
  - destruct (IH (dm.collect d tables m)) as [IHe IHn].
    rewrite IHe, IHn. unfold dm.collect.
    destruct (gdb.record_get m "TABLE_NAME") as [v |]; simpl.
    + rewrite <- app_assoc. split; [reflexivity |].
      split; [intros [[=] _] | intros [_ [=]]].
    + split; [reflexivity | tauto].
Qed.

(** X18. The tables that dm's Tables returns. When the slave link cannot
    be opened its error is returned and nothing is selected. Otherwise
    one statement is selected: the tables of the current user when the
    schema in use is empty, else the tables whose owner is that schema in
    upper case. An error of the select is returned; on success the
    names are the TABLE_NAME values of the rows that have one, in row
    order, rows without that column being skipped, and the slice is nil
    when no row has one. *)
Theorem dm_Tables_names :
  forall (d : dm.Driver) (ctx : gdb.Context) (schema : list string),
    (forall e, dm.SlaveLink d schema = inl e -> dm.Tables d ctx schema = inl e)
    /\ forall link : core.Link,
        dm.SlaveLink d schema = inr link ->
        let used := dm.GetOrDefaultStr d (dm.GetSchema d) schema in
        let query :=
          if String.eqb used EmptyString then dm.tablesSqlByUser
          else dm.tablesSqlBySchema (Go.ToUpper used) in
        (forall e, dm.DoSelect d ctx link query = inl e ->
                   dm.Tables d ctx schema = inl e)
        /\ (forall result : gdb.Result,
               dm.DoSelect d ctx link query = inr result ->
               exists tables : option (list string),
                 dm.Tables d ctx schema = inr tables
                 /\ Go.elems tables = table_names d (Go.elems result)
                 /\ (tables = None <-> table_names d (Go.elems result) = [])
                 /\ Go.len tables <= Go.len result).
Proof.
  intros d ctx schema. split.
  - intros e He. unfold dm.Tables. now rewrite He.
  - intros link Hl used query. unfold dm.Tables. rewrite Hl. fold used.
    assert (Hq : (if negb (String.eqb used EmptyString)
                  then dm.tablesSqlBySchema (Go.ToUpper used)
                  else dm.tablesSqlByUser) = query).
    { subst query. destruct (String.eqb used EmptyString); reflexivity. }
    rewrite Hq. split.
    + intros e He. now rewrite He.
    + intros result Hr. rewrite Hr. eexists. split; [reflexivity |].
      destruct (collect_names d (Go.elems result) None) as [He Hn].
      split; [exact He |]. split; [rewrite Hn; tauto |].
      unfold Go.len at 1.
      replace (match fold_left (dm.collect d) (Go.elems result) None with
               | Some l => length l
               | None => 0
               end)
        with (length (Go.elems (fold_left (dm.collect d) (Go.elems result)
                                          None)))
        by (destruct (fold_left _ _ _); reflexivity).
      rewrite He. simpl.
      destruct result as [rows |]; simpl; [| lia].
      clear. induction rows as [| m rows IH]; simpl; [lia |].
      rewrite length_app.
      destruct (gdb.record_get m "TABLE_NAME"); simpl; lia.
Qed.

Lemma dm_Tables_names_witness :
  let d := {| dm.GetSchema := "sysdba";
              dm.GetOrDefaultStr := fun def _ => def;
              dm.SlaveLink := fun _ => inr sample_link;
              dm.DoSelect := fun _ _ _ =>
                inr (Some [[("TABLE_NAME", gdb.VarStr "A_TABLES")];
                           [("OTHER", gdb.VarStr "x")];
                           [("TABLE_NAME", gdb.VarStr "B_TABLES")]]);
              dm.VarString := fun v => match v with
                                       | gdb.VarStr s => s
                                       | gdb.VarInt _ => "0"
                                       end |} in
  exists tables : option (list string),
    dm.Tables d [] [] = inr tables
    /\ Go.elems tables = ["A_TABLES"; "B_TABLES"].
Proof.
  intros d.
  destruct (proj2 (dm_Tables_names d [] []) sample_link eq_refl)
    as (_ & Hok).
  destruct (Hok _ eq_refl) as (tables & Ht & He & _).
  exists tables. split; [exact Ht | exact He].
Defined.
